(** * Intrinsic value calculator: the JavaScript valuation engine

    A shallow embedding of [src/ValuationCalculator.js].  JavaScript Numbers
    are IEEE 754 binary64 values, so they are embedded as Rocq's primitive
    floats: [+], [-], [*], [/], [Math.sqrt], [Math.abs] and the relational
    operators are the processor operations, and every numeric literal of the
    source is read with the same round-to-nearest conversion.

    The definitions come first:
    - [JS]: the fragment of the language runtime the engine relies on;
    - [Store]: objects as cells of a mutable store, the JSON deep copy and
      the currency normaliser [convertToUSD]; [Frame]: what it may write;
    - [Engine]: the typed view of a company record and the valuation
      methods, the dynamic weights, the confidence and the recommendation;
    - [Loader]: the constructor, which ties the two together;
    - [Cascade] and [Fixtures]: the weight cascade as a function of its
      tests, and the records of the examples.
    The properties follow, the engine's first and the normaliser's last. *)

From Stdlib Require Import ZArith List String Bool Lia Floats DecimalString Sorted.
From Stdlib Require OrderedTypeEx.
Import ListNotations.
Set Warnings "-inexact-float,-register-all".

(** ** The runtime fragment *)

Module JS.

Local Open Scope string_scope.
Local Open Scope float_scope.

Definition number := float.

(** Relational operators on Numbers; a comparison with NaN is [false]. *)
Definition lt (a b : number) : bool := a <? b.
Definition le (a b : number) : bool := a <=? b.
Definition gt (a b : number) : bool := b <? a.

(** [===] on Numbers: NaN differs from itself, the two zeros are equal. *)
Definition strict_eq (a b : number) : bool := a =? b.

(** Truthiness of a Number: everything but the zeros and NaN. *)
Definition truthy_number (a : number) : bool := negb (is_zero a || is_nan a).

(** Exact integer readings of a float, through its mantissa and exponent. *)
Definition trunc_abs (x : number) : option Z :=
  match Prim2SF x with
  | S754_zero _ => Some 0%Z
  | S754_finite _ m e =>
      Some (if (0 <=? e)%Z then Z.shiftl (Zpos m) e else Z.shiftr (Zpos m) (- e))
  | _ => None
  end.

Definition is_integral (x : number) : bool :=
  match Prim2SF x with
  | S754_zero _ => true
  | S754_finite _ m e => (0 <=? e)%Z || (Z.land (Zpos m) (Z.ones (- e)) =? 0)%Z
  | _ => false
  end.

Definition is_odd_integer (x : number) : bool :=
  is_integral x && match trunc_abs x with Some z => Z.odd z | None => false end.

(** The Number nearest to an integer (round to nearest, ties to even). *)
Definition of_Z (z : Z) : number := SF2Prim (binary_normalize prec emax z 0 false).

Definition of_nat (n : nat) : number := of_Z (Z.of_nat n).

(** *** Math.abs, Math.sqrt, Math.min, Math.max *)

Definition Math_abs (x : number) : number := abs x.
Definition Math_sqrt (x : number) : number := sqrt x.

(** [Math.min]: NaN if any argument is NaN, and -0 is below +0. *)
Definition min2 (lowest x : number) : number :=
  if is_nan lowest || is_nan x then nan
  else if is_zero x && is_zero lowest then (if get_sign x then x else lowest)
  else if x <? lowest then x else lowest.

Definition Math_min (args : list number) : number := fold_left min2 args infinity.

Definition max2 (highest x : number) : number :=
  if is_nan highest || is_nan x then nan
  else if is_zero x && is_zero highest then (if get_sign x then highest else x)
  else if highest <? x then x else highest.

Definition Math_max (args : list number) : number := fold_left max2 args neg_infinity.

(** *** Math.pow

    ECMA-262 fixes the results at NaN, the zeros, the infinities and negative
    bases, and leaves the remaining case to an approximation chosen by the
    implementation.  Here an integral exponent is evaluated by repeated
    squaring (so [Math_pow x 1] is [x] and [Math_pow x 2] is [x * x]) and any
    other exponent as [exp (y * ln x)], both series being summed in binary64.
    Only evaluations of this model are used below, never its accuracy. *)

Fixpoint pow_pos (b : number) (p : positive) : number :=
  match p with
  | xH => b
  | xO p' => let h := pow_pos b p' in h * h
  | xI p' => let h := pow_pos b p' in b * (h * h)
  end.

Definition ln2 : number := 0.6931471805599453.

Definition ln (x : number) : number :=
  let (m0, e0) := Z.frexp x in
  let '(m, e) := if m0 <? 0.7071067811865476 then (m0 * 2, (e0 - 1)%Z) else (m0, e0) in
  let s := (m - 1) / (m + 1) in
  let s2 := s * s in
  let poly := fold_right (fun k acc => 1 / of_Z k + s2 * acc) 0
                [1; 3; 5; 7; 9; 11; 13; 15; 17; 19; 21; 23; 25]%Z in
  of_Z e * ln2 + 2 * s * poly.

Definition round_to_Z (x : number) : Z :=
  match trunc_abs (abs x + 0.5) with
  | Some z => if x <? 0 then (- z)%Z else z
  | None => 0%Z
  end.

Definition exp (t : number) : number :=
  if is_nan t then nan
  else if t <? -800 then 0
  else if 800 <? t then infinity
  else
    let k := round_to_Z (t / ln2) in
    let r := t - of_Z k * ln2 in
    let series := fold_right (fun i acc => 1 + r / of_Z i * acc) 1
                    [1; 2; 3; 4; 5; 6; 7; 8; 9; 10; 11; 12; 13; 14; 15; 16; 17; 18; 19; 20]%Z in
    Z.ldexp series k.

Definition Math_pow (base exponent : number) : number :=
  if is_nan exponent then nan
  else if is_zero exponent then 1
  else if is_nan base then nan
  else if base =? infinity then (if 0 <? exponent then infinity else 0)
  else if base =? neg_infinity then
    (if 0 <? exponent
     then (if is_odd_integer exponent then neg_infinity else infinity)
     else (if is_odd_integer exponent then neg_zero else 0))
  else if is_zero base then
    (if get_sign base
     then (if 0 <? exponent
           then (if is_odd_integer exponent then neg_zero else 0)
           else (if is_odd_integer exponent then neg_infinity else infinity))
     else (if 0 <? exponent then 0 else infinity))
  else if exponent =? infinity then
    (if 1 <? abs base then infinity else if abs base =? 1 then nan else 0)
  else if exponent =? neg_infinity then
    (if 1 <? abs base then 0 else if abs base =? 1 then nan else infinity)
  else if is_integral exponent then
    match trunc_abs exponent with
    | Some (Zpos p) => if exponent <? 0 then 1 / pow_pos base p else pow_pos base p
    | _ => 1
    end
  else if base <? 0 then nan
  else exp (exponent * ln base).

(** *** Number.prototype.toFixed(0) and Number::toString *)

Definition digits (z : Z) : string := NilZero.string_of_uint (N.to_uint (Z.to_N z)).

(** Shortest decimal digits that read back as [x], for a finite [x >= 1e21]
    (an integer [M]): the least [k] such that some [s * 10^(n-k)] rounds to
    [x], the candidate closest to [M] winning. *)
Definition shortest_candidate (x : number) (M : Z) (n k : nat) : option Z :=
  let p := (10 ^ Z.of_nat (n - k))%Z in
  let lo := (M / p * p)%Z in
  let hi := (lo + p)%Z in
  let ok v := Leibniz.eqb (of_Z v) x in
  match ok lo, ok hi with
  | true, true => Some (if (M - lo <=? hi - M)%Z then lo else hi)
  | true, false => Some lo
  | false, true => Some hi
  | false, false => None
  end.

Fixpoint strip_zeros (fuel : nat) (v : Z) : Z :=
  match fuel with
  | O => v
  | S f => if (v mod 10 =? 0)%Z then strip_zeros f (v / 10)%Z else v
  end.

Definition exponential (v : Z) : string :=
  let all := digits v in
  let e := digits (Z.of_nat (String.length all - 1)) in
  let s := digits (strip_zeros (String.length all) v) in
  match s with
  | String d EmptyString => String d ("e+" ++ e)
  | String d rest => String d ("." ++ rest ++ "e+" ++ e)
  | EmptyString => EmptyString
  end.

Definition toString_large (x : number) : string :=
  if x =? infinity then "Infinity"
  else match trunc_abs x with
       | Some M =>
           let n := String.length (digits M) in
           match List.find (fun o => match o with Some _ => true | None => false end)
                   (List.map (shortest_candidate x M n) (seq 1 17)) with
           | Some (Some v) => exponential v
           | _ => exponential M
           end
       | None => "NaN"
       end.

Definition round_half_up (a : number) : Z :=
  match Prim2SF a with
  | S754_finite _ m e =>
      if (0 <=? e)%Z then Z.shiftl (Zpos m) e
      else Z.shiftr (Zpos m + Z.shiftl 1 (- e - 1)) (- e)
  | _ => 0%Z
  end.

Definition toFixed0 (x : number) : string :=
  if is_nan x then "NaN"
  else
    let sign := if x <? 0 then "-" else EmptyString in
    let a := abs x in
    if 1e21 <=? a then sign ++ toString_large a
    else sign ++ digits (round_half_up a).

(** [Number.prototype.toFixed(fractionDigits)] for any number of digits:
    the integer [n] for which [n / 10^f] is nearest to the value, the larger
    of two equally near, written with [f] digits after the point. *)
Definition round_scaled (fractionDigits : nat) (a : number) : Z :=
  match Prim2SF a with
  | S754_finite _ m e =>
      let scaled := (Zpos m * 10 ^ Z.of_nat fractionDigits)%Z in
      if (0 <=? e)%Z then Z.shiftl scaled e
      else Z.shiftr (Z.shiftl scaled 1 + Z.shiftl 1 (- e)) (- e + 1)
  | _ => 0%Z
  end.

Fixpoint zeros (n : nat) : string :=
  match n with
  | O => EmptyString
  | S n' => "0" ++ zeros n'
  end.

Definition toFixed (fractionDigits : nat) (x : number) : string :=
  if is_nan x then "NaN"
  else
    let sign := if x <? 0 then "-" else EmptyString in
    let a := abs x in
    if 1e21 <=? a then sign ++ toString_large a
    else
      let m := digits (round_scaled fractionDigits a) in
      match fractionDigits with
      | O => sign ++ m
      | S _ =>
          let m := zeros (S fractionDigits - String.length m) ++ m in
          let k := String.length m in
          sign ++ substring 0 (k - fractionDigits) m ++ "."
               ++ substring (k - fractionDigits) fractionDigits m
      end.

(** *** Strings *)

(** [String.prototype.includes]. *)
Fixpoint includes (s needle : string) : bool :=
  String.prefix needle s ||
  match s with
  | EmptyString => false
  | String _ s' => includes s' needle
  end.

(** [Array.prototype.sort] with the default comparison: a stable ascending
    sort of strings by code units. *)
Fixpoint insert_sorted (x : string) (l : list string) : list string :=
  match l with
  | [] => [x]
  | y :: l' => if String.ltb x y then x :: l else y :: insert_sorted x l'
  end.

Definition sort (l : list string) : list string :=
  fold_left (fun acc x => insert_sorted x acc) l [].

(** What a sorted array is: no element is below an earlier one. *)
Definition ascending : list string -> Prop :=
  StronglySorted (fun a b => String.ltb b a = false).

End JS.

(** ** Results of fallible code *)

(** A method either returns or throws a [TypeError] (a property read on
    [undefined] or [null], a cyclic structure handed to [JSON.stringify]). *)
Inductive outcome (A : Type) : Type :=
| Ok (a : A)
| TypeError.

Arguments Ok {A} a.
Arguments TypeError {A}.

Definition bind {A B : Type} (m : outcome A) (k : A -> outcome B) : outcome B :=
  match m with
  | Ok a => k a
  | TypeError => TypeError
  end.

Notation "'do' x <- m ; k" := (bind m (fun x => k))
  (at level 10, x name, m at level 100, k at level 200).

(** ** Objects, the JSON deep copy and the currency normaliser *)

Module Store.

Import JS.
Local Open Scope string_scope.

(** Objects live in a store and are handled through references, so that two
    names for one object see each other's writes.  A cell is a plain object
    (its own properties, in creation order) or an array.  JavaScript lists
    integer-like keys before the others; the normaliser visits each year
    once whatever the order, and the engine sorts the years itself. *)
Definition loc := nat.

Inductive value : Type :=
| VUndef
| VNull
| VBool (b : bool)
| VNum (n : number)
| VStr (s : string)
| VRef (l : loc).

Inductive cell : Type :=
| CObj (props : list (string * value))
| CArr (elems : list value).

Definition store := list cell.

(** The parsed form of a JSON text. *)
Inductive json : Type :=
| JNull
| JBool (b : bool)
| JNum (n : number)
| JStr (s : string)
| JArr (elems : list json)
| JObj (props : list (string * json)).

(** Computations read and write the store and may throw. *)
Definition M (A : Type) : Type := store -> outcome A * store.

Definition ret {A : Type} (a : A) : M A := fun s => (Ok a, s).

Definition throw {A : Type} : M A := fun s => (TypeError, s).

Definition bindM {A B : Type} (m : M A) (k : A -> M B) : M B :=
  fun s => match m s with
           | (Ok a, s') => k a s'
           | (TypeError, s') => (TypeError, s')
           end.

Notation "x <-- m ;; k" := (bindM m (fun x => k))
  (at level 61, m at next level, right associativity).
Notation "m ;;; k" := (bindM m (fun _ => k))
  (at level 61, right associativity).

(** [read f]: a computation that only looks at the store. *)
Definition read {A : Type} (f : store -> outcome A) : M A := fun s => (f s, s).

(** [array.forEach(callback)] over a list of keys fixed beforehand. *)
Fixpoint forEach {A : Type} (l : list A) (callback : A -> M unit) : M unit :=
  match l with
  | [] => ret tt
  | x :: l' => callback x ;;; forEach l' callback
  end.

(** *** Values *)

Definition truthy (v : value) : bool :=
  match v with
  | VUndef | VNull => false
  | VBool b => b
  | VNum n => truthy_number n
  | VStr s => negb (String.eqb s EmptyString)
  | VRef _ => true
  end.

(** [v === 'text'] *)
Definition is_string (v : value) (text : string) : bool :=
  match v with
  | VStr s => String.eqb s text
  | _ => false
  end.

(** [v !== undefined && v !== null] *)
Definition is_present (v : value) : bool :=
  match v with
  | VUndef | VNull => false
  | _ => true
  end.

(** *** Properties *)

Fixpoint lookup (key : string) (props : list (string * value)) : value :=
  match props with
  | [] => VUndef
  | (k, v) :: props' => if String.eqb k key then v else lookup key props'
  end.

(** Assignment keeps the position of an existing property and appends a new one. *)
Fixpoint update (key : string) (v : value) (props : list (string * value))
  : list (string * value) :=
  match props with
  | [] => [(key, v)]
  | (k, w) :: props' =>
      if String.eqb k key then (k, v) :: props' else (k, w) :: update key v props'
  end.

Definition indexKey (i : nat) : string := NilEmpty.string_of_uint (Nat.to_uint i).

Definition indexKeys (n : nat) : list string := List.map indexKey (seq 0 n).

(** The index a property key denotes, below [n]. *)
Definition keyIndex (n : nat) (key : string) : option nat :=
  List.find (fun i => String.eqb (indexKey i) key) (seq 0 n).

Definition elemProp (elems : list value) (key : string) : value :=
  if String.eqb key "length" then VNum (of_nat (List.length elems))
  else match keyIndex (List.length elems) key with
       | Some i => nth i elems VUndef
       | None => VUndef
       end.

Definition charProp (s : string) (key : string) : value :=
  if String.eqb key "length" then VNum (of_nat (String.length s))
  else match keyIndex (String.length s) key with
       | Some i => match String.get i s with
                   | Some c => VStr (String c EmptyString)
                   | None => VUndef
                   end
       | None => VUndef
       end.

(** [base[key]], for the keys the normaliser uses: its fixed field names and
    the own keys of the object it iterates (no inherited member is ever
    named). *)
Definition getProp (base : value) (key : string) : M value :=
  read (fun s =>
    match base with
    | VUndef | VNull => TypeError
    | VBool _ | VNum _ => Ok VUndef
    | VStr text => Ok (charProp text key)
    | VRef l =>
        match nth_error s l with
        | Some (CObj props) => Ok (lookup key props)
        | Some (CArr elems) => Ok (elemProp elems key)
        | None => Ok VUndef
        end
    end).

(** [Object.keys(v)] *)
Definition ownKeys (v : value) : M (list string) :=
  read (fun s =>
    match v with
    | VUndef | VNull => TypeError
    | VBool _ | VNum _ => Ok []
    | VStr text => Ok (indexKeys (String.length text))
    | VRef l =>
        match nth_error s l with
        | Some (CObj props) => Ok (List.map fst props)
        | Some (CArr elems) => Ok (indexKeys (List.length elems))
        | None => Ok []
        end
    end).

Fixpoint replace (l : loc) (c : cell) (s : store) : store :=
  match s, l with
  | [], _ => []
  | _ :: s', O => c :: s'
  | c' :: s', S l' => c' :: replace l' c s'
  end.

(** [base[key] = v] in strict mode: it throws on a primitive base.  The
    normaliser only ever assigns to plain objects. *)
Definition setProp (base : value) (key : string) (v : value) : M unit :=
  fun s =>
    match base with
    | VRef l =>
        match nth_error s l with
        | Some (CObj props) => (Ok tt, replace l (CObj (update key v props)) s)
        | _ => (TypeError, s)
        end
    | _ => (TypeError, s)
    end.

(** *** JSON.parse(JSON.stringify(data)) *)

(** A Number is written as [null] unless finite, and both zeros as [0]. *)
Definition numberToJson (n : number) : json :=
  if PrimFloat.is_finite n then JNum (if PrimFloat.is_zero n then PrimFloat.zero else n)
  else JNull.

(** [JSON.stringify], up to the parsed text: properties holding [undefined]
    are left out, [undefined] in an array is written [null], and a structure
    that contains itself throws.  A chain of distinct references is no
    longer than the store, which bounds the descent. *)
Fixpoint serialize (fuel : nat) (s : store) (v : value) {struct fuel} : outcome json :=
  match v with
  | VUndef | VNull => Ok JNull
  | VBool b => Ok (JBool b)
  | VNum n => Ok (numberToJson n)
  | VStr text => Ok (JStr text)
  | VRef l =>
      match fuel with
      | O => TypeError
      | S fuel' =>
          match nth_error s l with
          | Some (CObj props) =>
              let fix members (props : list (string * value)) : outcome (list (string * json)) :=
                match props with
                | [] => Ok []
                | (_, VUndef) :: props' => members props'
                | (k, w) :: props' =>
                    do j <- serialize fuel' s w;
                    do js <- members props';
                    Ok ((k, j) :: js)
                end in
              do js <- members props; Ok (JObj js)
          | Some (CArr elems) =>
              let fix items (elems : list value) : outcome (list json) :=
                match elems with
                | [] => Ok []
                | w :: elems' =>
                    do j <- serialize fuel' s w;
                    do js <- items elems';
                    Ok (j :: js)
                end in
              do js <- items elems; Ok (JArr js)
          | None => TypeError
          end
      end
  end.

(** [JSON.parse]: every object and array of the text becomes a new cell. *)
Fixpoint materialize (j : json) (s : store) {struct j} : store * value :=
  match j with
  | JNull => (s, VNull)
  | JBool b => (s, VBool b)
  | JNum n => (s, VNum n)
  | JStr text => (s, VStr text)
  | JArr elems =>
      let fix items (elems : list json) (s : store) : store * list value :=
        match elems with
        | [] => (s, [])
        | j' :: elems' =>
            let '(s1, v) := materialize j' s in
            let '(s2, vs) := items elems' s1 in
            (s2, v :: vs)
        end in
      let '(s', vs) := items elems s in
      ((s' ++ [CArr vs])%list, VRef (List.length s'))
  | JObj props =>
      let fix members (props : list (string * json)) (s : store)
        : store * list (string * value) :=
        match props with
        | [] => (s, [])
        | (k, j') :: props' =>
            let '(s1, v) := materialize j' s in
            let '(s2, vs) := members props' s1 in
            (s2, (k, v) :: vs)
        end in
      let '(s', vs) := members props s in
      ((s' ++ [CObj vs])%list, VRef (List.length s'))
  end.

Definition deepCopy (data : value) : M value :=
  fun s =>
    match serialize (S (List.length s)) s data with
    | Ok j => let '(s', v) := materialize j s in (Ok v, s')
    | TypeError => (TypeError, s)
    end.

(** *** The currency normaliser *)

Section Runtime.

(** The conversion of a string and of an object to a Number belong to the
    language runtime; the normaliser uses them only if a monetary field or
    the rate is not a Number. *)
Variable StringToNumber : string -> number.
Variable ObjectToNumber : store -> loc -> outcome number.

Definition ToNumber (v : value) : M number :=
  read (fun s =>
    match v with
    | VUndef => Ok PrimFloat.nan
    | VNull => Ok PrimFloat.zero
    | VBool b => Ok (if b then PrimFloat.one else PrimFloat.zero)
    | VNum n => Ok n
    | VStr text => Ok (StringToNumber text)
    | VRef l => ObjectToNumber s l
    end).

(** [a * b] *)
Definition multiply (a b : value) : M value :=
  x <-- ToNumber a ;;
  y <-- ToNumber b ;;
  ret (VNum (PrimFloat.mul x y)).

Definition monetaryFields : list string :=
  ["revenue"; "grossProfit"; "operatingIncome"; "netIncome";
   "freeCashFlow"; "operatingCashFlow"; "capex"; "totalAssets";
   "totalDebt"; "cashAndEquivalents"; "shareholdersEquity";
   "workingCapital"; "totalEquity"; "retainedEarnings"].

(** [if (object[field]) object[field] = object[field] * conversionRate] *)
Definition convertIfTruthy (object : value) (field : string) (conversionRate : value) : M unit :=
  current <-- getProp object field ;;
  if truthy current then
    current <-- getProp object field ;;
    converted <-- multiply current conversionRate ;;
    setProp object field converted
  else ret tt.

Definition convertYear (normalizedData conversionRate : value) (year : string) : M unit :=
  financialHistory <-- getProp normalizedData "financialHistory" ;;
  yearData <-- getProp financialHistory year ;;
  forEach monetaryFields (fun field =>
    current <-- getProp yearData field ;;
    if is_present current then
      current <-- getProp yearData field ;;
      converted <-- multiply current conversionRate ;;
      setProp yearData field converted
    else ret tt) ;;;
  convertIfTruthy yearData "bookValuePerShare" conversionRate ;;;
  convertIfTruthy yearData "eps" conversionRate ;;;
  convertIfTruthy yearData "dividend" conversionRate.

Definition convertDividendInfo (normalizedData conversionRate : value) : M unit :=
  dividendInfo <-- getProp normalizedData "dividendInfo" ;;
  if truthy dividendInfo then
    convertIfTruthy dividendInfo "currentAnnualDividend" conversionRate
  else ret tt.

Definition markConverted (data normalizedData conversionRate : value) : M unit :=
  setProp normalizedData "currency" (VStr "USD") ;;;
  currency <-- getProp data "currency" ;;
  setProp normalizedData "convertedFromCurrency" currency ;;;
  setProp normalizedData "conversionRate" conversionRate.

Definition convertFromDKK (data normalizedData : value) : M unit :=
  exchangeRate <-- getProp data "exchangeRate" ;;
  conversionRate <-- getProp exchangeRate "dkkToUsd" ;;
  financialHistory <-- getProp normalizedData "financialHistory" ;;
  years <-- ownKeys financialHistory ;;
  forEach years (convertYear normalizedData conversionRate) ;;;
  convertDividendInfo normalizedData conversionRate ;;;
  markConverted data normalizedData conversionRate.

Definition convertToUSD (data : value) : M value :=
  currency <-- getProp data "currency" ;;
  if negb (truthy currency) || is_string currency "USD" then ret data
  else
    normalizedData <-- deepCopy data ;;
    currency <-- getProp data "currency" ;;
    (if is_string currency "DKK" then
       exchangeRate <-- getProp data "exchangeRate" ;;
       if truthy exchangeRate then convertFromDKK data normalizedData else ret tt
     else ret tt) ;;;
    ret normalizedData.

End Runtime.

End Store.

(** ** Stores that grow at the end

    The vocabulary for what the normaliser may write: a store that still
    starts with the cells it was given, and computations that keep it so. *)

Module Frame.

Import Store.
Local Open Scope nat_scope.
Local Open Scope list_scope.

(** [s] still starts with [base]: no cell of [base] was written. *)
Definition extends (base s : store) : Prop := exists added, s = (base ++ added)%list.

(** A value that does not point below [n], and a cell that holds such
    values only. *)
Definition value_above (n : nat) (v : value) : Prop :=
  match v with
  | VRef l => n <= l
  | _ => True
  end.

Definition cell_above (n : nat) (c : cell) : Prop :=
  match c with
  | CObj props => Forall (fun kv => value_above n (snd kv)) props
  | CArr elems => Forall (value_above n) elems
  end.

(** The cells from [n] on point to cells from [n] on. *)
Definition closed_above (n : nat) (s : store) : Prop :=
  forall l c, n <= l -> nth_error s l = Some c -> cell_above n c.

Definition separate (base s : store) : Prop :=
  extends base s /\ closed_above (List.length base) s.

(** From a separate store the computation reaches a separate store, and a
    result it returns satisfies [P]. *)
Definition keeps {A : Type} (base : store) (P : A -> Prop) (m : M A) : Prop :=
  forall s, separate base s ->
    separate base (snd (m s)) /\
    match fst (m s) with
    | Ok a => P a
    | TypeError => True
    end.

(** The computation only writes cells added to [base]. *)
Definition spares {A : Type} (base : store) (m : M A) : Prop :=
  forall s, extends base s -> extends base (snd (m s)).

Definition anything {A : Type} (_ : A) : Prop := True.

(** Each step either keeps the store separate or, at the end, spares
    [base]: together they frame it. *)
Definition frames {A : Type} (base : store) (m : M A) : Prop :=
  forall s, separate base s -> extends base (snd (m s)).


(** A numeric field of a record read from JSON: a Number, [null] or
    absent. *)
Definition numeric (v : value) : Prop :=
  match v with
  | VUndef | VNull | VNum _ => True
  | _ => False
  end.

(** [if (test(v)) v = v * rate] on such a field, and on the properties of
    an object. *)
Definition converted (test : value -> bool) (rate : JS.number) (v : value) : value :=
  if test v then
    match v with
    | VNum n => VNum (PrimFloat.mul n rate)
    | _ => v
    end
  else v.

Definition convertField (test : value -> bool) (rate : JS.number)
    (props : list (string * value)) (field : string) : list (string * value) :=
  if test (lookup field props)
  then update field (converted test rate (lookup field props)) props
  else props.

(** The fields converted [if (yearData.field)], after the monetary ones. *)
Definition perShareFields : list string :=
  ["bookValuePerShare"%string; "eps"%string; "dividend"%string].


End Frame.

(** ** The valuation engine *)

Module Engine.

Import JS.
Local Open Scope string_scope.
Local Open Scope float_scope.

(** *** The company record, as the engine reads it

    A numeric field of a record read from JSON holds a Number or [null], or
    is absent ([undefined]). *)
Inductive jsval : Type :=
| Undefined
| Null
| Num (n : number).

Definition ToNumber (v : jsval) : number :=
  match v with
  | Undefined => nan
  | Null => 0
  | Num n => n
  end.

Definition truthy (v : jsval) : bool :=
  match v with
  | Num n => truthy_number n
  | _ => false
  end.

Record YearRecord := mkYearRecord {
  netIncome : jsval;
  operatingIncome : jsval;
  freeCashFlow : jsval;
  operatingCashFlow : jsval;
  capex : jsval;
  totalAssets : jsval;
  totalDebt : jsval;
  cashAndEquivalents : jsval;
  shareholdersEquity : jsval;
  bookValuePerShare : jsval;
  eps : jsval;
  dividend : jsval
}.

Record MarketData := mkMarketData {
  currentPrice : jsval;
  marketCap : jsval;
  sharesOutstanding : jsval;
  beta : jsval
}.

Record RiskFactors := mkRiskFactors {
  riskFreeRate : jsval;
  marketRiskPremium : jsval;
  specificRiskPremium : jsval
}.

Record Assumptions := mkAssumptions {
  terminalGrowthRate : jsval;
  taxRate : jsval;
  dividendGrowthRate : jsval
}.

Record GrowthMetrics := mkGrowthMetrics {
  fcfGrowth5Y : jsval;
  revenueGrowth5Y : jsval
}.

Record KeyRatios := mkKeyRatios {
  peRatio : jsval;
  pbRatio : jsval;
  evToEbitda : jsval;
  debtToEquity : jsval
}.

Record IndustryBenchmarks := mkIndustryBenchmarks {
  averagePE : jsval;
  averagePB : jsval
}.

Record DividendInfo := mkDividendInfo {
  currentDividendYield : jsval;
  currentAnnualDividend : jsval
}.

Record CompanyRecord := mkCompanyRecord {
  ticker : string;
  companyName : string;
  industry : string;
  marketData : MarketData;
  riskFactors : RiskFactors;
  financialHistory : list (string * YearRecord);
  keyRatios : KeyRatios;
  assumptions : Assumptions;
  growthMetrics : GrowthMetrics;
  industryBenchmarks : IndustryBenchmarks;
  dividendInfo : option DividendInfo
}.

(** [this]: the record as loaded and its currency-normalised copy. *)
Record Calculator := mkCalculator {
  data : CompanyRecord;
  normalizedData : CompanyRecord
}.

(** *** Result objects *)

Record MethodResult := mkResult {
  method : string;
  valuePerShare : jsval;
  upside : jsval;
  notApplicable : option bool;
  reason : option string;
  details : list (string * jsval)
}.

Definition is_notApplicable (r : MethodResult) : bool :=
  match notApplicable r with
  | Some b => b
  | None => false
  end.

(** *** Reading the financial history *)

Fixpoint lookupYear (fh : list (string * YearRecord)) (year : string) : option YearRecord :=
  match fh with
  | [] => None
  | (k, y) :: fh' => if String.eqb k year then Some y else lookupYear fh' year
  end.

(** [Object.keys(this.normalizedData.financialHistory).sort()] *)
Definition years (this : Calculator) : list string :=
  sort (map fst (financialHistory (normalizedData this))).

(** [financialHistory[years[years.length - 1]]], then a field read of it:
    with no year at all the read is on [undefined] and throws. *)
Definition latestData (this : Calculator) : outcome YearRecord :=
  match nth_error (years this) (List.length (years this) - 1) with
  | Some latestYear =>
      match lookupYear (financialHistory (normalizedData this)) latestYear with
      | Some y => Ok y
      | None => TypeError
      end
  | None => TypeError
  end.

(** [years.map(year => financialHistory[year].field)] *)
Definition history (this : Calculator) (field : YearRecord -> jsval) : list jsval :=
  flat_map (fun year =>
              match lookupYear (financialHistory (normalizedData this)) year with
              | Some y => [field y]
              | None => []
              end) (years this).

(** *** Helper methods *)

Definition calculateCostOfEquity (this : Calculator) : number :=
  let riskFreeRate := ToNumber (riskFreeRate (riskFactors (data this))) in
  let beta := ToNumber (beta (marketData (data this))) in
  let marketRiskPremium := ToNumber (marketRiskPremium (riskFactors (data this))) in
  let specificRisk := ToNumber (specificRiskPremium (riskFactors (data this))) in
  riskFreeRate + beta * marketRiskPremium + specificRisk.

Definition calculateWACC (this : Calculator) : outcome number :=
  do latestData <- latestData this;
  let equityValue := ToNumber (marketCap (marketData (data this))) in
  let debtValue := ToNumber (totalDebt latestData) in
  let totalValue := equityValue + debtValue in
  let costOfEquity := calculateCostOfEquity this in
  let costOfDebt := 0.04 in
  let taxRate := ToNumber (taxRate (assumptions (data this))) in
  Ok ((equityValue / totalValue) * costOfEquity +
      (debtValue / totalValue) * costOfDebt * (1 - taxRate)).

Definition calculateCAGR (values : list jsval) : number :=
  if (List.length values <? 2)%nat then 0
  else
    let beginValue := ToNumber (nth 0 values Undefined) in
    let endValue := ToNumber (nth (List.length values - 1) values Undefined) in
    let years := of_nat (List.length values - 1) in
    Math_pow (endValue / beginValue) (1 / years) - 1.

Definition calculateFairEV (ebitda multiple : number) : number := ebitda * multiple.

(** [(value / currentPrice - 1) * 100] *)
Definition upsideOf (this : Calculator) (value : number) : number :=
  (value / ToNumber (currentPrice (marketData (data this))) - 1) * 100.

(** *** Discounted cash flow to equity *)

Definition fcfeReason (fcf : jsval) : string :=
  "FCFE model not applicable due to negative free cash flow ("
    ++ toFixed0 (ToNumber fcf / 1000000) ++ "M)".

Definition calculateFCFE (this : Calculator) : outcome MethodResult :=
  do latestData <- latestData this;
  if le (ToNumber (freeCashFlow latestData)) 0 then
    Ok {| method := "FCFE";
          valuePerShare := Num 0;
          upside := Num 0;
          notApplicable := Some true;
          reason := Some (fcfeReason (freeCashFlow latestData));
          details :=
            [("totalValue", Num 0);
             ("currentPrice", currentPrice (marketData (data this)));
             ("assumptions.initialGrowth", Num 0);
             ("assumptions.terminalGrowth", terminalGrowthRate (assumptions (data this)));
             ("assumptions.discountRate", Num (calculateCostOfEquity this));
             ("assumptions.yearsProjected", Num 5)] |}
  else
    let fcfHistory := history this freeCashFlow in
    let avgGrowthRate := calculateCAGR fcfHistory in
    let initialGrowthRate :=
      Math_min [avgGrowthRate; ToNumber (fcfGrowth5Y (growthMetrics (data this))); 0.15] in
    let terminalGrowthRate := terminalGrowthRate (assumptions (data this)) in
    let discountRate := calculateCostOfEquity this in
    let '(intrinsicValue, currentFCF) :=
      fold_left (fun '(intrinsicValue, currentFCF) year =>
                   let growthRate := initialGrowthRate * Math_pow 0.85 (year - 1) in
                   let currentFCF := currentFCF * (1 + growthRate) in
                   let presentValue := currentFCF / Math_pow (1 + discountRate) year in
                   (intrinsicValue + presentValue, currentFCF))
                [1; 2; 3; 4; 5] (0, ToNumber (freeCashFlow latestData)) in
    let terminalFCF := currentFCF * (1 + ToNumber terminalGrowthRate) in
    let terminalValue := terminalFCF / (discountRate - ToNumber terminalGrowthRate) in
    let presentTerminalValue := terminalValue / Math_pow (1 + discountRate) 5 in
    let intrinsicValue := intrinsicValue + presentTerminalValue in
    let valuePerShare := intrinsicValue / ToNumber (sharesOutstanding (marketData (data this))) in
    Ok {| method := "FCFE";
          valuePerShare := Num valuePerShare;
          upside := Num (upsideOf this valuePerShare);
          notApplicable := None;
          reason := None;
          details :=
            [("totalValue", Num intrinsicValue);
             ("currentPrice", currentPrice (marketData (data this)));
             ("assumptions.initialGrowth", Num initialGrowthRate);
             ("assumptions.terminalGrowth", terminalGrowthRate);
             ("assumptions.discountRate", Num discountRate);
             ("assumptions.yearsProjected", Num 5)] |}.

(** *** Discounted cash flow to firm *)

Definition calculateFCFF (this : Calculator) : outcome MethodResult :=
  do latestData <- latestData this;
  let interestExpense := ToNumber (totalDebt latestData) * 0.04 in
  let taxShield := interestExpense * ToNumber (taxRate (assumptions (data this))) in
  let fcff := ToNumber (operatingCashFlow latestData) - ToNumber (capex latestData) + taxShield in
  do wacc <- calculateWACC this;
  let terminalGrowthRate := terminalGrowthRate (assumptions (data this)) in
  let initialGrowthRate :=
    Math_min [ToNumber (revenueGrowth5Y (growthMetrics (data this))); 0.12] in
  let '(firmValue, currentFCFF) :=
    fold_left (fun '(firmValue, currentFCFF) year =>
                 let growthRate :=
                   if le year 5 then initialGrowthRate
                   else initialGrowthRate * (1 - (year - 5) / 5 * 0.7) in
                 let currentFCFF := currentFCFF * (1 + growthRate) in
                 let presentValue := currentFCFF / Math_pow (1 + wacc) year in
                 (firmValue + presentValue, currentFCFF))
              [1; 2; 3; 4; 5; 6; 7; 8; 9; 10] (0, fcff) in
  let terminalFCFF := currentFCFF * (1 + ToNumber terminalGrowthRate) in
  let terminalValue := terminalFCFF / (wacc - ToNumber terminalGrowthRate) in
  let presentTerminalValue := terminalValue / Math_pow (1 + wacc) 10 in
  let firmValue := firmValue + presentTerminalValue in
  let netDebt := ToNumber (totalDebt latestData) - ToNumber (cashAndEquivalents latestData) in
  let equityValue := firmValue - netDebt in
  let valuePerShare := equityValue / ToNumber (sharesOutstanding (marketData (data this))) in
  Ok {| method := "FCFF";
        valuePerShare := Num valuePerShare;
        upside := Num (upsideOf this valuePerShare);
        notApplicable := None;
        reason := None;
        details :=
          [("firmValue", Num firmValue);
           ("equityValue", Num equityValue);
           ("currentPrice", currentPrice (marketData (data this)));
           ("assumptions.wacc", Num wacc);
           ("assumptions.initialGrowth", Num initialGrowthRate);
           ("assumptions.terminalGrowth", terminalGrowthRate);
           ("assumptions.netDebt", Num netDebt)] |}.

(** *** Dividend discount model (Gordon growth) *)

Definition calculateDDM (this : Calculator) : outcome MethodResult :=
  do latestData <- latestData this;
  let currentDividend := dividend latestData in
  let dividendGrowthRate := dividendGrowthRate (assumptions (data this)) in
  let requiredReturn := calculateCostOfEquity this in
  let nextYearDividend := ToNumber currentDividend * (1 + ToNumber dividendGrowthRate) in
  let valuePerShare := nextYearDividend / (requiredReturn - ToNumber dividendGrowthRate) in
  Ok {| method := "DDM (Gordon Growth)";
        valuePerShare := Num valuePerShare;
        upside := Num (upsideOf this valuePerShare);
        notApplicable := None;
        reason := None;
        details :=
          [("currentPrice", currentPrice (marketData (data this)));
           ("assumptions.currentDividend", currentDividend);
           ("assumptions.dividendGrowthRate", dividendGrowthRate);
           ("assumptions.requiredReturn", Num requiredReturn);
           ("assumptions.nextYearDividend", Num nextYearDividend)] |}.

(** *** Relative, asset-based and earnings-based valuations *)

Record RelativeResults := mkRelativeResults {
  peValuation : MethodResult;
  pbValuation : MethodResult;
  evEbitdaValuation : MethodResult
}.

Record AssetResults := mkAssetResults {
  bookValue : MethodResult;
  tangibleBookValue : MethodResult;
  liquidationValue : MethodResult
}.

Record EarningsResults := mkEarningsResults {
  capitalizedEarnings : MethodResult;
  earningsPowerValue : MethodResult
}.

Definition plainResult (name : string) (value upside : jsval) (details : list (string * jsval))
  : MethodResult :=
  {| method := name; valuePerShare := value; upside := upside;
     notApplicable := None; reason := None; details := details |}.

Definition calculateRelativeValuation (this : Calculator) : outcome RelativeResults :=
  let currentRatios := keyRatios (data this) in
  let benchmarks := industryBenchmarks (data this) in
  do latestData <- latestData this;
  let eps := ToNumber (eps latestData) in
  let bvps := ToNumber (bookValuePerShare latestData) in
  let operatingIncome := ToNumber (operatingIncome latestData) in
  let netDebt := ToNumber (totalDebt latestData) - ToNumber (cashAndEquivalents latestData) in
  let shares := ToNumber (sharesOutstanding (marketData (data this))) in
  let evValue := (calculateFairEV (operatingIncome * 1.15) 12 - netDebt) / shares in
  Ok {| peValuation :=
          plainResult "P/E Relative Valuation"
            (Num (eps * ToNumber (averagePE benchmarks)))
            (Num (upsideOf this (eps * ToNumber (averagePE benchmarks))))
            [("fairPE", averagePE benchmarks); ("currentPE", peRatio currentRatios)];
        pbValuation :=
          plainResult "P/B Relative Valuation"
            (Num (bvps * ToNumber (averagePB benchmarks)))
            (Num (upsideOf this (bvps * ToNumber (averagePB benchmarks))))
            [("fairPB", averagePB benchmarks); ("currentPB", pbRatio currentRatios)];
        evEbitdaValuation :=
          plainResult "EV/EBITDA Relative Valuation"
            (Num evValue)
            (Num (upsideOf this evValue))
            [("fairMultiple", Num 12);
             ("currentMultiple", evToEbitda currentRatios);
             ("ebitda", Num (operatingIncome + operatingIncome * 0.15));
             ("enterpriseValue", Num (calculateFairEV (operatingIncome * 1.15) 12));
             ("equityValue", Num (calculateFairEV (operatingIncome * 1.15) 12 - netDebt))] |}.

Definition calculateAssetBasedValuation (this : Calculator) : outcome AssetResults :=
  do latestData <- latestData this;
  let equity := ToNumber (shareholdersEquity latestData) in
  let assets := ToNumber (totalAssets latestData) in
  let shares := ToNumber (sharesOutstanding (marketData (data this))) in
  let price := ToNumber (currentPrice (marketData (data this))) in
  Ok {| bookValue :=
          plainResult "Book Value"
            (bookValuePerShare latestData)
            (Num (upsideOf this (ToNumber (bookValuePerShare latestData))))
            [];
        tangibleBookValue :=
          plainResult "Tangible Book Value"
            (Num ((equity - assets * 0.07) / shares))
            (Num (((equity - assets * 0.07) / shares / price - 1) * 100))
            [("tangibleBV", Num (equity - assets * 0.07))];
        liquidationValue :=
          plainResult "Liquidation Value (Conservative)"
            (Num ((assets * 0.7 - (assets - equity)) / shares))
            (Num (((assets * 0.7 - (assets - equity)) / shares / price - 1) * 100))
            [("recoveryRate", Num 0.7);
             ("liquidationValue", Num (assets * 0.7 - (assets - equity)))] |}.

Definition calculateEarningsBasedValuation (this : Calculator) : EarningsResults :=
  let earningsHistory := history this netIncome in
  let avgEarnings :=
    fold_left (fun a b => a + ToNumber b) earningsHistory 0
      / of_nat (List.length earningsHistory) in
  let costOfEquity := calculateCostOfEquity this in
  let capitalized := avgEarnings / costOfEquity in
  let shares := ToNumber (sharesOutstanding (marketData (data this))) in
  let price := ToNumber (currentPrice (marketData (data this))) in
  {| capitalizedEarnings :=
       plainResult "Capitalized Earnings"
         (Num (capitalized / shares))
         (Num ((capitalized / shares / price - 1) * 100))
         [("avgEarnings", Num avgEarnings);
          ("capitalizationRate", Num costOfEquity);
          ("totalValue", Num capitalized)];
     earningsPowerValue :=
       plainResult "Earnings Power Value (No Growth)"
         (Num (avgEarnings / shares / costOfEquity))
         (Num ((avgEarnings / shares / costOfEquity / price - 1) * 100))
         [("normalizedEarnings", Num avgEarnings)] |}.

(** *** Dynamic weights *)

Module Weights.

Record t := mk {
  fcfe : number;
  fcff : number;
  ddm : number;
  peRelative : number;
  evEbitda : number;
  bookValue : number;
  capitalizedEarnings : number
}.

Definition upd_fcfe (f : number -> number) (w : t) : t :=
  mk (f (fcfe w)) (fcff w) (ddm w) (peRelative w) (evEbitda w) (bookValue w) (capitalizedEarnings w).
Definition upd_fcff (f : number -> number) (w : t) : t :=
  mk (fcfe w) (f (fcff w)) (ddm w) (peRelative w) (evEbitda w) (bookValue w) (capitalizedEarnings w).
Definition upd_ddm (f : number -> number) (w : t) : t :=
  mk (fcfe w) (fcff w) (f (ddm w)) (peRelative w) (evEbitda w) (bookValue w) (capitalizedEarnings w).
Definition upd_peRelative (f : number -> number) (w : t) : t :=
  mk (fcfe w) (fcff w) (ddm w) (f (peRelative w)) (evEbitda w) (bookValue w) (capitalizedEarnings w).
Definition upd_evEbitda (f : number -> number) (w : t) : t :=
  mk (fcfe w) (fcff w) (ddm w) (peRelative w) (f (evEbitda w)) (bookValue w) (capitalizedEarnings w).
Definition upd_bookValue (f : number -> number) (w : t) : t :=
  mk (fcfe w) (fcff w) (ddm w) (peRelative w) (evEbitda w) (f (bookValue w)) (capitalizedEarnings w).
Definition upd_capitalizedEarnings (f : number -> number) (w : t) : t :=
  mk (fcfe w) (fcff w) (ddm w) (peRelative w) (evEbitda w) (bookValue w) (f (capitalizedEarnings w)).

(** [Object.values(weights)], in the order the keys were created. *)
Definition values (w : t) : list number :=
  [fcfe w; fcff w; ddm w; peRelative w; evEbitda w; bookValue w; capitalizedEarnings w].

(** [Object.keys(weights).forEach(key => weights[key] = f(weights[key]))] *)
Definition map (f : number -> number) (w : t) : t :=
  mk (f (fcfe w)) (f (fcff w)) (f (ddm w)) (f (peRelative w)) (f (evEbitda w))
     (f (bookValue w)) (f (capitalizedEarnings w)).

End Weights.

Definition when (c : bool) (f : Weights.t -> Weights.t) (w : Weights.t) : Weights.t :=
  if c then f w else w.

Definition plus (d : number) (x : number) : number := x + d.
Definition minus (d : number) (x : number) : number := x - d.
Definition times (d : number) (x : number) : number := x * d.
Definition set (d : number) (_ : number) : number := d.

(** Base weights (conservative approach). *)
Definition baseWeights : Weights.t :=
  Weights.mk 0.25 0.25 0.15 0.15 0.10 0.05 0.05.

Definition assetHeavy (industry : string) : bool :=
  includes industry "Heavy Construction" || includes industry "Farm"
  || includes industry "Machinery".

(** Industry-specific adjustments. *)
Definition industryAdjustment (industry : string) (w : Weights.t) : Weights.t :=
  when (assetHeavy industry) (fun _ => Weights.mk 0.20 0.20 0.10 0.20 0.15 0.10 0.05) w.

(** Company size adjustments. *)
Definition sizeAdjustment (marketCap : jsval) (w : Weights.t) : Weights.t :=
  when (gt (ToNumber marketCap) 100000000000)
    (fun w => Weights.upd_fcff (minus 0.05) (Weights.upd_fcfe (minus 0.05)
                (Weights.upd_ddm (plus 0.05) (Weights.upd_capitalizedEarnings (plus 0.05) w)))) w.

(** Debt level adjustments. *)
Definition debtAdjustment (debtToEquity : jsval) (w : Weights.t) : Weights.t :=
  when (gt (ToNumber debtToEquity) 2)
    (fun w => Weights.upd_fcfe (minus 0.10) (Weights.upd_fcff (plus 0.10) w)) w.

(** Cyclicality adjustments (beta-based). *)
Definition betaAdjustment (beta : jsval) (w : Weights.t) : Weights.t :=
  when (gt (ToNumber beta) 1.3)
    (fun w => Weights.upd_evEbitda (plus 0.05) (Weights.upd_peRelative (plus 0.05)
                (Weights.upd_fcff (minus 0.05) (Weights.upd_fcfe (minus 0.05) w)))) w.

(** [this.data.dividendInfo?.currentDividendYield || 0] *)
Definition dividendYieldOf (info : option DividendInfo) : number :=
  match info with
  | Some i => if truthy (currentDividendYield i) then ToNumber (currentDividendYield i) else 0
  | None => 0
  end.

(** Dividend policy adjustments. *)
Definition dividendAdjustment (info : option DividendInfo) (w : Weights.t) : Weights.t :=
  when (gt (dividendYieldOf info) 0.03)
    (fun w => Weights.upd_fcff (minus 0.025) (Weights.upd_fcfe (minus 0.025)
                (Weights.upd_ddm (plus 0.05) w))) w.

(** [Math.abs(result.upside) > threshold] *)
Definition extreme (r : MethodResult) (threshold : number) : bool :=
  gt (Math_abs (ToNumber (upside r))) threshold.

(** [result.valuePerShare <= 0] *)
Definition nonPositive (r : MethodResult) : bool :=
  le (ToNumber (valuePerShare r)) 0.

(** Check for extreme valuations and reduce their weight. *)
Definition halveExtremes (fcfeResult fcffResult ddmResult : MethodResult)
    (relativeResults : RelativeResults) (w : Weights.t) : Weights.t :=
  let w := when (extreme fcfeResult 100) (Weights.upd_fcfe (times 0.5)) w in
  let w := when (extreme fcffResult 100) (Weights.upd_fcff (times 0.5)) w in
  let w := when (extreme ddmResult 100) (Weights.upd_ddm (times 0.5)) w in
  let w := when (extreme (peValuation relativeResults) 100) (Weights.upd_peRelative (times 0.5)) w in
  let w := when (extreme (evEbitdaValuation relativeResults) 100) (Weights.upd_evEbitda (times 0.5)) w in
  w.

(** Filter out negative or unrealistic valuations. *)
Definition filterUnrealistic (fcfeResult fcffResult ddmResult : MethodResult)
    (assetResults : AssetResults) (w : Weights.t) : Weights.t :=
  let w := when (nonPositive fcfeResult || extreme fcfeResult 150 || is_notApplicable fcfeResult)
             (Weights.upd_fcfe (set 0)) w in
  let w := when (nonPositive fcffResult || extreme fcffResult 150) (Weights.upd_fcff (set 0)) w in
  let w := when (nonPositive ddmResult || extreme ddmResult 150) (Weights.upd_ddm (set 0)) w in
  let w := when (nonPositive (bookValue assetResults)) (Weights.upd_bookValue (set 0)) w in
  let w := when (nonPositive (liquidationValue assetResults)) (Weights.upd_bookValue (set 0)) w in
  w.

(** For asset-heavy companies, ensure minimum asset-based representation. *)
Definition assetFloor (industry : string) (assetResults : AssetResults) (w : Weights.t) : Weights.t :=
  when (assetHeavy industry)
    (when (strict_eq (Weights.bookValue w) 0
           && gt (ToNumber (valuePerShare (tangibleBookValue assetResults))) 0)
       (Weights.upd_bookValue (set 0.05))) w.

(** Normalize weights to sum to 1. *)
Definition totalWeight (w : Weights.t) : number :=
  fold_left (fun sum weight => sum + weight) (Weights.values w) 0.

Definition normalize (w : Weights.t) : Weights.t :=
  let totalWeight := totalWeight w in
  Weights.map (fun weight => weight / totalWeight) w.

(** The weights as they stand after the company adjustments, after the
    quality checks, and before the normalisation. *)
Definition adjustedWeights (this : Calculator) : Weights.t :=
  dividendAdjustment (dividendInfo (data this))
    (betaAdjustment (beta (marketData (data this)))
       (debtAdjustment (debtToEquity (keyRatios (data this)))
          (sizeAdjustment (marketCap (marketData (data this)))
             (industryAdjustment (industry (data this)) baseWeights)))).

Definition checkedWeights (this : Calculator) (fcfeResult fcffResult ddmResult : MethodResult)
    (relativeResults : RelativeResults) (assetResults : AssetResults) : Weights.t :=
  filterUnrealistic fcfeResult fcffResult ddmResult assetResults
    (halveExtremes fcfeResult fcffResult ddmResult relativeResults (adjustedWeights this)).

Definition rawWeights (this : Calculator) (fcfeResult fcffResult ddmResult : MethodResult)
    (relativeResults : RelativeResults) (assetResults : AssetResults) : Weights.t :=
  assetFloor (industry (data this)) assetResults
    (checkedWeights this fcfeResult fcffResult ddmResult relativeResults assetResults).

Definition calculateDynamicWeights (this : Calculator)
    (fcfeResult fcffResult ddmResult : MethodResult) (relativeResults : RelativeResults)
    (assetResults : AssetResults) (earningsResults : EarningsResults) : Weights.t :=
  normalize (rawWeights this fcfeResult fcffResult ddmResult relativeResults assetResults).

(** *** Aggregation *)

Inductive Recommendation : Type := StrongBuy | Buy | Hold | Sell.

Definition recommendationLabel (r : Recommendation) : string :=
  match r with
  | StrongBuy => "Strong Buy"
  | Buy => "Buy"
  | Hold => "Hold"
  | Sell => "Sell"
  end.

Inductive Confidence : Type := High | Medium | Low.

Definition confidenceLabel (c : Confidence) : string :=
  match c with
  | High => "High"
  | Medium => "Medium"
  | Low => "Low"
  end.

Record Valuation := mkValuation {
  v_method : string;
  value : jsval;
  weight : number
}.

Definition getRecommendation (upside marginOfSafety : number) : Recommendation :=
  if gt upside 20 && gt marginOfSafety 15 then StrongBuy
  else if gt upside 10 && gt marginOfSafety 10 then Buy
  else if gt upside 0 && gt marginOfSafety 5 then Hold
  else if gt upside (-10) then Hold
  else Sell.

(** The mean, the standard deviation and their quotient, as
    [calculateConfidence] computes them. *)
Definition meanOf (values : list jsval) : number :=
  fold_left (fun a b => a + ToNumber b) values 0 / of_nat (List.length values).

Definition stdDevOf (values : list jsval) : number :=
  let mean := meanOf values in
  let variance :=
    fold_left (fun sum val => sum + Math_pow (ToNumber val - mean) 2) values 0
      / of_nat (List.length values) in
  Math_sqrt variance.

Definition coefficientOfVariation (valuations : list Valuation) : number :=
  let values := List.map value valuations in
  stdDevOf values / meanOf values.

Definition calculateConfidence (valuations : list Valuation) : Confidence :=
  let coefficientOfVariation := coefficientOfVariation valuations in
  if lt coefficientOfVariation 0.2 then High
  else if lt coefficientOfVariation 0.4 then Medium
  else Low.

Module Result.

Record t := mk {
  ticker : string;
  companyName : string;
  currentPrice : jsval;
  intrinsicValue : number;
  upside : number;
  marginOfSafety : number;
  recommendation : Recommendation;
  confidence : Confidence;
  weightedValuations : list Valuation;
  weights : Weights.t
}.

End Result.

(** The valuation of [calculateIntrinsicValue], lines 614 to 661: the six
    results, the weights, the weighted valuations, the value, the upside, the
    margin, the recommendation and the confidence.  The object the method
    returns holds four more fields (the weighting rationale, the risk
    metrics, the dividend analysis and the summary), computed by calls that
    come after these and that can throw on their own; they are not part of
    this definition, so [Ok] says that the valuation has been computed. *)
Definition calculateIntrinsicValue (this : Calculator) : outcome Result.t :=
  do fcfeResult <- calculateFCFE this;
  do fcffResult <- calculateFCFF this;
  do ddmResult <- calculateDDM this;
  do relativeResults <- calculateRelativeValuation this;
  do assetResults <- calculateAssetBasedValuation this;
  let earningsResults := calculateEarningsBasedValuation this in
  let weights :=
    calculateDynamicWeights this fcfeResult fcffResult ddmResult
      relativeResults assetResults earningsResults in
  let entry (r : MethodResult) (w : number) := mkValuation (method r) (valuePerShare r) w in
  let valuations :=
    [entry fcfeResult (Weights.fcfe weights);
     entry fcffResult (Weights.fcff weights);
     entry ddmResult (Weights.ddm weights);
     entry (peValuation relativeResults) (Weights.peRelative weights);
     entry (evEbitdaValuation relativeResults) (Weights.evEbitda weights);
     entry (bookValue assetResults) (Weights.bookValue weights);
     entry (capitalizedEarnings earningsResults) (Weights.capitalizedEarnings weights)] in
  let weightedIntrinsicValue :=
    fold_left (fun sum val => sum + ToNumber (value val) * weight val) valuations 0 in
  let currentPrice := ToNumber (currentPrice (marketData (data this))) in
  let upside := (weightedIntrinsicValue / currentPrice - 1) * 100 in
  let marginOfSafety :=
    Math_max [0; (weightedIntrinsicValue - currentPrice) / weightedIntrinsicValue * 100] in
  let recommendation := getRecommendation upside marginOfSafety in
  Ok (Result.mk (ticker (data this)) (companyName (data this))
        (Engine.currentPrice (marketData (data this)))
        weightedIntrinsicValue upside marginOfSafety recommendation
        (calculateConfidence valuations) valuations weights).

End Engine.

(** ** The report: risk metrics, weighting rationale and summary *)

Module Report.

Import JS Engine.
Local Open Scope string_scope.
Local Open Scope float_scope.

(** *** Risk metrics

    [this.data.keyRatios] as the risk metrics read it: three sections, each
    of which may be missing, and in them numeric fields as before. *)
Record LeverageRatios := mkLeverageRatios {
  debtToEquity : jsval;
  interestCoverage : jsval
}.

Record LiquidityRatios := mkLiquidityRatios {
  currentRatio : jsval
}.

Record ValuationRatios := mkValuationRatios {
  peRatio : jsval;
  pbRatio : jsval
}.

Record Ratios := mkRatios {
  leverageRatios : option LeverageRatios;
  liquidityRatios : option LiquidityRatios;
  valuationRatios : option ValuationRatios
}.

(** A property read on a section: a TypeError if the section is missing. *)
Definition section {A : Type} (s : option A) : outcome A :=
  match s with
  | Some a => Ok a
  | None => TypeError
  end.

Definition assessFinancialRisk (ratios : Ratios) : outcome string :=
  let score := 0 in
  do leverage <- section (leverageRatios ratios);
  let score :=
    if gt (ToNumber (debtToEquity leverage)) 3 then score + 2
    else if gt (ToNumber (debtToEquity leverage)) 2 then score + 1
    else score in
  do liquidity <- section (liquidityRatios ratios);
  let score :=
    if lt (ToNumber (currentRatio liquidity)) 1 then score + 2
    else if lt (ToNumber (currentRatio liquidity)) 1.2 then score + 1
    else score in
  let score :=
    if lt (ToNumber (interestCoverage leverage)) 5 then score + 2
    else if lt (ToNumber (interestCoverage leverage)) 10 then score + 1
    else score in
  if le 4 score then Ok "High"
  else if le 2 score then Ok "Medium"
  else Ok "Low".

Record FinancialRisk := mkFinancialRisk {
  financialDebtToEquity : jsval;
  financialCurrentRatio : jsval;
  financialInterestCoverage : jsval;
  riskLevel : string
}.

Record BusinessRisk := mkBusinessRisk {
  businessBeta : jsval;
  volatilityRisk : string;
  industryRisk : string
}.

Record ValuationRisk := mkValuationRisk {
  valuationPeRatio : jsval;
  valuationPbRatio : jsval;
  valuationRisk : string
}.

Record RiskMetrics := mkRiskMetrics {
  financial : FinancialRisk;
  business : BusinessRisk;
  valuation : ValuationRisk
}.

(** [ratios] is [this.data.keyRatios]. *)
Definition calculateRiskMetrics (this : Calculator) (ratios : Ratios) : outcome RiskMetrics :=
  do leverage <- section (leverageRatios ratios);
  do liquidity <- section (liquidityRatios ratios);
  do level <- assessFinancialRisk ratios;
  let beta := beta (marketData (data this)) in
  do multiples <- section (valuationRatios ratios);
  Ok {| financial :=
          {| financialDebtToEquity := debtToEquity leverage;
             financialCurrentRatio := currentRatio liquidity;
             financialInterestCoverage := interestCoverage leverage;
             riskLevel := level |};
        business :=
          {| businessBeta := beta;
             volatilityRisk :=
               if gt (ToNumber beta) 1.5 then "High"
               else if gt (ToNumber beta) 1 then "Medium"
               else "Low";
             industryRisk := "Medium" |};
        valuation :=
          {| valuationPeRatio := peRatio multiples;
             valuationPbRatio := pbRatio multiples;
             valuationRisk :=
               if gt (ToNumber (peRatio multiples)) 25 then "High" else "Medium" |} |}.

(** *** Weighting rationale *)

(** [if (test) rationale.push(line)] *)
Definition pushIf (test : bool) (line : string) (rationale : list string) : list string :=
  if test then (rationale ++ [line])%list else rationale.

Definition getWeightingRationale (this : Calculator) (weights : Weights.t) : list string :=
  let rationale := [] in
  let industry := industry (data this) in
  let marketCap := marketCap (marketData (data this)) in
  let debtToEquity := Engine.debtToEquity (keyRatios (data this)) in
  let beta := beta (marketData (data this)) in
  let rationale :=
    pushIf (includes industry "Heavy Construction" || includes industry "Farm"
            || includes industry "Machinery")
      "Cyclical industrial company: Increased weight on relative and asset-based methods"
      rationale in
  let rationale :=
    pushIf (gt (ToNumber marketCap) 100000000000)
      "Large-cap mature company: Enhanced weight on earnings stability methods"
      rationale in
  let rationale :=
    pushIf (gt (ToNumber debtToEquity) 2)
      "High debt levels: FCFF weighted higher than FCFE" rationale in
  let rationale :=
    pushIf (gt (ToNumber beta) 1.3)
      "High-beta cyclical: Reduced growth-dependent DCF weights" rationale in
  let rationale :=
    pushIf (strict_eq (Weights.fcfe weights) 0)
      "FCFE excluded due to extreme valuation result" rationale in
  rationale.

(** *** Summary *)

Record Summary := mkSummary {
  summaryValuation : string;
  opportunity : string;
  risk : string;
  summaryRecommendation : string
}.

Definition generateSummary (this : Calculator) (intrinsicValue upside marginOfSafety : number)
    (recommendation : Recommendation) : Summary :=
  {| summaryValuation :=
       "Based on comprehensive analysis using multiple valuation methods, "
         ++ companyName (data this) ++ " has an estimated intrinsic value of $"
         ++ toFixed 2 intrinsicValue ++ " per share.";
     opportunity :=
       if gt upside 0 then
         "The stock appears " ++ (if gt upside 20 then "significantly " else EmptyString)
           ++ "undervalued with " ++ toFixed 1 upside ++ "% potential upside."
       else
         "The stock appears overvalued with " ++ toFixed 1 (Math_abs upside)
           ++ "% potential downside.";
     risk :=
       "Margin of safety: " ++ toFixed 1 marginOfSafety ++ "%. "
         ++ (if gt marginOfSafety 15 then "Excellent"
             else if gt marginOfSafety 10 then "Good"
             else if gt marginOfSafety 5 then "Adequate"
             else "Poor")
         ++ " downside protection.";
     summaryRecommendation :=
       "Investment recommendation: " ++ recommendationLabel recommendation |}.

End Report.

(** ** The constructor

    [new ValuationCalculator(companyData)] keeps the record and its
    normalised copy.  The engine reads the sections below from them; a
    record is in the typed view when each section is an object and each
    numeric field a Number, [null] or absent. *)

Module Loader.

Import Store Engine.
Local Open Scope string_scope.

Definition peek (s : store) (object : Store.value) (key : string) : Store.value :=
  match getProp object key s with
  | (Ok v, _) => v
  | (TypeError, _) => VUndef
  end.

Definition readNumber (s : store) (object : Store.value) (key : string) : option jsval :=
  match peek s object key with
  | VUndef => Some Undefined
  | VNull => Some Null
  | VNum n => Some (Num n)
  | _ => None
  end.

Definition readText (s : store) (object : Store.value) (key : string) : option string :=
  match peek s object key with
  | VStr text => Some text
  | _ => None
  end.

(** A section of the record: a property that holds a plain object. *)
Definition readObject (s : store) (object : Store.value) (key : string) : option Store.value :=
  match peek s object key with
  | VRef l => match nth_error s l with
              | Some (CObj _) => Some (VRef l)
              | _ => None
              end
  | _ => None
  end.

Definition obind {A B : Type} (m : option A) (k : A -> option B) : option B :=
  match m with
  | Some a => k a
  | None => None
  end.

Notation "'get' x <- m ; k" := (obind m (fun x => k))
  (at level 10, x name, m at level 100, k at level 200).

Definition readYear (s : store) (y : Store.value) : option YearRecord :=
  get netIncome <- readNumber s y "netIncome";
  get operatingIncome <- readNumber s y "operatingIncome";
  get freeCashFlow <- readNumber s y "freeCashFlow";
  get operatingCashFlow <- readNumber s y "operatingCashFlow";
  get capex <- readNumber s y "capex";
  get totalAssets <- readNumber s y "totalAssets";
  get totalDebt <- readNumber s y "totalDebt";
  get cashAndEquivalents <- readNumber s y "cashAndEquivalents";
  get shareholdersEquity <- readNumber s y "shareholdersEquity";
  get bookValuePerShare <- readNumber s y "bookValuePerShare";
  get eps <- readNumber s y "eps";
  get dividend <- readNumber s y "dividend";
  Some (mkYearRecord netIncome operatingIncome freeCashFlow operatingCashFlow capex
          totalAssets totalDebt cashAndEquivalents shareholdersEquity
          bookValuePerShare eps dividend).

Fixpoint readYears (s : store) (history : Store.value) (years : list string)
  : option (list (string * YearRecord)) :=
  match years with
  | [] => Some []
  | year :: years' =>
      get y <- readObject s history year;
      get record <- readYear s y;
      get rest <- readYears s history years';
      Some ((year, record) :: rest)
  end.

Definition readHistory (s : store) (company : Store.value) : option (list (string * YearRecord)) :=
  get history <- readObject s company "financialHistory";
  match ownKeys history s with
  | (Ok years, _) => readYears s history years
  | (TypeError, _) => None
  end.

Definition readDividendInfo (s : store) (company : Store.value) : option (option DividendInfo) :=
  match peek s company "dividendInfo" with
  | VUndef | VNull => Some None
  | _ =>
      get info <- readObject s company "dividendInfo";
      get yield <- readNumber s info "currentDividendYield";
      get annual <- readNumber s info "currentAnnualDividend";
      Some (Some (mkDividendInfo yield annual))
  end.

Definition readCompany (s : store) (company : Store.value) : option CompanyRecord :=
  get ticker <- readText s company "ticker";
  get companyName <- readText s company "companyName";
  get industry <- readText s company "industry";
  get market <- readObject s company "marketData";
  get currentPrice <- readNumber s market "currentPrice";
  get marketCap <- readNumber s market "marketCap";
  get sharesOutstanding <- readNumber s market "sharesOutstanding";
  get beta <- readNumber s market "beta";
  get risk <- readObject s company "riskFactors";
  get riskFreeRate <- readNumber s risk "riskFreeRate";
  get marketRiskPremium <- readNumber s risk "marketRiskPremium";
  get specificRiskPremium <- readNumber s risk "specificRiskPremium";
  get history <- readHistory s company;
  get ratios <- readObject s company "keyRatios";
  get valuationRatios <- readObject s ratios "valuationRatios";
  get peRatio <- readNumber s valuationRatios "peRatio";
  get pbRatio <- readNumber s valuationRatios "pbRatio";
  get evToEbitda <- readNumber s valuationRatios "evToEbitda";
  get leverageRatios <- readObject s ratios "leverageRatios";
  get debtToEquity <- readNumber s leverageRatios "debtToEquity";
  get assume <- readObject s company "assumptions";
  get terminalGrowthRate <- readNumber s assume "terminalGrowthRate";
  get taxRate <- readNumber s assume "taxRate";
  get dividendGrowthRate <- readNumber s assume "dividendGrowthRate";
  get growth <- readObject s company "growthMetrics";
  get fcfGrowth5Y <- readNumber s growth "fcfGrowth5Y";
  get revenueGrowth5Y <- readNumber s growth "revenueGrowth5Y";
  get benchmarks <- readObject s company "industryBenchmarks";
  get averagePE <- readNumber s benchmarks "averagePE";
  get averagePB <- readNumber s benchmarks "averagePB";
  get info <- readDividendInfo s company;
  Some (mkCompanyRecord ticker companyName industry
          (mkMarketData currentPrice marketCap sharesOutstanding beta)
          (mkRiskFactors riskFreeRate marketRiskPremium specificRiskPremium)
          history
          (mkKeyRatios peRatio pbRatio evToEbitda debtToEquity)
          (mkAssumptions terminalGrowthRate taxRate dividendGrowthRate)
          (mkGrowthMetrics fcfGrowth5Y revenueGrowth5Y)
          (mkIndustryBenchmarks averagePE averagePB)
          info).

Section Runtime.

Variable StringToNumber : string -> JS.number.
Variable ObjectToNumber : store -> loc -> outcome JS.number.

(** [this.data = companyData; this.normalizedData = this.convertToUSD(companyData)];
    [None] stands for a record outside the typed view. *)
Definition construct (companyData : Store.value) : M (option Calculator) :=
  normalizedData <-- convertToUSD StringToNumber ObjectToNumber companyData ;;
  read (fun s =>
    Ok (get data <- readCompany s companyData;
        get normalized <- readCompany s normalizedData;
        Some (mkCalculator data normalized))).

End Runtime.

End Loader.

(** ** The data builder's validation

    [validateData] of [src/companyBuilder.js], on a record as it was parsed
    from its JSON file. *)

Module Builder.

Import JS Store.
Local Open Scope string_scope.

Section Runtime.

Variable StringToNumber : string -> number.
Variable ObjectToNumber : store -> loc -> outcome number.

Definition requiredFields : list string :=
  ["ticker"; "companyName"; "marketData"; "financialHistory"].

Definition requiredMarketFields : list string := ["currentPrice"; "sharesOutstanding"].

(** [fields.forEach(field => { if (...) errors.push(message) })]: the
    callback answers with the message it pushes, if any. *)
Fixpoint pushEach (fields : list string) (callback : string -> M (option string))
    (errors : list string) : M (list string) :=
  match fields with
  | [] => ret errors
  | field :: fields' =>
      pushed <-- callback field ;;
      pushEach fields' callback
        (match pushed with
         | Some message => (errors ++ [message])%list
         | None => errors
         end)
  end.

(** [v <= 0] *)
Definition atMostZero (v : value) : M bool :=
  x <-- ToNumber StringToNumber ObjectToNumber v ;;
  ret (le x PrimFloat.zero).

Definition validateData (data : value) : M (list string) :=
  let errors := [] in
  errors <-- pushEach requiredFields (fun field =>
    v <-- getProp data field ;;
    ret (if negb (truthy v) then Some ("Missing required field: " ++ field) else None))
    errors ;;
  financialHistory <-- getProp data "financialHistory" ;;
  errors <-- (if truthy financialHistory then
                financialHistory <-- getProp data "financialHistory" ;;
                years <-- ownKeys financialHistory ;;
                ret (if (List.length years =? 0)%nat
                     then (errors
                           ++ ["Financial history must contain at least one year of data"])%list
                     else errors)
              else ret errors) ;;
  marketData <-- getProp data "marketData" ;;
  if truthy marketData then
    pushEach requiredMarketFields (fun field =>
      marketData <-- getProp data "marketData" ;;
      v <-- getProp marketData field ;;
      invalid <-- (if negb (truthy v) then ret true
                   else
                     marketData <-- getProp data "marketData" ;;
                     v <-- getProp marketData field ;;
                     atMostZero v) ;;
      ret (if invalid : bool
           then Some ("Invalid or missing market data field: " ++ field)
           else None))
      errors
  else ret errors.

End Runtime.

End Builder.

(** ** Evaluation of the weight cascade

    The weights are changed by constants only, so before the normalisation
    they depend on the inputs through sixteen tests.  [cascade] is
    [rawWeights] with the outcome of each test in place of the test. *)

Module Cascade.

Import JS Engine.
Local Open Scope float_scope.

Definition cascade (heavy large indebted cyclical yielding : bool)
    (highFcfe highFcff highDdm highPe highEv : bool)
    (dropFcfe dropFcff dropDdm dropBook dropLiquidation tangible : bool) : Weights.t :=
  let w := when heavy (fun _ => Weights.mk 0.20 0.20 0.10 0.20 0.15 0.10 0.05) baseWeights in
  let w := when large
             (fun w => Weights.upd_fcff (minus 0.05) (Weights.upd_fcfe (minus 0.05)
                (Weights.upd_ddm (plus 0.05) (Weights.upd_capitalizedEarnings (plus 0.05) w)))) w in
  let w := when indebted
             (fun w => Weights.upd_fcfe (minus 0.10) (Weights.upd_fcff (plus 0.10) w)) w in
  let w := when cyclical
             (fun w => Weights.upd_evEbitda (plus 0.05) (Weights.upd_peRelative (plus 0.05)
                (Weights.upd_fcff (minus 0.05) (Weights.upd_fcfe (minus 0.05) w)))) w in
  let w := when yielding
             (fun w => Weights.upd_fcff (minus 0.025) (Weights.upd_fcfe (minus 0.025)
                (Weights.upd_ddm (plus 0.05) w))) w in
  let w := when highFcfe (Weights.upd_fcfe (times 0.5)) w in
  let w := when highFcff (Weights.upd_fcff (times 0.5)) w in
  let w := when highDdm (Weights.upd_ddm (times 0.5)) w in
  let w := when highPe (Weights.upd_peRelative (times 0.5)) w in
  let w := when highEv (Weights.upd_evEbitda (times 0.5)) w in
  let w := when dropFcfe (Weights.upd_fcfe (set 0)) w in
  let w := when dropFcff (Weights.upd_fcff (set 0)) w in
  let w := when dropDdm (Weights.upd_ddm (set 0)) w in
  let w := when dropBook (Weights.upd_bookValue (set 0)) w in
  let w := when dropLiquidation (Weights.upd_bookValue (set 0)) w in
  when heavy
    (when (strict_eq (Weights.bookValue w) 0 && tangible) (Weights.upd_bookValue (set 0.05))) w.

Definition allb (f : bool -> bool) : bool := f true && f false.

(** A test of the weights, run on every outcome of the sixteen tests. *)
Definition everywhere (P : Weights.t -> bool) : bool :=
  allb (fun a => allb (fun b => allb (fun c => allb (fun d => allb (fun e =>
  allb (fun f => allb (fun g => allb (fun h => allb (fun i => allb (fun j =>
  allb (fun k => allb (fun l => allb (fun m => allb (fun n => allb (fun o =>
  allb (fun p => P (cascade a b c d e f g h i j k l m n o p))))))))))))))))).

(** [Object.values(weights).reduce((sum, weight) => sum + weight, 0)] of the
    returned weights, and the test that it is 1 up to [1e-9]. *)
Definition sumsToOne (w : Weights.t) : bool :=
  le (abs (totalWeight w - 1)) 1e-9.

(** The outcome of the sixteen tests as one value: [run] is the cascade on
    it, [testsOf] the tests of a calculator on the results it is given, and
    [everyTest] runs a check on each of the 65536 outcomes. *)
Module Tests.

Record t := mk {
  heavy : bool;
  large : bool;
  indebted : bool;
  cyclical : bool;
  yielding : bool;
  highFcfe : bool;
  highFcff : bool;
  highDdm : bool;
  highPe : bool;
  highEv : bool;
  dropFcfe : bool;
  dropFcff : bool;
  dropDdm : bool;
  dropBook : bool;
  dropLiquidation : bool;
  tangible : bool
}.

End Tests.

Definition run (t : Tests.t) : Weights.t :=
  cascade (Tests.heavy t) (Tests.large t) (Tests.indebted t) (Tests.cyclical t)
    (Tests.yielding t) (Tests.highFcfe t) (Tests.highFcff t) (Tests.highDdm t)
    (Tests.highPe t) (Tests.highEv t) (Tests.dropFcfe t) (Tests.dropFcff t)
    (Tests.dropDdm t) (Tests.dropBook t) (Tests.dropLiquidation t) (Tests.tangible t).

Definition testsOf (this : Calculator) (fcfeResult fcffResult ddmResult : MethodResult)
    (relativeResults : RelativeResults) (assetResults : AssetResults) : Tests.t :=
  Tests.mk
    (assetHeavy (industry (data this)))
    (gt (ToNumber (marketCap (marketData (data this)))) 100000000000)
    (gt (ToNumber (debtToEquity (keyRatios (data this)))) 2)
    (gt (ToNumber (beta (marketData (data this)))) 1.3)
    (gt (dividendYieldOf (dividendInfo (data this))) 0.03)
    (extreme fcfeResult 100) (extreme fcffResult 100) (extreme ddmResult 100)
    (extreme (peValuation relativeResults) 100)
    (extreme (evEbitdaValuation relativeResults) 100)
    (nonPositive fcfeResult || extreme fcfeResult 150 || is_notApplicable fcfeResult)
    (nonPositive fcffResult || extreme fcffResult 150)
    (nonPositive ddmResult || extreme ddmResult 150)
    (nonPositive (bookValue assetResults))
    (nonPositive (liquidationValue assetResults))
    (gt (ToNumber (valuePerShare (tangibleBookValue assetResults))) 0).

Definition everyTest (P : Tests.t -> bool) : bool :=
  allb (fun a => allb (fun b => allb (fun c => allb (fun d => allb (fun e =>
  allb (fun f => allb (fun g => allb (fun h => allb (fun i => allb (fun j =>
  allb (fun k => allb (fun l => allb (fun m => allb (fun n => allb (fun o =>
  allb (fun p => P (Tests.mk a b c d e f g h i j k l m n o p))))))))))))))))).

End Cascade.

(** ** Records used in examples *)

Module Fixtures.

Import JS Engine.
Local Open Scope string_scope.
Local Open Scope float_scope.

(** The record of the repository's test suite, with an industry (the
    weights read it). *)
Definition year2024 : YearRecord :=
  {| netIncome := Num 100000000;
     operatingIncome := Num 150000000;
     freeCashFlow := Num 80000000;
     operatingCashFlow := Num 120000000;
     capex := Num 40000000;
     totalAssets := Num 1500000000;
     totalDebt := Num 500000000;
     cashAndEquivalents := Num 50000000;
     shareholdersEquity := Num 800000000;
     bookValuePerShare := Num 8;
     eps := Num 1;
     dividend := Num 0.5 |}.

Definition company (price : number) (risk : RiskFactors) (growth : number)
    (latest : YearRecord) : CompanyRecord :=
  {| ticker := "TEST";
     companyName := "Test Company";
     industry := "Test";
     marketData := mkMarketData (Num price) (Num 10000000000) (Num 100000000) (Num 1.2);
     riskFactors := risk;
     financialHistory := [("2024", latest)];
     keyRatios := mkKeyRatios (Num 20) (Num 12.5) (Num 15) (Num 0.625);
     assumptions := mkAssumptions (Num 0.025) (Num 0.25) (Num growth);
     growthMetrics := mkGrowthMetrics (Num 0.08) (Num 0.06);
     industryBenchmarks := mkIndustryBenchmarks (Num 18) (Num 3);
     dividendInfo := None |}.

Definition calculatorOf (c : CompanyRecord) : Calculator := mkCalculator c c.

Definition usualRisk : RiskFactors := mkRiskFactors (Num 0.03) (Num 0.06) (Num 0.01).

Definition mockData : CompanyRecord := company 100 usualRisk 0.05 year2024.

(** Required return 0.08 (0.08 + 1.2 * 0 + 0) and dividend growth 0.08. *)
Definition flatRisk : RiskFactors := mkRiskFactors (Num 0.08) (Num 0) (Num 0).

Definition noSpread : CompanyRecord := company 100 flatRisk 0.08 year2024.

(** Latest-year free cash flow of -1. *)
Definition burning : CompanyRecord :=
  company 100 usualRisk 0.05
    (mkYearRecord (Num 100000000) (Num 150000000) (Num (-1)) (Num 120000000)
       (Num 40000000) (Num 1500000000) (Num 500000000) (Num 50000000)
       (Num 800000000) (Num 8) (Num 1) (Num 0.5)).

(** The test record at a share price of 5: P/E and EV/EBITDA values of 18
    and 16.2 are more than 150% above the price. *)
Definition cheap : CompanyRecord := company 5 usualRisk 0.05 year2024.

(** Total assets of 3e9 against an equity of 8e8: the liquidation value is
    negative, the book value per share is 8. *)
Definition leveraged : CompanyRecord :=
  company 100 usualRisk 0.05
    (mkYearRecord (Num 100000000) (Num 150000000) (Num 80000000) (Num 120000000)
       (Num 40000000) (Num 3000000000) (Num 500000000) (Num 50000000)
       (Num 800000000) (Num 8) (Num 1) (Num 0.5)).

Definition valuationsOf (values : list number) : list Valuation :=
  List.map (fun v => mkValuation "method" (Num v) 0) values.

(** The test record without a [dividend] field in its latest year, and
    with a dividend of 0. *)
Definition undeclared : CompanyRecord :=
  company 100 usualRisk 0.05
    (mkYearRecord (Num 100000000) (Num 150000000) (Num 80000000) (Num 120000000)
       (Num 40000000) (Num 1500000000) (Num 500000000) (Num 50000000)
       (Num 800000000) (Num 8) (Num 1) Undefined).

Definition unpaid : CompanyRecord :=
  company 100 usualRisk 0.05
    (mkYearRecord (Num 100000000) (Num 150000000) (Num 80000000) (Num 120000000)
       (Num 40000000) (Num 1500000000) (Num 500000000) (Num 50000000)
       (Num 800000000) (Num 8) (Num 1) (Num 0)).

(** A large, indebted, high-beta machinery maker with a dividend yield of
    4%: each of the five company adjustments applies. *)
Definition stretched : CompanyRecord :=
  {| ticker := "TEST";
     companyName := "Test Company";
     industry := "Farm & Heavy Construction Machinery";
     marketData := mkMarketData (Num 100) (Num 200000000000) (Num 100000000) (Num 1.5);
     riskFactors := usualRisk;
     financialHistory := [("2024", year2024)];
     keyRatios := mkKeyRatios (Num 20) (Num 12.5) (Num 15) (Num 2.5);
     assumptions := mkAssumptions (Num 0.025) (Num 0.25) (Num 0.05);
     growthMetrics := mkGrowthMetrics (Num 0.08) (Num 0.06);
     industryBenchmarks := mkIndustryBenchmarks (Num 18) (Num 3);
     dividendInfo := Some (mkDividendInfo (Num 0.04) (Num 0.5)) |}.

(** The weights a calculator returns for the results of its own methods. *)
Definition weightsOf (this : Calculator) : outcome Weights.t :=
  do fcfeResult <- calculateFCFE this;
  do fcffResult <- calculateFCFF this;
  do ddmResult <- calculateDDM this;
  do relativeResults <- calculateRelativeValuation this;
  do assetResults <- calculateAssetBasedValuation this;
  Ok (calculateDynamicWeights this fcfeResult fcffResult ddmResult relativeResults
        assetResults (calculateEarningsBasedValuation this)).

(** Stores: a record in Danish kroner whose rate table has no [dkkToUsd]. *)
Definition krone (rates : list (string * Store.value)) : Store.store :=
  [ Store.CObj rates;
    Store.CObj [("revenue", Store.VNum 1000); ("eps", Store.VNum 2)];
    Store.CObj [("2024", Store.VRef 1%nat)];
    Store.CObj [("currency", Store.VStr "DKK");
                ("exchangeRate", Store.VRef 0%nat);
                ("financialHistory", Store.VRef 2%nat)] ].

Definition dollar : Store.store :=
  [ Store.CObj [("revenue", Store.VNum 1000)];
    Store.CObj [("2024", Store.VRef 0%nat)];
    Store.CObj [("currency", Store.VStr "USD"); ("financialHistory", Store.VRef 1%nat)] ].

(** The same test record as objects in a store; it names no currency. *)
Definition mockStore : Store.store :=
  [ Store.CObj [("currentPrice", Store.VNum 100); ("marketCap", Store.VNum 10000000000);
                ("sharesOutstanding", Store.VNum 100000000); ("beta", Store.VNum 1.2)];
    Store.CObj [("riskFreeRate", Store.VNum 0.03); ("marketRiskPremium", Store.VNum 0.06);
                ("specificRiskPremium", Store.VNum 0.01)];
    Store.CObj [("revenue", Store.VNum 1000000000); ("netIncome", Store.VNum 100000000);
                ("freeCashFlow", Store.VNum 80000000);
                ("operatingCashFlow", Store.VNum 120000000);
                ("capex", Store.VNum 40000000); ("totalDebt", Store.VNum 500000000);
                ("cashAndEquivalents", Store.VNum 50000000);
                ("shareholdersEquity", Store.VNum 800000000);
                ("bookValuePerShare", Store.VNum 8); ("eps", Store.VNum 1);
                ("dividend", Store.VNum 0.5); ("totalAssets", Store.VNum 1500000000);
                ("operatingIncome", Store.VNum 150000000)];
    Store.CObj [("2024", Store.VRef 2%nat)];
    Store.CObj [("peRatio", Store.VNum 20); ("pbRatio", Store.VNum 12.5);
                ("evToEbitda", Store.VNum 15)];
    Store.CObj [("debtToEquity", Store.VNum 0.625); ("interestCoverage", Store.VNum 15)];
    Store.CObj [("currentRatio", Store.VNum 1.5)];
    Store.CObj [("valuationRatios", Store.VRef 4%nat); ("leverageRatios", Store.VRef 5%nat);
                ("liquidityRatios", Store.VRef 6%nat)];
    Store.CObj [("terminalGrowthRate", Store.VNum 0.025); ("taxRate", Store.VNum 0.25);
                ("dividendGrowthRate", Store.VNum 0.05)];
    Store.CObj [("fcfGrowth5Y", Store.VNum 0.08); ("revenueGrowth5Y", Store.VNum 0.06)];
    Store.CObj [("averagePE", Store.VNum 18); ("averagePB", Store.VNum 3)];
    Store.CObj [("ticker", Store.VStr "TEST"); ("companyName", Store.VStr "Test Company");
                ("industry", Store.VStr "Test");
                ("marketData", Store.VRef 0%nat); ("riskFactors", Store.VRef 1%nat);
                ("financialHistory", Store.VRef 3%nat); ("keyRatios", Store.VRef 7%nat);
                ("assumptions", Store.VRef 8%nat); ("growthMetrics", Store.VRef 9%nat);
                ("industryBenchmarks", Store.VRef 10%nat)] ].

(** One year with sales of 1000, earnings per share of 2, a dividend of 0,
    a net income of [null] and 50 shares. *)
Definition oneYear : Store.store :=
  [ Store.CObj [("revenue", Store.VNum 1000); ("eps", Store.VNum 2);
                ("dividend", Store.VNum 0); ("netIncome", Store.VNull);
                ("sharesOutstanding", Store.VNum 50)];
    Store.CObj [("2024", Store.VRef 0%nat)];
    Store.CObj [("financialHistory", Store.VRef 1%nat)] ].

(** A record with a name, a price, a share count and one empty year, and
    nothing else. *)
Definition bare : Store.store :=
  [ Store.CObj [("currentPrice", Store.VNum 10); ("sharesOutstanding", Store.VNum 5)];
    Store.CObj [("2024", Store.VNull)];
    Store.CObj [("ticker", Store.VStr "T"); ("companyName", Store.VStr "N");
                ("marketData", Store.VRef 0%nat);
                ("financialHistory", Store.VRef 1%nat)] ].

(** A runtime for records whose fields are Numbers: the two conversions
    are never called on them. *)
Definition noString (_ : string) : number := nan.
Definition noObject (_ : Store.store) (_ : Store.loc) : outcome number := Ok nan.

End Fixtures.

(** * Properties *)

Import JS Engine.
Local Open Scope float_scope.

(** ** The order of Numbers *)

Lemma SFcompare_antisym (x y : spec_float) :
  SFcompare y x = option_map CompOpp (SFcompare x y).
Proof.
  destruct x as [sx|sx| |sx mx ex], y as [sy|sy| |sy my ey]; simpl; try reflexivity;
    try (destruct sx; reflexivity); try (destruct sy; reflexivity);
    try (destruct sx, sy; reflexivity).
  change (Pos.compare_cont Eq my mx) with (Pos.compare my mx).
  change (Pos.compare_cont Eq mx my) with (Pos.compare mx my).
  rewrite (Z.compare_antisym ex ey), (Pos.compare_antisym mx my).
  destruct sx, sy; simpl; try reflexivity; f_equal;
    destruct (ex ?= ey)%Z; simpl; try reflexivity;
    destruct (mx ?= my)%positive; reflexivity.
Qed.

Lemma SFcompare_None (x y : spec_float) :
  SFcompare x y = None -> x = S754_nan \/ y = S754_nan.
Proof.
  destruct x as [sx|sx| |sx mx ex], y as [sy|sy| |sy my ey]; simpl; auto; discriminate.
Qed.

(** [a <= b] excludes [b < a]. *)
Lemma le_not_gt (a b : number) : le a b = true -> lt b a = false.
Proof.
  unfold le, lt. rewrite leb_spec, ltb_spec. unfold SFleb, SFltb.
  rewrite (SFcompare_antisym (Prim2SF a) (Prim2SF b)).
  destruct (SFcompare (Prim2SF a) (Prim2SF b)) as [[]|]; simpl; congruence.
Qed.

(** Among Numbers that are not NaN, [b < a] or [a <= b]. *)
Lemma not_lt_le (a b c : number) :
  lt b a = false -> lt b c = true -> (a =? a) = true -> le a b = true.
Proof.
  unfold le, lt. rewrite !ltb_spec, leb_spec, eqb_spec. unfold SFleb, SFltb, SFeqb.
  rewrite (SFcompare_antisym (Prim2SF b) (Prim2SF a)).
  destruct (SFcompare (Prim2SF b) (Prim2SF a)) as [[]|] eqn:E; simpl; try congruence.
  destruct (SFcompare_None _ _ E) as [H|H]; rewrite H; simpl; congruence.
Qed.

(** Rounding keeps the sign it is given. *)
Lemma binary_round_aux_sign (sx : bool) (mx ex : Z) (lx : location) :
  let r := binary_round_aux prec emax sx mx ex lx in
  r = S754_zero sx \/ (exists m e, r = S754_finite sx m e) \/
  r = S754_infinity sx \/ r = S754_nan.
Proof.
  unfold binary_round_aux.
  destruct (shr_fexp prec emax mx ex lx) as [mrs' e'].
  destruct (shr_fexp prec emax (round_nearest_even (shr_m mrs') (loc_of_shr_record mrs'))
              e' loc_Exact) as [mrs'' e''].
  destruct (shr_m mrs'') as [|m|m]; cbv zeta.
  - now left.
  - destruct (e'' <=? emax - prec)%Z; [right; left; eauto | right; right; now left].
  - now (right; right; right).
Qed.

(** A square root divided by +0 is +Infinity or NaN, hence below nothing. *)
Lemma sqrt_over_zero_not_lt (v c : number) : lt (Math_sqrt v / 0) c = false.
Proof.
  unfold lt, Math_sqrt. rewrite ltb_spec, div_spec, sqrt_spec.
  change (Prim2SF 0) with (S754_zero false).
  unfold SF64div, SF64sqrt, SFsqrt.
  destruct (Prim2SF v) as [s|s| |s m e].
  - destruct s; reflexivity.
  - destruct s; [reflexivity|]. unfold SFltb; simpl.
    destruct (Prim2SF c) as [ | [] | | ]; reflexivity.
  - reflexivity.
  - destruct s; [reflexivity|].
    destruct (SFsqrt_core_binary prec emax (Z.pos m) e) as [[mz ez] lz].
    destruct (binary_round_aux_sign false mz ez lz) as [H|[(m'&e'&H)|[H|H]]];
      cbv zeta in H; rewrite H; simpl; try reflexivity;
      unfold SFltb; simpl; destruct (Prim2SF c) as [ | [] | | ]; reflexivity.
Qed.

(** ** The constructor on the test record *)

(** The test record names no currency: the constructor keeps it as its own
    normalised copy, the engine sees the typed record, and the value it
    computes is positive with one of the four recommendations (Sell). *)
Lemma construct_mockStore :
  Loader.construct Fixtures.noString Fixtures.noObject (Store.VRef 11%nat) Fixtures.mockStore
    = (Ok (Some (Fixtures.calculatorOf Fixtures.mockData)), Fixtures.mockStore) /\
  exists result,
    calculateIntrinsicValue (Fixtures.calculatorOf Fixtures.mockData) = Ok result /\
    gt (Result.intrinsicValue result) 0 = true /\
    Result.recommendation result = Sell.
Proof.
  split; [vm_compute; reflexivity|].
  eexists. split; [vm_compute; reflexivity|]. split; reflexivity.
Qed.

(** ** C6: the recommendation *)

(** C6. [getRecommendation] applies its rules in order, the first match
    winning, each comparison being a strict greater-than: Strong Buy exactly
    when upside > 20 and margin > 15; otherwise Buy exactly when upside > 10
    and margin > 10; otherwise Hold exactly when upside > 0 and margin > 5,
    or upside > -10; otherwise Sell.  At upside = 20 and margin = 15 the
    answer is Buy. *)
Theorem getRecommendation_rules :
  (forall upside marginOfSafety : number,
      let strong := gt upside 20 && gt marginOfSafety 15 in
      let buy := gt upside 10 && gt marginOfSafety 10 in
      let hold := gt upside 0 && gt marginOfSafety 5 || gt upside (-10) in
      (getRecommendation upside marginOfSafety = StrongBuy <-> strong = true) /\
      (getRecommendation upside marginOfSafety = Buy <-> strong = false /\ buy = true) /\
      (getRecommendation upside marginOfSafety = Hold <->
         strong = false /\ buy = false /\ hold = true) /\
      (getRecommendation upside marginOfSafety = Sell <->
         strong = false /\ buy = false /\ hold = false)) /\
  getRecommendation 20 15 = Buy /\
  recommendationLabel (getRecommendation 20 15) = "Buy"%string.
Proof.
  split; [|split; reflexivity].
  intros upside marginOfSafety. cbv zeta. unfold getRecommendation.
  destruct (gt upside 20 && gt marginOfSafety 15);
    destruct (gt upside 10 && gt marginOfSafety 10);
    destruct (gt upside 0 && gt marginOfSafety 5);
    destruct (gt upside (-10)); simpl;
    repeat split; intros; try discriminate; try reflexivity;
    repeat match goal with H : _ /\ _ |- _ => destruct H end; try discriminate.
Qed.

(** ** C7: free cash flow to equity on a non-positive cash flow *)

Local Open Scope string_scope.

(** C7. When the latest year's free cash flow is at most zero,
    [calculateFCFE] returns a result flagged not applicable, with the reason
    text, a value per share of 0 and an upside of 0; no discounted value is
    computed. *)
Theorem calculateFCFE_nonpositive (this : Calculator) (latest : YearRecord) :
  latestData this = Ok latest ->
  le (ToNumber (freeCashFlow latest)) 0 = true ->
  exists r text,
    calculateFCFE this = Ok r /\
    notApplicable r = Some true /\
    valuePerShare r = Num 0 /\
    upside r = Num 0 /\
    reason r = Some text /\
    text = "FCFE model not applicable due to negative free cash flow ("
             ++ toFixed0 (ToNumber (freeCashFlow latest) / 1000000) ++ "M)".
Proof.
  intros Hlatest Hle. unfold calculateFCFE. rewrite Hlatest. simpl. rewrite Hle.
  eexists. eexists. repeat split.
Qed.

(** The record of the test suite with a latest free cash flow of -1. *)
Lemma calculateFCFE_minus_one :
  exists r text,
    calculateFCFE (Fixtures.calculatorOf Fixtures.burning) = Ok r /\
    notApplicable r = Some true /\
    valuePerShare r = Num 0 /\
    upside r = Num 0 /\
    reason r = Some text /\
    text = "FCFE model not applicable due to negative free cash flow (-0M)".
Proof.
  apply (calculateFCFE_nonpositive (Fixtures.calculatorOf Fixtures.burning)
           (mkYearRecord (Num 100000000) (Num 150000000) (Num (-1)) (Num 120000000)
              (Num 40000000) (Num 1500000000) (Num 500000000) (Num 50000000)
              (Num 800000000) (Num 8) (Num 1) (Num 0.5)));
    reflexivity.
Defined.

(** ** C3: compound annual growth rate *)

Lemma nth_last (A : Type) (d x : A) (l : list A) :
  nth (List.length l) (l ++ [x]) d = x.
Proof. induction l; simpl; auto. Qed.

(** C3 (counterexample). On [100, 121] the result is not within 1e-6 of
    0.10. *)
Lemma calculateCAGR_100_121_off :
  le (abs (calculateCAGR [Num 100; Num 121] - 0.10)) 1e-6 = false.
Proof. vm_compute. reflexivity. Qed.

(** C3 (amended). [calculateCAGR] is 0 on fewer than two values and
    [(end / begin) ^ (1 / n) - 1] otherwise, [n] being the number of values
    less one: 0.21 on [100, 121] (one period) and 0.10 up to 1e-6 on
    [100, 110, 121] (two periods). *)
Theorem calculateCAGR_formula :
  calculateCAGR [] = 0 /\
  (forall v, calculateCAGR [v] = 0) /\
  (forall first middle last,
      calculateCAGR (first :: middle ++ [last]) =
        Math_pow (ToNumber last / ToNumber first)
          (1 / of_nat (S (List.length middle))) - 1) /\
  calculateCAGR [Num 100; Num 121] = 121 / 100 - 1 /\
  le (abs (calculateCAGR [Num 100; Num 121] - 0.21)) 1e-6 = true /\
  le (abs (calculateCAGR [Num 100; Num 110; Num 121] - 0.10)) 1e-6 = true.
Proof.
  split; [reflexivity|]. split; [reflexivity|]. split.
  - intros first middle last. unfold calculateCAGR.
    change (List.length (first :: middle ++ [last]))
      with (S (List.length (middle ++ [last]))).
    rewrite length_app. simpl List.length.
    replace (List.length middle + 1)%nat with (S (List.length middle)) by lia.
    simpl Nat.ltb. cbv iota.
    replace (S (S (List.length middle)) - 1)%nat with (S (List.length middle)) by lia.
    cbn [nth]. rewrite nth_last. reflexivity.
  - repeat split; vm_compute; reflexivity.
Qed.

(** ** C1: the dividend discount model without a spread *)

(** C1 (the code at the failing input). With a required return of 0.08 and
    a dividend growth of 0.08 the model divides by zero: the value per share
    is [Infinity], nothing flags the result, and the weighted intrinsic
    value of the record is NaN. *)
Theorem calculateDDM_no_spread :
  calculateCostOfEquity (Fixtures.calculatorOf Fixtures.noSpread) = 0.08 /\
  (exists r,
      calculateDDM (Fixtures.calculatorOf Fixtures.noSpread) = Ok r /\
      valuePerShare r = Num infinity /\
      notApplicable r = None /\
      reason r = None) /\
  (exists result,
      calculateIntrinsicValue (Fixtures.calculatorOf Fixtures.noSpread) = Ok result /\
      Weights.ddm (Result.weights result) = 0 /\
      Result.intrinsicValue result = nan).
Proof.
  split; [vm_compute; reflexivity|]. split.
  - eexists. split; [reflexivity|]. repeat split.
  - eexists. split; [vm_compute; reflexivity|]. split; reflexivity.
Qed.

(** ** C8: confidence *)

(** C8 (counterexample). The values 1, -1 and -5e-324 sum to -5e-324, whose
    third rounds to -0: the mean is zero, the deviation is not, their
    quotient is -Infinity and the confidence is High. *)
Lemma calculateConfidence_negative_zero_mean :
  strict_eq (meanOf [Num 1; Num (-1); Num (-5e-324)]) 0 = true /\
  coefficientOfVariation (Fixtures.valuationsOf [1; -1; -5e-324]) = neg_infinity /\
  calculateConfidence (Fixtures.valuationsOf [1; -1; -5e-324]) = High.
Proof. repeat split; vm_compute; reflexivity. Qed.

(** A quotient by -0: -Infinity for a dividend above 0, and NaN or
    +Infinity for every other one. *)
Lemma over_negative_zero (s : number) :
  lt (s / neg_zero) 0.2 = lt 0 s /\
  (lt 0 s = false -> lt (s / neg_zero) 0.4 = false).
Proof.
  unfold lt. rewrite !ltb_spec, div_spec.
  change (Prim2SF neg_zero) with (S754_zero true).
  change (Prim2SF 0) with (S754_zero false).
  destruct (Prim2SF s) as [[]|[]| |[] m e]; split; try reflexivity; discriminate.
Qed.

(** C8 (amended). The confidence is High exactly when CV < 0.2, Medium
    exactly when 0.2 <= CV < 0.4 and Low in every other case (a CV that is
    NaN included).  No division fails on a mean of zero: when the mean of
    the values is +0 the confidence is Low; when it is -0 the confidence is
    High if the standard deviation is above 0 and Low if it is not (0 or
    NaN), never Medium. *)
Theorem calculateConfidence_classes (valuations : list Valuation) :
  let cv := coefficientOfVariation valuations in
  let values := List.map value valuations in
  (calculateConfidence valuations = High <-> lt cv 0.2 = true) /\
  (calculateConfidence valuations = Medium <-> le 0.2 cv = true /\ lt cv 0.4 = true) /\
  (calculateConfidence valuations = Low <->
     lt cv 0.2 = false /\ (le 0.2 cv && lt cv 0.4) = false) /\
  (meanOf values = 0 -> calculateConfidence valuations = Low) /\
  (meanOf values = neg_zero ->
     (calculateConfidence valuations = High <-> lt 0 (stdDevOf values) = true) /\
     (calculateConfidence valuations = Low <-> lt 0 (stdDevOf values) = false)).
Proof.
  cbv zeta. unfold calculateConfidence.
  split; [|split; [|split; [|split]]].
  - split.
    + destruct (lt _ 0.2); [reflexivity|]. destruct (lt _ 0.4); discriminate.
    + intros ->. reflexivity.
  - split.
    + destruct (lt _ 0.2) eqn:E2; [discriminate|].
      destruct (lt _ 0.4) eqn:E4; [|discriminate].
      intros _. split; [|reflexivity]. apply (not_lt_le 0.2 _ 0.4 E2 E4). reflexivity.
    + intros [Hle Hlt]. rewrite (le_not_gt _ _ Hle), Hlt. reflexivity.
  - split.
    + destruct (lt _ 0.2); [discriminate|]. destruct (lt _ 0.4); [discriminate|].
      intros _. split; [reflexivity|]. apply andb_false_r.
    + intros [E2 E]. rewrite E2.
      destruct (lt _ 0.4) eqn:E4; [|reflexivity].
      rewrite (not_lt_le 0.2 _ 0.4 E2 E4 eq_refl) in E. discriminate.
  - intros Hmean. unfold coefficientOfVariation. rewrite Hmean.
    unfold stdDevOf. rewrite !sqrt_over_zero_not_lt. reflexivity.
  - intros Hmean. unfold coefficientOfVariation. rewrite Hmean.
    destruct (over_negative_zero (stdDevOf (List.map value valuations))) as [H2 H4].
    rewrite H2. destruct (lt 0 (stdDevOf (List.map value valuations))).
    + split; split; intros H; try reflexivity; discriminate H.
    + rewrite (H4 eq_refl). split; split; intros H; try reflexivity; discriminate H.
Qed.

(** The values -5e-324 and 0: their mean is -0 and their deviation is 0. *)
Lemma calculateConfidence_negative_zero_still :
  meanOf [Num (-5e-324); Num 0] = neg_zero /\
  stdDevOf [Num (-5e-324); Num 0] = 0 /\
  calculateConfidence (Fixtures.valuationsOf [-5e-324; 0]) = Low.
Proof. repeat split; vm_compute; reflexivity. Qed.

(** Two values at 10%, 30% and 50% around their mean. *)
Lemma calculateConfidence_examples :
  calculateConfidence (Fixtures.valuationsOf [9; 11]) = High /\
  calculateConfidence (Fixtures.valuationsOf [7; 13]) = Medium /\
  calculateConfidence (Fixtures.valuationsOf [5; 15]) = Low /\
  coefficientOfVariation (Fixtures.valuationsOf [9; 11]) = 0.1 /\
  coefficientOfVariation (Fixtures.valuationsOf [7; 13]) = 0.3 /\
  coefficientOfVariation (Fixtures.valuationsOf [5; 15]) = 0.5.
Proof. repeat split; vm_compute; reflexivity. Qed.

(** The values 1 and -1: their mean is +0. *)
Lemma calculateConfidence_zero_mean :
  meanOf [Num 1; Num (-1)] = 0 /\
  calculateConfidence (Fixtures.valuationsOf [1; -1]) = Low.
Proof.
  split; [reflexivity|].
  apply (proj1 (proj2 (proj2 (proj2
           (calculateConfidence_classes (Fixtures.valuationsOf [1; -1])))))).
  reflexivity.
Defined.

(** ** The weights: C2, C5, C10 *)

Import Cascade.

Lemma allb_spec (f : bool -> bool) : allb f = true -> forall b, f b = true.
Proof. unfold allb. intros H b. apply andb_prop in H. destruct b; tauto. Qed.

Lemma everywhere_spec (P : Weights.t -> bool) :
  everywhere P = true ->
  forall a b c d e f g h i j k l m n o p,
    P (cascade a b c d e f g h i j k l m n o p) = true.
Proof.
  intros H a b c d e f g h i j k l m n o p. unfold everywhere in H.
  pose proof (allb_spec _ H a) as H1; cbv beta in H1.
  pose proof (allb_spec _ H1 b) as H2; cbv beta in H2.
  pose proof (allb_spec _ H2 c) as H3; cbv beta in H3.
  pose proof (allb_spec _ H3 d) as H4; cbv beta in H4.
  pose proof (allb_spec _ H4 e) as H5; cbv beta in H5.
  pose proof (allb_spec _ H5 f) as H6; cbv beta in H6.
  pose proof (allb_spec _ H6 g) as H7; cbv beta in H7.
  pose proof (allb_spec _ H7 h) as H8; cbv beta in H8.
  pose proof (allb_spec _ H8 i) as H9; cbv beta in H9.
  pose proof (allb_spec _ H9 j) as H10; cbv beta in H10.
  pose proof (allb_spec _ H10 k) as H11; cbv beta in H11.
  pose proof (allb_spec _ H11 l) as H12; cbv beta in H12.
  pose proof (allb_spec _ H12 m) as H13; cbv beta in H13.
  pose proof (allb_spec _ H13 n) as H14; cbv beta in H14.
  pose proof (allb_spec _ H14 o) as H15; cbv beta in H15.
  exact (allb_spec _ H15 p).
Qed.

(** [rawWeights] is the cascade at the outcome of its sixteen tests. *)
Lemma rawWeights_cascade (this : Calculator) (fcfeResult fcffResult ddmResult : MethodResult)
    (relativeResults : RelativeResults) (assetResults : AssetResults) :
  rawWeights this fcfeResult fcffResult ddmResult relativeResults assetResults =
  cascade (assetHeavy (industry (data this)))
    (gt (ToNumber (marketCap (marketData (data this)))) 100000000000)
    (gt (ToNumber (debtToEquity (keyRatios (data this)))) 2)
    (gt (ToNumber (beta (marketData (data this)))) 1.3)
    (gt (dividendYieldOf (dividendInfo (data this))) 0.03)
    (extreme fcfeResult 100) (extreme fcffResult 100) (extreme ddmResult 100)
    (extreme (peValuation relativeResults) 100)
    (extreme (evEbitdaValuation relativeResults) 100)
    (nonPositive fcfeResult || extreme fcfeResult 150 || is_notApplicable fcfeResult)
    (nonPositive fcffResult || extreme fcffResult 150)
    (nonPositive ddmResult || extreme ddmResult 150)
    (nonPositive (bookValue assetResults))
    (nonPositive (liquidationValue assetResults))
    (gt (ToNumber (valuePerShare (tangibleBookValue assetResults))) 0).
Proof. reflexivity. Qed.

(** Whatever the tests answer: the weights add up to more than 0.149 (so
    not to zero) before the normalisation and to 1 after it, and a
    book-value weight of zero stays +0. *)
Lemma cascade_checked :
  everywhere (fun w =>
    lt 0.149 (totalWeight w) && negb (strict_eq (totalWeight w) 0)
    && sumsToOne (normalize w)
    && implb (strict_eq (Weights.bookValue w) 0)
         (Leibniz.eqb (Weights.bookValue (normalize w)) 0)) = true.
Proof. vm_compute. reflexivity. Qed.


(** C5 (counterexample). At a share price of 5 the P/E and EV/EBITDA
    values of the test record are more than 150% above the price, and both
    methods keep a positive weight. *)
Lemma extreme_multiples_keep_weight :
  exists relativeResults weights,
    calculateRelativeValuation (Fixtures.calculatorOf Fixtures.cheap) = Ok relativeResults /\
    Fixtures.weightsOf (Fixtures.calculatorOf Fixtures.cheap) = Ok weights /\
    extreme (peValuation relativeResults) 150 = true /\
    extreme (evEbitdaValuation relativeResults) 150 = true /\
    lt 0 (Weights.peRelative weights) = true /\
    lt 0 (Weights.evEbitda weights) = true.
Proof.
  eexists. eexists. split; [reflexivity|]. split; [vm_compute; reflexivity|].
  repeat split; vm_compute; reflexivity.
Qed.

(** C5 (amended). The quality checks treat the methods one by one.  FCFE,
    FCFF and DDM: weight 0 if the value per share is non-positive or
    |upside| > 150 (for FCFE also if flagged not applicable), else halved
    if |upside| > 100.  P/E and EV/EBITDA: halved if |upside| > 100, never
    set to zero.  Book value: 0 if the book value or the liquidation value
    per share is non-positive, never halved.  Capitalized earnings:
    unchanged. *)
Theorem quality_checks_by_method (this : Calculator)
    (fcfeResult fcffResult ddmResult : MethodResult)
    (relativeResults : RelativeResults) (assetResults : AssetResults) :
  let before := adjustedWeights this in
  let after := checkedWeights this fcfeResult fcffResult ddmResult
                 relativeResults assetResults in
  let halved (r : MethodResult) (x : number) := if extreme r 100 then x * 0.5 else x in
  Weights.fcfe after =
    (if nonPositive fcfeResult || extreme fcfeResult 150 || is_notApplicable fcfeResult
     then 0 else halved fcfeResult (Weights.fcfe before)) /\
  Weights.fcff after =
    (if nonPositive fcffResult || extreme fcffResult 150
     then 0 else halved fcffResult (Weights.fcff before)) /\
  Weights.ddm after =
    (if nonPositive ddmResult || extreme ddmResult 150
     then 0 else halved ddmResult (Weights.ddm before)) /\
  Weights.peRelative after =
    halved (peValuation relativeResults) (Weights.peRelative before) /\
  Weights.evEbitda after =
    halved (evEbitdaValuation relativeResults) (Weights.evEbitda before) /\
  Weights.bookValue after =
    (if nonPositive (bookValue assetResults) || nonPositive (liquidationValue assetResults)
     then 0 else Weights.bookValue before) /\
  Weights.capitalizedEarnings after = Weights.capitalizedEarnings before.
Proof.
  cbv zeta. unfold checkedWeights, filterUnrealistic, halveExtremes.
  generalize (adjustedWeights this). intros [a b c d e f g].
  destruct (nonPositive fcfeResult || extreme fcfeResult 150 || is_notApplicable fcfeResult);
    destruct (nonPositive fcffResult || extreme fcffResult 150);
    destruct (nonPositive ddmResult || extreme ddmResult 150);
    destruct (nonPositive (bookValue assetResults));
    destruct (nonPositive (liquidationValue assetResults));
    destruct (extreme fcfeResult 100); destruct (extreme fcffResult 100);
    destruct (extreme ddmResult 100);
    destruct (extreme (peValuation relativeResults) 100);
    destruct (extreme (evEbitdaValuation relativeResults) 100);
    repeat split.
Qed.

(** C10. When the liquidation value per share is at most zero, the
    book-value weight is 0 after the quality checks, whatever the book value
    per share; it is still +0 in the returned weights unless the asset floor
    applies (asset-heavy industry and positive tangible book value); and
    the liquidation result, which has no weight of its own, enters the
    weights through this test only. *)
Theorem liquidation_zeroes_book_weight (this : Calculator)
    (fcfeResult fcffResult ddmResult : MethodResult)
    (relativeResults : RelativeResults) (assetResults : AssetResults)
    (earningsResults : EarningsResults) :
  nonPositive (liquidationValue assetResults) = true ->
  Weights.bookValue
    (checkedWeights this fcfeResult fcffResult ddmResult relativeResults assetResults) = 0 /\
  ((assetHeavy (industry (data this))
    && gt (ToNumber (valuePerShare (tangibleBookValue assetResults))) 0) = false ->
   Weights.bookValue
     (calculateDynamicWeights this fcfeResult fcffResult ddmResult
        relativeResults assetResults earningsResults) = 0) /\
  (forall other : MethodResult,
      nonPositive other = true ->
      calculateDynamicWeights this fcfeResult fcffResult ddmResult relativeResults
        (mkAssetResults (bookValue assetResults) (tangibleBookValue assetResults) other)
        earningsResults =
      calculateDynamicWeights this fcfeResult fcffResult ddmResult relativeResults
        assetResults earningsResults).
Proof.
  intros Hliq.
  assert (Hchecked : Weights.bookValue
            (checkedWeights this fcfeResult fcffResult ddmResult
               relativeResults assetResults) = 0).
  { unfold checkedWeights, filterUnrealistic. rewrite Hliq.
    generalize (halveExtremes fcfeResult fcffResult ddmResult relativeResults
                  (adjustedWeights this)).
    intros w.
    destruct (nonPositive fcfeResult || extreme fcfeResult 150 || is_notApplicable fcfeResult);
      destruct (nonPositive fcffResult || extreme fcffResult 150);
      destruct (nonPositive ddmResult || extreme ddmResult 150);
      destruct (nonPositive (bookValue assetResults)); reflexivity. }
  split; [exact Hchecked|]. split.
  - intros Hfloor. unfold calculateDynamicWeights.
    pose proof (rawWeights_cascade this fcfeResult fcffResult ddmResult
                  relativeResults assetResults) as Hc.
    assert (Hraw : Weights.bookValue
              (rawWeights this fcfeResult fcffResult ddmResult
                 relativeResults assetResults) = 0).
    { unfold rawWeights, assetFloor, when. rewrite Hchecked.
      destruct (assetHeavy (industry (data this))); [|exact Hchecked].
      simpl in Hfloor. rewrite Hfloor. simpl. exact Hchecked. }
    revert Hraw. rewrite Hc.
    match goal with |- context [cascade ?a ?b ?c ?d ?e ?f ?g ?h ?i ?j ?k ?l ?m ?n ?o ?p] =>
      pose proof (everywhere_spec _ cascade_checked a b c d e f g h i j k l m n o p) as H;
      set (w := cascade a b c d e f g h i j k l m n o p) in *
    end.
    cbv beta in H. apply andb_prop in H. destruct H as [_ H].
    intros Hraw. rewrite Hraw in H. simpl in H.
    apply Leibniz.eqb_spec in H. exact H.
  - intros other Hother. unfold calculateDynamicWeights, rawWeights, checkedWeights,
      filterUnrealistic, assetFloor. simpl. rewrite Hother, Hliq. reflexivity.
Qed.

(** Total assets of 3e9 against an equity of 8e8, book value per share 8:
    the results of the record's own methods. *)
Lemma liquidation_zeroes_book_weight_leveraged :
  let this := Fixtures.calculatorOf Fixtures.leveraged in
  exists fcfeResult fcffResult ddmResult relativeResults assetResults,
    calculateFCFE this = Ok fcfeResult /\
    calculateFCFF this = Ok fcffResult /\
    calculateDDM this = Ok ddmResult /\
    calculateRelativeValuation this = Ok relativeResults /\
    calculateAssetBasedValuation this = Ok assetResults /\
    valuePerShare (bookValue assetResults) = Num 8 /\
    Weights.bookValue
      (checkedWeights this fcfeResult fcffResult ddmResult relativeResults assetResults) = 0 /\
    Weights.bookValue
      (calculateDynamicWeights this fcfeResult fcffResult ddmResult relativeResults
         assetResults (calculateEarningsBasedValuation this)) = 0.
Proof.
  cbv zeta. do 5 eexists.
  do 5 (split; [reflexivity|]). split; [reflexivity|].
  match goal with
  | |- Weights.bookValue (checkedWeights ?t ?a ?b ?c ?d ?e) = _ /\ _ =>
      destruct (liquidation_zeroes_book_weight t a b c d e
                  (calculateEarningsBasedValuation t)) as (H1 & H2 & _)
  end.
  - vm_compute. reflexivity.
  - split; [exact H1|]. apply H2. reflexivity.
Defined.

(** ** The currency normaliser: C4, C9 *)

Module StoreFacts.

Import Store Frame.
Local Open Scope string_scope.
Local Open Scope nat_scope.
Local Open Scope list_scope.

(** *** Stores that grow at the end *)

Lemma extends_refl (s : store) : extends s s.
Proof. exists []. now rewrite app_nil_r. Qed.

Lemma extends_app (base s added : store) : extends base s -> extends base (s ++ added).
Proof. intros [a ->]. exists (a ++ added)%list. now rewrite app_assoc. Qed.

Lemma extends_length (base s : store) : extends base s -> List.length base <= List.length s.
Proof. intros [a ->]. rewrite length_app. lia. Qed.

Lemma value_above_le (n m : nat) (v : value) : n <= m -> value_above m v -> value_above n v.
Proof. destruct v; simpl; auto. lia. Qed.

Lemma cell_above_le (n m : nat) (c : cell) : n <= m -> cell_above m c -> cell_above n c.
Proof.
  intros Hle. destruct c; simpl; apply Forall_impl; intros; eapply value_above_le; eauto.
Qed.

Lemma replace_app (base added : store) (l : loc) (c : cell) :
  List.length base <= l ->
  replace l c (base ++ added) = (base ++ replace (l - List.length base) c added)%list.
Proof.
  revert l. induction base as [|b base IH]; intros l Hl; simpl.
  - now rewrite Nat.sub_0_r.
  - destruct l as [|l]; [simpl in Hl; lia|]. simpl. f_equal. apply IH. simpl in Hl. lia.
Qed.

Lemma nth_error_replace (s : store) (l l' : loc) (c c' : cell) :
  nth_error (replace l c s) l' = Some c' ->
  (l' = l /\ c' = c) \/ nth_error s l' = Some c'.
Proof.
  revert l l'. induction s as [|x s IH]; intros l l'; simpl.
  - destruct l, l'; discriminate.
  - destruct l as [|l]; destruct l' as [|l']; simpl; intros H.
    + injection H as <-. auto.
    + auto.
    + auto.
    + destruct (IH _ _ H) as [[-> ->]|H']; auto.
Qed.

Lemma lookup_above (n : nat) (key : string) (props : list (string * value)) :
  Forall (fun kv => value_above n (snd kv)) props -> value_above n (lookup key props).
Proof.
  induction 1 as [|[k v] props Hv _ IH]; simpl; [exact I|].
  destruct (String.eqb k key); auto.
Qed.

Lemma update_above (n : nat) (key : string) (v : value) (props : list (string * value)) :
  value_above n v ->
  Forall (fun kv => value_above n (snd kv)) props ->
  Forall (fun kv => value_above n (snd kv)) (update key v props).
Proof.
  intros Hv. induction 1 as [|[k w] props Hw Hprops IH]; simpl.
  - constructor; auto.
  - destruct (String.eqb k key); constructor; auto.
Qed.

Lemma elemProp_above (n : nat) (key : string) (elems : list value) :
  Forall (value_above n) elems -> value_above n (elemProp elems key).
Proof.
  intros H. unfold elemProp. destruct (String.eqb key "length"); [exact I|].
  destruct (keyIndex _ key) as [i|]; [|exact I].
  destruct (nth_in_or_default i elems VUndef) as [Hin| ->]; [|exact I].
  rewrite Forall_forall in H. auto.
Qed.

Lemma charProp_above (n : nat) (key text : string) : value_above n (charProp text key).
Proof.
  unfold charProp. destruct (String.eqb key "length"); [exact I|].
  destruct (keyIndex _ key); [|exact I]. destruct (String.get _ text); exact I.
Qed.

(** *** Computations that leave the cells of [base] alone *)

Lemma keeps_ret (A : Type) (base : store) (P : A -> Prop) (a : A) :
  P a -> keeps base P (ret a).
Proof. intros Ha s Hs. simpl. auto. Qed.

Lemma keeps_bind (A B : Type) (base : store) (P : A -> Prop) (Q : B -> Prop)
    (m : M A) (k : A -> M B) :
  keeps base P m -> (forall a, P a -> keeps base Q (k a)) -> keeps base Q (bindM m k).
Proof.
  intros Hm Hk s Hs. unfold bindM. destruct (Hm s Hs) as [Hs' Ha].
  destruct (m s) as [[a|] s']; simpl in *; [|auto].
  apply (Hk a Ha s' Hs').
Qed.

Lemma keeps_read (A : Type) (base : store) (f : store -> outcome A) :
  keeps base anything (read f).
Proof. intros s Hs. unfold read; simpl. split; [exact Hs|]. destruct (f s); exact I. Qed.

Lemma keeps_if (A : Type) (base : store) (P : A -> Prop) (c : bool) (m1 m2 : M A) :
  keeps base P m1 -> keeps base P m2 -> keeps base P (if c then m1 else m2).
Proof. destruct c; auto. Qed.

Lemma keeps_forEach (A : Type) (base : store) (l : list A) (callback : A -> M unit) :
  (forall x, keeps base anything (callback x)) -> keeps base anything (forEach l callback).
Proof.
  intros H. induction l as [|x l IH]; simpl.
  - apply keeps_ret. exact I.
  - eapply keeps_bind; [apply H|]. intros _ _. exact IH.
Qed.

Lemma spares_bind (A B : Type) (base : store) (m : M A) (k : A -> M B) :
  spares base m -> (forall a, spares base (k a)) -> spares base (bindM m k).
Proof.
  intros Hm Hk s Hs. unfold bindM. specialize (Hm s Hs).
  destruct (m s) as [[a|] s']; simpl in *; [|auto]. apply (Hk a s' Hm).
Qed.

Lemma spares_read (A : Type) (base : store) (f : store -> outcome A) : spares base (read f).
Proof. intros s Hs. exact Hs. Qed.

(** *** The operations of the normaliser *)

Lemma keeps_getProp (base : store) (v : value) (key : string) :
  value_above (List.length base) v ->
  keeps base (value_above (List.length base)) (getProp v key).
Proof.
  intros Hv s Hs. unfold getProp, read; simpl. split; [exact Hs|].
  destruct v as [| | | |text|l]; simpl; try exact I.
  - apply charProp_above.
  - destruct (nth_error s l) as [[props|elems]|] eqn:E; simpl; try exact I.
    + apply lookup_above. apply (proj2 Hs l _ Hv E).
    + apply elemProp_above. apply (proj2 Hs l _ Hv E).
Qed.

Lemma keeps_setProp (base : store) (target : value) (key : string) (v : value) :
  value_above (List.length base) target ->
  value_above (List.length base) v ->
  keeps base anything (setProp target key v).
Proof.
  intros Ht Hv s [[added ->] Hclosed]. unfold setProp.
  destruct target as [| | | | |l]; simpl; try (split; [split; [eexists; eauto|assumption]|exact I]).
  destruct (nth_error (base ++ added) l) as [[props|elems]|] eqn:E; simpl;
    try (split; [split; [eexists; eauto|assumption]|exact I]).
  split; [|exact I]. split.
  - rewrite replace_app by exact Ht. eexists; eauto.
  - intros l' c' Hl' Hc'. destruct (nth_error_replace _ _ _ _ _ Hc') as [[-> ->]|H'].
    + simpl. apply update_above; [exact Hv|]. apply (Hclosed l _ Ht E).
    + apply (Hclosed l' _ Hl' H').
Qed.

Lemma spares_setProp (base : store) (target : value) (key : string) (v : value) :
  value_above (List.length base) target -> spares base (setProp target key v).
Proof.
  intros Ht s [added ->]. unfold setProp.
  destruct target as [| | | | |l]; simpl; try (eexists; eauto; fail).
  destruct (nth_error (base ++ added) l) as [[props|elems]|]; simpl; try (eexists; eauto; fail).
  rewrite replace_app by exact Ht. eexists; eauto.
Qed.

(** *** The deep copy *)

Lemma materialize_grows (j : json) :
  forall s, exists added,
    fst (materialize j s) = s ++ added /\
    value_above (List.length s) (snd (materialize j s)) /\
    Forall (cell_above (List.length s)) added.
Proof.
  revert j. fix IH 1. intros j s. destruct j as [| b | n | text | elems | props].
  - exists []. rewrite app_nil_r. simpl. auto.
  - exists []. rewrite app_nil_r. simpl. auto.
  - exists []. rewrite app_nil_r. simpl. auto.
  - exists []. rewrite app_nil_r. simpl. auto.
  - simpl.
    match goal with |- context [?F elems s] => set (items := F) end.
    assert (Hitems : forall s0, exists added,
               fst (items elems s0) = s0 ++ added /\
               Forall (value_above (List.length s0)) (snd (items elems s0)) /\
               Forall (cell_above (List.length s0)) added).
    { induction elems as [|j elems IHelems]; intros s0.
      - exists []. rewrite app_nil_r. simpl. auto.
      - simpl. destruct (IH j s0) as (a1 & E1 & V1 & C1).
        destruct (materialize j s0) as [s1 v]. simpl in E1, V1. subst s1.
        destruct (IHelems (s0 ++ a1)) as (a2 & E2 & V2 & C2).
        destruct (items elems (s0 ++ a1)) as [s2 vs]. simpl in E2, V2. subst s2.
        exists (a1 ++ a2). simpl. rewrite app_assoc. split; [reflexivity|].
        assert (Hle : List.length s0 <= List.length (s0 ++ a1)) by (rewrite length_app; lia).
        split.
        + constructor; [exact V1|]. revert V2. apply Forall_impl. intros x. apply value_above_le, Hle.
        + apply Forall_app. split; [exact C1|]. revert C2. apply Forall_impl. intros x. apply cell_above_le, Hle. }
    destruct (Hitems s) as (a & E & V & C). destruct (items elems s) as [s' vs].
    simpl in E, V. subst s'. exists (a ++ [CArr vs]). simpl. rewrite app_assoc.
    split; [reflexivity|]. split; [rewrite length_app; lia|].
    apply Forall_app. split; [exact C|]. constructor; [exact V|constructor].
  - simpl.
    match goal with |- context [?F props s] => set (members := F) end.
    assert (Hmembers : forall s0, exists added,
               fst (members props s0) = s0 ++ added /\
               Forall (fun kv => value_above (List.length s0) (snd kv)) (snd (members props s0)) /\
               Forall (cell_above (List.length s0)) added).
    { induction props as [|[k j] props IHprops]; intros s0.
      - exists []. rewrite app_nil_r. simpl. auto.
      - simpl. destruct (IH j s0) as (a1 & E1 & V1 & C1).
        destruct (materialize j s0) as [s1 v]. simpl in E1, V1. subst s1.
        destruct (IHprops (s0 ++ a1)) as (a2 & E2 & V2 & C2).
        destruct (members props (s0 ++ a1)) as [s2 vs]. simpl in E2, V2. subst s2.
        exists (a1 ++ a2). simpl. rewrite app_assoc. split; [reflexivity|].
        assert (Hle : List.length s0 <= List.length (s0 ++ a1)) by (rewrite length_app; lia).
        split.
        + constructor; [exact V1|]. revert V2. apply Forall_impl. intros x. apply value_above_le, Hle.
        + apply Forall_app. split; [exact C1|]. revert C2. apply Forall_impl. intros x. apply cell_above_le, Hle. }
    destruct (Hmembers s) as (a & E & V & C). destruct (members props s) as [s' vs].
    simpl in E, V. subst s'. exists (a ++ [CObj vs]). simpl. rewrite app_assoc.
    split; [reflexivity|]. split; [rewrite length_app; lia|].
    apply Forall_app. split; [exact C|]. constructor; [exact V|constructor].
Qed.

Lemma keeps_deepCopy (base : store) (data : value) :
  keeps base (value_above (List.length base)) (deepCopy data).
Proof.
  intros s Hs. unfold deepCopy.
  destruct (serialize (S (List.length s)) s data) as [j|]; [|simpl; auto].
  destruct (materialize_grows j s) as (added & E & V & C).
  destruct (materialize j s) as [s' v]. simpl in *. subst s'.
  pose proof (extends_length _ _ (proj1 Hs)) as Hlen.
  split; [split|].
  - apply extends_app, Hs.
  - intros l c Hl Hc. destruct (Nat.lt_ge_cases l (List.length s)) as [Hlt|Hge].
    + rewrite nth_error_app1 in Hc by exact Hlt. apply (proj2 Hs l c Hl Hc).
    + rewrite nth_error_app2 in Hc by exact Hge. apply nth_error_In in Hc.
      rewrite Forall_forall in C. apply (cell_above_le _ _ _ Hlen), C, Hc.
  - apply (value_above_le _ _ _ Hlen V).
Qed.

Lemma keeps_frames (A : Type) (base : store) (P : A -> Prop) (m : M A) :
  keeps base P m -> frames base m.
Proof. intros Hm s Hs. apply (Hm s Hs). Qed.

Lemma frames_bind (A B : Type) (base : store) (P : A -> Prop) (m : M A) (k : A -> M B) :
  keeps base P m -> (forall a, P a -> frames base (k a)) -> frames base (bindM m k).
Proof.
  intros Hm Hk s Hs. unfold bindM. destruct (Hm s Hs) as [Hs' Ha].
  destruct (m s) as [[a|] s']; simpl in *; [|apply Hs']. apply (Hk a Ha s' Hs').
Qed.

Lemma frames_then_ret (A B : Type) (base : store) (m : M A) (b : B) :
  frames base m -> frames base (bindM m (fun _ => ret b)).
Proof.
  intros Hm s Hs. unfold bindM. specialize (Hm s Hs).
  destruct (m s) as [[a|] s']; simpl in *; exact Hm.
Qed.

Lemma frames_ret (A : Type) (base : store) (a : A) : frames base (ret a).
Proof. intros s Hs. apply Hs. Qed.

Lemma frames_if (A : Type) (base : store) (c : bool) (m1 m2 : M A) :
  frames base m1 -> frames base m2 -> frames base (if c then m1 else m2).
Proof. destruct c; auto. Qed.

(** *** Inversion of successful runs *)

Lemma bindM_Ok (A B : Type) (m : M A) (k : A -> M B) (s s' : store) (b : B) :
  bindM m k s = (Ok b, s') ->
  exists a s1, m s = (Ok a, s1) /\ k a s1 = (Ok b, s').
Proof.
  unfold bindM. destruct (m s) as [[a|] s1]; [eauto|discriminate].
Qed.

Lemma setProp_Ok (target : value) (key : string) (v : value) (s s' : store) :
  setProp target key v s = (Ok tt, s') ->
  exists l props,
    target = VRef l /\ nth_error s l = Some (CObj props) /\
    s' = replace l (CObj (update key v props)) s.
Proof.
  unfold setProp. destruct target as [| | | | |l]; try discriminate.
  destruct (nth_error s l) as [[props|elems]|] eqn:E; try discriminate.
  intros H. injection H as <-. eauto.
Qed.

Lemma nth_error_replace_same (s : store) (l : loc) (c c0 : cell) :
  nth_error s l = Some c0 -> nth_error (replace l c s) l = Some c.
Proof.
  revert l. induction s as [|x s IH]; intros [|l]; simpl; try discriminate; auto.
Qed.

Lemma lookup_update_same (key : string) (v : value) (props : list (string * value)) :
  lookup key (update key v props) = v.
Proof.
  induction props as [|[k w] props IH]; simpl.
  - now rewrite String.eqb_refl.
  - destruct (String.eqb k key) eqn:E; simpl; rewrite E; auto.
Qed.

Lemma lookup_update_other (key key' : string) (v : value) (props : list (string * value)) :
  String.eqb key' key = false ->
  lookup key (update key' v props) = lookup key props.
Proof.
  intros Hne. induction props as [|[k w] props IH]; simpl.
  - now rewrite Hne.
  - destruct (String.eqb k key') eqn:E; simpl.
    + apply String.eqb_eq in E. subst k. now rewrite Hne.
    + destruct (String.eqb k key); auto.
Qed.

(** A property that is there is still there after the store has grown. *)
Lemma getProp_stable (base s : store) (v : value) (key : string) (w : value) :
  extends base s ->
  fst (getProp v key base) = Ok w -> w <> VUndef ->
  getProp v key s = (Ok w, s).
Proof.
  intros [added ->]. unfold getProp, read. simpl.
  destruct v as [| | | | |l]; simpl; try (intros ->; reflexivity).
  destruct (nth_error base l) as [c|] eqn:E.
  - rewrite nth_error_app1 by (apply nth_error_Some; congruence). rewrite E.
    intros ->. reflexivity.
  - intros H Hw. injection H as <-. contradiction.
Qed.

(** *** The normaliser *)

Section Normaliser.

Variable StringToNumber : string -> JS.number.
Variable ObjectToNumber : store -> loc -> outcome JS.number.

Local Abbreviation multiply := (multiply StringToNumber ObjectToNumber).
Local Abbreviation convertIfTruthy := (convertIfTruthy StringToNumber ObjectToNumber).
Local Abbreviation convertYear := (convertYear StringToNumber ObjectToNumber).
Local Abbreviation convertDividendInfo := (convertDividendInfo StringToNumber ObjectToNumber).
Local Abbreviation convertFromDKK := (convertFromDKK StringToNumber ObjectToNumber).
Local Abbreviation convertToUSD := (convertToUSD StringToNumber ObjectToNumber).

Lemma keeps_multiply (base : store) (a b : value) :
  keeps base (value_above (List.length base)) (multiply a b).
Proof.
  unfold Store.multiply.
  eapply keeps_bind; [apply keeps_read|]. intros x _.
  eapply keeps_bind; [apply keeps_read|]. intros y _.
  apply keeps_ret. exact I.
Qed.

Lemma keeps_convertIfTruthy (base : store) (object : value) (field : string) (rate : value) :
  value_above (List.length base) object ->
  keeps base anything (convertIfTruthy object field rate).
Proof.
  intros Hobject. unfold Store.convertIfTruthy.
  eapply keeps_bind; [apply keeps_read|]. intros current _.
  apply keeps_if; [|apply keeps_ret; exact I].
  eapply keeps_bind; [apply keeps_read|]. intros current' _.
  eapply keeps_bind; [apply keeps_multiply|]. intros converted Hconverted.
  apply keeps_setProp; assumption.
Qed.

Lemma keeps_convertYear (base : store) (normalizedData rate : value) (year : string) :
  value_above (List.length base) normalizedData ->
  keeps base anything (convertYear normalizedData rate year).
Proof.
  intros Hdata. unfold Store.convertYear.
  eapply keeps_bind; [apply keeps_getProp, Hdata|]. intros history Hhistory.
  eapply keeps_bind; [apply keeps_getProp, Hhistory|]. intros yearData HyearData.
  eapply keeps_bind.
  { apply keeps_forEach. intros field.
    eapply keeps_bind; [apply keeps_read|]. intros current _.
    apply keeps_if; [|apply keeps_ret; exact I].
    eapply keeps_bind; [apply keeps_read|]. intros current' _.
    eapply keeps_bind; [apply keeps_multiply|]. intros converted Hconverted.
    apply keeps_setProp; assumption. }
  intros _ _.
  eapply keeps_bind; [apply keeps_convertIfTruthy, HyearData|]. intros _ _.
  eapply keeps_bind; [apply keeps_convertIfTruthy, HyearData|]. intros _ _.
  apply keeps_convertIfTruthy, HyearData.
Qed.

Lemma keeps_convertDividendInfo (base : store) (normalizedData rate : value) :
  value_above (List.length base) normalizedData ->
  keeps base anything (convertDividendInfo normalizedData rate).
Proof.
  intros Hdata. unfold Store.convertDividendInfo.
  eapply keeps_bind; [apply keeps_getProp, Hdata|]. intros info Hinfo.
  apply keeps_if; [|apply keeps_ret; exact I].
  apply keeps_convertIfTruthy, Hinfo.
Qed.

Lemma spares_markConverted (base : store) (data normalizedData rate : value) :
  value_above (List.length base) normalizedData ->
  spares base (markConverted data normalizedData rate).
Proof.
  intros Hdata. unfold markConverted.
  apply spares_bind; [apply spares_setProp, Hdata|]. intros _.
  apply spares_bind; [apply spares_read|]. intros currency.
  apply spares_bind; [apply spares_setProp, Hdata|]. intros _.
  apply spares_setProp, Hdata.
Qed.

Lemma frames_convertFromDKK (base : store) (data normalizedData : value) :
  value_above (List.length base) normalizedData ->
  frames base (convertFromDKK data normalizedData).
Proof.
  intros Hdata. unfold Store.convertFromDKK.
  eapply frames_bind; [apply keeps_read|]. intros exchangeRate _.
  eapply frames_bind; [apply keeps_read|]. intros rate _.
  eapply frames_bind; [apply keeps_getProp, Hdata|]. intros history _.
  eapply frames_bind; [apply keeps_read|]. intros years _.
  eapply frames_bind; [apply keeps_forEach; intros year; apply keeps_convertYear, Hdata|].
  intros _ _.
  eapply frames_bind; [apply keeps_convertDividendInfo, Hdata|]. intros _ _.
  intros s Hs. apply spares_markConverted; [exact Hdata|apply Hs].
Qed.

Lemma frames_convertToUSD (base : store) (data : value) : frames base (convertToUSD data).
Proof.
  unfold Store.convertToUSD.
  eapply frames_bind; [apply keeps_read|]. intros currency _.
  apply frames_if; [apply frames_ret|].
  eapply frames_bind; [apply keeps_deepCopy|]. intros normalizedData Hdata.
  eapply frames_bind; [apply keeps_read|]. intros currency' _.
  apply frames_then_ret.
  apply frames_if; [|apply frames_ret].
  eapply frames_bind; [apply keeps_read|]. intros exchangeRate _.
  apply frames_if; [|apply frames_ret].
  apply frames_convertFromDKK, Hdata.
Qed.

Lemma separate_refl (s : store) : separate s s.
Proof.
  split; [apply extends_refl|]. intros l c Hl Hc.
  assert (l < List.length s) by (apply nth_error_Some; congruence). lia.
Qed.

(** A record that is already in dollars comes back as it is. *)
Lemma convertToUSD_dollars (data : value) (s : store) (currency : value) :
  fst (getProp data "currency" s) = Ok currency ->
  truthy currency = false \/ currency = VStr "USD" ->
  convertToUSD data s = (Ok data, s).
Proof.
  intros Hread Hcurrency. unfold Store.convertToUSD, bindM.
  destruct (getProp data "currency" s) as [r s0] eqn:E.
  assert (s0 = s) by (unfold getProp, read in E; congruence). subst s0.
  simpl in Hread. subst r.
  destruct Hcurrency as [-> | ->]; reflexivity.
Qed.

(** After the three assignments of [markConverted] the currency reads USD. *)
Lemma markConverted_currency (data normalizedData rate : value) (s s' : store) :
  markConverted data normalizedData rate s = (Ok tt, s') ->
  getProp normalizedData "currency" s' = (Ok (VStr "USD"), s').
Proof.
  unfold markConverted. intros H.
  apply bindM_Ok in H. destruct H as ([] & s1 & H1 & H).
  apply bindM_Ok in H. destruct H as (currency & s2 & H2 & H).
  apply bindM_Ok in H. destruct H as ([] & s3 & H3 & H4).
  assert (s2 = s1) by (unfold getProp, read in H2; congruence). subst s2.
  apply setProp_Ok in H1. destruct H1 as (l & props & -> & E1 & ->).
  apply setProp_Ok in H3. destruct H3 as (l3 & props3 & Hl3 & E3 & ->).
  injection Hl3 as <-.
  rewrite (nth_error_replace_same _ _ _ _ E1) in E3. injection E3 as <-.
  apply setProp_Ok in H4. destruct H4 as (l4 & props4 & Hl4 & E4 & ->).
  injection Hl4 as <-.
  rewrite (nth_error_replace_same _ _ _ _ (nth_error_replace_same _ _ _ _ E1)) in E4.
  injection E4 as <-.
  unfold getProp, read. simpl.
  rewrite (nth_error_replace_same _ _ _ _
             (nth_error_replace_same _ _ _ _ (nth_error_replace_same _ _ _ _ E1))).
  rewrite !lookup_update_other by reflexivity. rewrite lookup_update_same. reflexivity.
Qed.

Lemma convertFromDKK_currency (data normalizedData : value) (s s' : store) :
  convertFromDKK data normalizedData s = (Ok tt, s') ->
  getProp normalizedData "currency" s' = (Ok (VStr "USD"), s').
Proof.
  unfold Store.convertFromDKK. intros H.
  apply bindM_Ok in H. destruct H as (exchangeRate & s1 & _ & H).
  apply bindM_Ok in H. destruct H as (rate & s2 & _ & H).
  apply bindM_Ok in H. destruct H as (history & s3 & _ & H).
  apply bindM_Ok in H. destruct H as (years & s4 & _ & H).
  apply bindM_Ok in H. destruct H as ([] & s5 & _ & H).
  apply bindM_Ok in H. destruct H as ([] & s6 & _ & H).
  apply (markConverted_currency _ _ _ _ _ H).
Qed.

(** C4 (the code at the failing input). A record in DKK whose rate table
    has no [dkkToUsd]: the rate read is [undefined], the conversion goes
    ahead, revenue (1000) and earnings per share (2) of the copy become NaN,
    and the copy is marked as converted to USD at a rate of [undefined].
    Nothing is raised and no rate of 1 is used. *)
Theorem convertToUSD_missing_rate :
  exists normalizedData s',
    convertToUSD (VRef 3) (Fixtures.krone [("usdToDkk", VNum 6.9%float)])
      = (Ok normalizedData, s') /\
    let year := Loader.peek s' (Loader.peek s' normalizedData "financialHistory") "2024" in
    Loader.peek s' year "revenue" = VNum PrimFloat.nan /\
    Loader.peek s' year "eps" = VNum PrimFloat.nan /\
    Loader.peek s' normalizedData "currency" = VStr "USD" /\
    Loader.peek s' normalizedData "convertedFromCurrency" = VStr "DKK" /\
    Loader.peek s' normalizedData "conversionRate" = VUndef.
Proof.
  eexists. eexists. split; [vm_compute; reflexivity|].
  cbv zeta. repeat split.
Qed.

(** C9. A record whose currency is absent or USD is returned as it is, the
    store untouched; whatever the record, the cells of the store that the
    normaliser was given are the same afterwards (it writes only to cells it
    has added), and the record it returns for a foreign currency is not one
    of them; and a record converted from DKK reads USD afterwards, so
    converting it again returns it as it is. *)
Theorem convertToUSD_identity_and_frame (data : value) (s : store) :
  (forall currency,
      fst (getProp data "currency" s) = Ok currency ->
      truthy currency = false \/ currency = VStr "USD" ->
      convertToUSD data s = (Ok data, s)) /\
  (exists added, snd (convertToUSD data s) = s ++ added) /\
  (forall currency normalizedData s',
      fst (getProp data "currency" s) = Ok currency ->
      truthy currency = true -> is_string currency "USD" = false ->
      convertToUSD data s = (Ok normalizedData, s') ->
      value_above (List.length s) normalizedData) /\
  (forall rate normalizedData s',
      fst (getProp data "currency" s) = Ok (VStr "DKK") ->
      fst (getProp data "exchangeRate" s) = Ok rate -> truthy rate = true ->
      convertToUSD data s = (Ok normalizedData, s') ->
      convertToUSD normalizedData s' = (Ok normalizedData, s')).
Proof.
  split; [intros currency; apply convertToUSD_dollars|].
  split; [apply (frames_convertToUSD s data s (separate_refl s))|].
  split.
  - intros currency normalizedData s' Hread Htruthy Hother Hrun.
    unfold Store.convertToUSD in Hrun.
    apply bindM_Ok in Hrun. destruct Hrun as (currency0 & s0 & H0 & Hrun).
    assert (s0 = s) by (unfold getProp, read in H0; congruence). subst s0.
    rewrite H0 in Hread. simpl in Hread. injection Hread as ->.
    rewrite Htruthy, Hother in Hrun. simpl in Hrun.
    apply bindM_Ok in Hrun. destruct Hrun as (copy & s1 & H1 & Hrun).
    apply bindM_Ok in Hrun. destruct Hrun as (currency1 & s2 & _ & Hrun).
    apply bindM_Ok in Hrun. destruct Hrun as ([] & s3 & _ & Hrun).
    injection Hrun as <- <-.
    pose proof (keeps_deepCopy s data s (separate_refl s)) as [_ Hcopy].
    rewrite H1 in Hcopy. exact Hcopy.
  - intros rate normalizedData s' Hcurrency Hrate Htruthy Hrun.
    unfold Store.convertToUSD in Hrun.
    apply bindM_Ok in Hrun. destruct Hrun as (currency0 & s0 & H0 & Hrun).
    assert (s0 = s) by (unfold getProp, read in H0; congruence). subst s0.
    rewrite H0 in Hcurrency. simpl in Hcurrency. injection Hcurrency as ->.
    simpl in Hrun.
    apply bindM_Ok in Hrun. destruct Hrun as (copy & s1 & H1 & Hrun).
    assert (Hext : extends s s1).
    { pose proof (keeps_deepCopy s data s (separate_refl s)) as [[Hext _] _].
      rewrite H1 in Hext. exact Hext. }
    assert (Hcurrency' : getProp data "currency" s1 = (Ok (VStr "DKK"), s1)).
    { apply (getProp_stable s s1 _ _ _ Hext); [rewrite H0; reflexivity|discriminate]. }
    assert (Hrate' : getProp data "exchangeRate" s1 = (Ok rate, s1)).
    { apply (getProp_stable s s1 _ _ _ Hext Hrate). intros ->. discriminate. }
    apply bindM_Ok in Hrun. destruct Hrun as (currency1 & s2 & H2 & Hrun).
    rewrite Hcurrency' in H2. injection H2 as <- <-.
    apply bindM_Ok in Hrun. destruct Hrun as ([] & s2 & Hrun & Hret).
    injection Hret as <- <-. simpl in Hrun.
    apply bindM_Ok in Hrun. destruct Hrun as (rate' & s3 & H3 & Hrun).
    rewrite Hrate' in H3. injection H3 as <- <-. rewrite Htruthy in Hrun.
    pose proof (convertFromDKK_currency _ _ _ _ Hrun) as Hmarked.
    apply (convertToUSD_dollars copy s2 (VStr "USD")); [rewrite Hmarked; reflexivity|auto].
Qed.

End Normaliser.

(** A record in dollars, and a record in DKK with a rate of 0.5. *)
Lemma convertToUSD_dollars_and_kroner :
  convertToUSD Fixtures.noString Fixtures.noObject (VRef 2) Fixtures.dollar
    = (Ok (VRef 2), Fixtures.dollar) /\
  exists normalizedData s',
    convertToUSD Fixtures.noString Fixtures.noObject (VRef 3)
      (Fixtures.krone [("dkkToUsd", VNum 0.5%float)]) = (Ok normalizedData, s') /\
    value_above 4 normalizedData /\
    convertToUSD Fixtures.noString Fixtures.noObject normalizedData s'
      = (Ok normalizedData, s').
Proof.
  split.
  - apply (proj1 (convertToUSD_identity_and_frame Fixtures.noString Fixtures.noObject
                    (VRef 2) Fixtures.dollar) (VStr "USD")); [reflexivity|right; reflexivity].
  - destruct (convertToUSD_identity_and_frame Fixtures.noString Fixtures.noObject
                (VRef 3) (Fixtures.krone [("dkkToUsd", VNum 0.5%float)]))
      as (_ & _ & Hnew & Hagain).
    eexists. eexists. split; [vm_compute; reflexivity|]. split.
    + eapply (Hnew (VStr "DKK") _ _ eq_refl eq_refl eq_refl). vm_compute. reflexivity.
    + eapply (Hagain (VRef 0) _ _ eq_refl eq_refl eq_refl). vm_compute. reflexivity.
Defined.

End StoreFacts.

(** * Further properties of the engine *)

(** ** The years of the history *)

Lemma ltb_trans (a b c : string) :
  String.ltb a b = true -> String.ltb b c = true -> String.ltb a c = true.
Proof.
  unfold String.ltb. intros Hab Hbc.
  destruct (String.compare a b) eqn:Eab; try discriminate.
  destruct (String.compare b c) eqn:Ebc; try discriminate.
  apply OrderedTypeEx.String_as_OT.cmp_lt in Eab, Ebc.
  pose proof (OrderedTypeEx.String_as_OT.lt_trans _ _ _ Eab Ebc) as H.
  apply OrderedTypeEx.String_as_OT.cmp_lt in H.
  unfold OrderedTypeEx.String_as_OT.cmp in H. now rewrite H.
Qed.

Lemma ltb_irrefl (a : string) : String.ltb a a = false.
Proof.
  unfold String.ltb. destruct (String.compare a a) eqn:E; try reflexivity.
  apply OrderedTypeEx.String_as_OT.cmp_lt in E.
  apply OrderedTypeEx.String_as_OT.lt_not_eq in E. now elim E.
Qed.

Lemma ltb_asym (a b : string) : String.ltb a b = true -> String.ltb b a = false.
Proof.
  intros Hab. destruct (String.ltb b a) eqn:Hba; [|reflexivity].
  pose proof (ltb_trans _ _ _ Hab Hba) as H. now rewrite ltb_irrefl in H.
Qed.

Lemma In_insert_sorted (x y : string) (l : list string) :
  In y (insert_sorted x l) <-> y = x \/ In y l.
Proof.
  induction l as [|z l IH]; simpl.
  - intuition.
  - destruct (String.ltb x z); simpl; [intuition|]. rewrite IH. intuition.
Qed.

Lemma ascending_insert_sorted (x : string) (l : list string) :
  ascending l -> ascending (insert_sorted x l).
Proof.
  unfold ascending. induction 1 as [|z l Hl IH Hz]; simpl.
  - constructor; constructor.
  - destruct (String.ltb x z) eqn:E.
    + constructor; [constructor; assumption|]. constructor.
      * apply ltb_asym, E.
      * rewrite Forall_forall in *. intros k Hk.
        destruct (String.ltb k x) eqn:Ek; [|reflexivity].
        pose proof (ltb_trans _ _ _ Ek E) as Hkz. rewrite (Hz k Hk) in Hkz. discriminate.
    + constructor; [exact IH|]. rewrite Forall_forall in *. intros k Hk.
      apply In_insert_sorted in Hk. destruct Hk as [->|Hk]; auto.
Qed.

Lemma sort_spec (l : list string) :
  ascending (sort l) /\ (forall k, In k (sort l) <-> In k l) /\
  List.length (sort l) = List.length l.
Proof.
  unfold sort.
  assert (H : forall acc, ascending acc ->
            ascending (fold_left (fun acc x => insert_sorted x acc) l acc) /\
            (forall k, In k (fold_left (fun acc x => insert_sorted x acc) l acc)
                       <-> In k l \/ In k acc) /\
            List.length (fold_left (fun acc x => insert_sorted x acc) l acc)
              = (List.length l + List.length acc)%nat).
  { induction l as [|x l IH]; intros acc Hacc; simpl.
    - repeat split; auto. intuition.
    - destruct (IH (insert_sorted x acc) (ascending_insert_sorted x acc Hacc)) as (H1 & H2 & H3).
      split; [exact H1|]. split.
      + intros k. rewrite H2, In_insert_sorted. intuition.
      + rewrite H3. clear. induction acc as [|z acc IHacc]; simpl; [lia|].
        destruct (String.ltb x z); simpl; lia. }
  destruct (H [] (SSorted_nil _)) as (H1 & H2 & H3).
  split; [exact H1|]. split.
  - intros k. rewrite H2. simpl. intuition.
  - rewrite H3. simpl. lia.
Qed.

(** The last element of an ascending list is below none of them. *)
Lemma ascending_last (l : list string) (m : string) :
  ascending l -> nth_error l (List.length l - 1) = Some m ->
  forall k, In k l -> String.ltb m k = false.
Proof.
  unfold ascending. induction 1 as [|z l Hl IH Hz]; simpl; [discriminate|].
  destruct l as [|z' l'].
  - simpl. intros [= <-] k [<-|[]]. apply ltb_irrefl.
  - simpl List.length in *.
    replace (S (S (List.length l')) - 1)%nat with (S (List.length l')) by lia.
    replace (S (List.length l') - 1)%nat with (List.length l') in IH by lia.
    simpl nth_error at 1. intros Hm k [<-|Hk].
    + rewrite Forall_forall in Hz. apply Hz. apply nth_error_In in Hm. exact Hm.
    + apply IH; assumption.
Qed.

Lemma lookupYear_In (fh : list (string * YearRecord)) (k : string) :
  In k (List.map fst fh) -> exists y, lookupYear fh k = Some y /\ In (k, y) fh.
Proof.
  induction fh as [|[k' y'] fh IH]; simpl; [intros []|].
  destruct (String.eqb k' k) eqn:E.
  - apply String.eqb_eq in E. subst k'. intros _. eauto.
  - intros [H|H]; [apply String.eqb_neq in E; contradiction|].
    destruct (IH H) as (y & H1 & H2). eauto.
Qed.

(** With a year in the history, the latest record is there to be read. *)
Lemma latestData_Ok (this : Calculator) :
  financialHistory (normalizedData this) <> [] ->
  exists year y,
    nth_error (years this) (List.length (years this) - 1) = Some year /\
    lookupYear (financialHistory (normalizedData this)) year = Some y /\
    In (year, y) (financialHistory (normalizedData this)) /\
    latestData this = Ok y.
Proof.
  intros Hne. unfold latestData, years.
  destruct (sort_spec (List.map fst (financialHistory (normalizedData this))))
    as (Hasc & Hin & Hlen).
  set (fh := financialHistory (normalizedData this)) in *.
  destruct (nth_error (sort (List.map fst fh)) (List.length (sort (List.map fst fh)) - 1))
    as [year|] eqn:E.
  - assert (Hyear : In year (List.map fst fh)) by (apply Hin; eapply nth_error_In; eauto).
    destruct (lookupYear_In fh year Hyear) as (y & H1 & H2).
    exists year, y. rewrite H1. repeat split; auto.
  - apply nth_error_None in E. rewrite Hlen, length_map in E.
    destruct fh; [contradiction|simpl in E; lia].
Qed.

Lemma latestData_empty (this : Calculator) :
  financialHistory (normalizedData this) = [] -> latestData this = TypeError.
Proof. unfold latestData, years. intros ->. reflexivity. Qed.

(** X1. The years are the keys of the history in ascending order of their
    code units, each key once for each time it occurs; the latest record is
    the one stored under the last of them, a key that no other key exceeds
    (so "2024" is later than "2023", and "999" later than "2024"); with no
    year at all the read fails with a TypeError. *)
Theorem latestData_greatest_year (this : Calculator) :
  let fh := financialHistory (normalizedData this) in
  ascending (years this) /\
  (forall k, In k (years this) <-> In k (List.map fst fh)) /\
  List.length (years this) = List.length fh /\
  (fh = [] -> latestData this = TypeError) /\
  (fh <> [] ->
   exists year y,
     latestData this = Ok y /\ lookupYear fh year = Some y /\ In (year, y) fh /\
     forall k, In k (List.map fst fh) -> String.ltb year k = false) /\
  String.ltb "2023" "2024" = true /\ String.ltb "2024" "999" = true.
Proof.
  cbv zeta.
  destruct (sort_spec (List.map fst (financialHistory (normalizedData this))))
    as (Hasc & Hin & Hlen).
  split; [exact Hasc|]. split; [exact Hin|].
  split; [unfold years; rewrite Hlen; apply length_map|].
  split; [apply latestData_empty|]. split; [|split; reflexivity].
  intros Hne. destruct (latestData_Ok this Hne) as (year & y & Hnth & Hlook & Hy & Hlatest).
  exists year, y. repeat split; auto.
  intros k Hk. apply (ascending_last _ _ Hasc Hnth). apply Hin, Hk.
Qed.

(** X2. Every method that reads the latest year throws a TypeError when
    the history has no year, and so does [calculateIntrinsicValue], which
    calls them first; [calculateEarningsBasedValuation] reads no year and
    returns, with NaN for the mean of no earnings.  With at least one year
    the five valuation methods and [calculateWACC] return. *)
Theorem valuation_methods_need_a_year (this : Calculator) :
  (financialHistory (normalizedData this) = [] ->
   calculateFCFE this = TypeError /\
   calculateFCFF this = TypeError /\
   calculateDDM this = TypeError /\
   calculateWACC this = TypeError /\
   calculateRelativeValuation this = TypeError /\
   calculateAssetBasedValuation this = TypeError /\
   calculateIntrinsicValue this = TypeError /\
   valuePerShare (capitalizedEarnings (calculateEarningsBasedValuation this)) = Num nan) /\
  (financialHistory (normalizedData this) <> [] ->
   (exists r, calculateFCFE this = Ok r) /\
   (exists r, calculateFCFF this = Ok r) /\
   (exists r, calculateDDM this = Ok r) /\
   (exists wacc, calculateWACC this = Ok wacc) /\
   (exists r, calculateRelativeValuation this = Ok r) /\
   (exists r, calculateAssetBasedValuation this = Ok r)).
Proof.
  split.
  - intros Hempty. pose proof (latestData_empty this Hempty) as H.
    unfold calculateFCFE, calculateFCFF, calculateDDM, calculateWACC,
      calculateRelativeValuation, calculateAssetBasedValuation, calculateIntrinsicValue,
      calculateFCFE.
    rewrite H. simpl. repeat split.
    unfold calculateEarningsBasedValuation, history, years. rewrite Hempty. simpl.
    f_equal. apply Prim2SF_inj. rewrite !div_spec.
    change (Prim2SF (0 / of_nat 0)) with S754_nan. reflexivity.
  - intros Hne. destruct (latestData_Ok this Hne) as (year & y & _ & _ & _ & H).
    unfold calculateFCFF, calculateFCFE, calculateDDM, calculateWACC,
      calculateRelativeValuation, calculateAssetBasedValuation.
    rewrite H. cbn [bind].
    repeat split; try (eexists; reflexivity).
    destruct (le (ToNumber (freeCashFlow y)) 0); eexists; reflexivity.
Qed.

(** ** NaN and the zeros *)

Lemma SFcompare_refl (x : spec_float) : x <> S754_nan -> SFcompare x x = Some Eq.
Proof.
  destruct x as [s|s| |s m e]; simpl; intros H; try congruence;
    try (destruct s; reflexivity).
  rewrite Z.compare_refl.
  change (Pos.compare_cont Eq m m) with (Pos.compare m m). rewrite Pos.compare_refl.
  destruct s; reflexivity.
Qed.

Lemma is_nan_Prim2SF (x : number) : is_nan x = true <-> Prim2SF x = S754_nan.
Proof.
  unfold is_nan. rewrite eqb_spec. unfold SFeqb. split.
  - intros H. destruct (Prim2SF x) as [s|s| |s m e] eqn:E; try reflexivity;
      rewrite SFcompare_refl in H by discriminate; discriminate.
  - intros ->. reflexivity.
Qed.

Lemma nan_add_l (x y : number) : is_nan x = true -> is_nan (x + y) = true.
Proof. rewrite !is_nan_Prim2SF, add_spec. intros ->. reflexivity. Qed.

Lemma nan_add_r (x y : number) : is_nan y = true -> is_nan (x + y) = true.
Proof.
  rewrite !is_nan_Prim2SF, add_spec. intros ->. unfold SF64add, SFadd.
  destruct (Prim2SF x) as [s|s| |s m e]; reflexivity.
Qed.

Lemma nan_sub_l (x y : number) : is_nan x = true -> is_nan (x - y) = true.
Proof. rewrite !is_nan_Prim2SF, sub_spec. intros ->. reflexivity. Qed.

Lemma nan_mul_l (x y : number) : is_nan x = true -> is_nan (x * y) = true.
Proof. rewrite !is_nan_Prim2SF, mul_spec. intros ->. reflexivity. Qed.

Lemma nan_div_l (x y : number) : is_nan x = true -> is_nan (x / y) = true.
Proof. rewrite !is_nan_Prim2SF, div_spec. intros ->. reflexivity. Qed.

Lemma nan_div_r (x y : number) : is_nan y = true -> is_nan (x / y) = true.
Proof.
  rewrite !is_nan_Prim2SF, div_spec. intros ->. unfold SF64div, SFdiv.
  destruct (Prim2SF x) as [s|s| |s m e]; reflexivity.
Qed.

Lemma nan_sqrt (x : number) : is_nan x = true -> is_nan (Math_sqrt x) = true.
Proof. unfold Math_sqrt. rewrite !is_nan_Prim2SF, sqrt_spec. intros ->. reflexivity. Qed.

(** Every comparison with NaN is false. *)
Lemma nan_lt_l (x y : number) : is_nan x = true -> lt x y = false.
Proof. unfold lt. rewrite is_nan_Prim2SF, ltb_spec. intros ->. reflexivity. Qed.

Lemma nan_lt_r (x y : number) : is_nan y = true -> lt x y = false.
Proof.
  unfold lt. rewrite is_nan_Prim2SF, ltb_spec. intros ->. unfold SFltb.
  destruct (Prim2SF x) as [s|s| |s m e]; try reflexivity; destruct s; reflexivity.
Qed.

Lemma nan_le_l (x y : number) : is_nan x = true -> le x y = false.
Proof. unfold le. rewrite is_nan_Prim2SF, leb_spec. intros ->. reflexivity. Qed.

(** [a < b] excludes [b < a]. *)
Lemma lt_asymmetric (a b : number) : lt a b = true -> lt b a = false.
Proof.
  unfold lt. rewrite !ltb_spec. unfold SFltb.
  rewrite (SFcompare_antisym (Prim2SF a) (Prim2SF b)).
  destruct (SFcompare (Prim2SF a) (Prim2SF b)) as [[]|]; simpl; congruence.
Qed.

(** A zero is [+0] or [-0], and its sign tells which. *)
Lemma is_zero_Prim2SF (x : number) :
  is_zero x = true -> Prim2SF x = S754_zero (get_sign x).
Proof.
  intros H. unfold get_sign. rewrite H. cbv zeta.
  rewrite ltb_spec, div_spec. unfold is_zero in H. rewrite eqb_spec in H.
  change (Prim2SF zero) with (S754_zero false) in *.
  change (Prim2SF one) with (S754_finite false 4503599627370496 (-52)).
  destruct (Prim2SF x) as [s|s| |s m e]; try discriminate.
  - destruct s; reflexivity.
  - unfold SFeqb in H. simpl in H. destruct s; discriminate.
  - unfold SFeqb in H. simpl in H. destruct s; discriminate.
Qed.

(** [Math.max(0, x)] is NaN, [+0] or a Number above 0. *)
Lemma Math_max_zero (x : number) :
  is_nan (Math_max [0; x]) = true \/ Math_max [0; x] = 0 \/ lt 0 (Math_max [0; x]) = true.
Proof.
  unfold Math_max. simpl fold_left.
  change (max2 neg_infinity 0) with 0%float. unfold max2.
  change (is_nan 0) with false. cbv beta iota. simpl orb.
  destruct (is_nan x) eqn:Hnan; [left; reflexivity|].
  change (is_zero 0) with true. rewrite andb_true_r.
  destruct (is_zero x) eqn:Hzero.
  - right; left. destruct (get_sign x) eqn:Hs; [reflexivity|].
    apply Prim2SF_inj. rewrite (is_zero_Prim2SF x Hzero), Hs. reflexivity.
  - destruct (0 <? x)%float eqn:Hpos; [right; right; exact Hpos|right; left; reflexivity].
Qed.

Lemma Math_max_nan (x : number) : is_nan x = true -> is_nan (Math_max [0; x]) = true.
Proof.
  intros H. unfold Math_max. simpl fold_left.
  change (max2 neg_infinity 0) with 0%float. unfold max2. rewrite H.
  rewrite orb_true_r. reflexivity.
Qed.


(** ** The order of Numbers is transitive *)

Lemma cont_lt (a b : positive) : PosDef.Pos.compare_cont Eq a b = Lt <-> (a < b)%positive.
Proof. exact (Pos.compare_lt_iff a b). Qed.

Lemma cont_gt (a b : positive) : PosDef.Pos.compare_cont Eq a b = Gt <-> (b < a)%positive.
Proof. exact (Pos.compare_gt_iff a b). Qed.

Lemma cont_eq (a b : positive) : PosDef.Pos.compare_cont Eq a b = Eq <-> a = b.
Proof. exact (Pos.compare_eq_iff a b). Qed.

Lemma SFcompare_trans (x y z : spec_float) :
  SFcompare x y = Some Lt -> SFcompare y z = Some Lt -> SFcompare x z = Some Lt.
Proof.
  destruct x as [sx|sx| |sx mx ex], y as [sy|sy| |sy my ey], z as [sz|sz| |sz mz ez];
    simpl; try congruence;
    try (destruct sx; congruence); try (destruct sy; congruence);
    try (destruct sz; congruence);
    try (destruct sx, sy; congruence); try (destruct sy, sz; congruence);
    try (destruct sx, sz; congruence).
  all: destruct sx, sy, sz; try congruence; intros H1 H2; f_equal;
    injection H1 as H1; injection H2 as H2;
    destruct (Z.compare_spec ex ey), (Z.compare_spec ey ez), (Z.compare_spec ex ez);
    try congruence; try lia;
    destruct (PosDef.Pos.compare_cont Eq mx my) eqn:E1;
    destruct (PosDef.Pos.compare_cont Eq my mz) eqn:E2;
    destruct (PosDef.Pos.compare_cont Eq mx mz) eqn:E3;
    simpl in *; try congruence;
    rewrite ?cont_lt, ?cont_gt, ?cont_eq in *; subst; lia.
Qed.

Lemma lt_transitive (a b c : number) : lt a b = true -> lt b c = true -> lt a c = true.
Proof.
  unfold lt. rewrite !ltb_spec. unfold SFltb.
  destruct (SFcompare (Prim2SF a) (Prim2SF b)) as [[]|] eqn:E1; try discriminate.
  destruct (SFcompare (Prim2SF b) (Prim2SF c)) as [[]|] eqn:E2; try discriminate.
  rewrite (SFcompare_trans _ _ _ E1 E2). reflexivity.
Qed.


(** ** Zeros in products and quotients *)

Lemma is_zero_of_Prim2SF (x : number) (s : bool) :
  Prim2SF x = S754_zero s -> is_zero x = true.
Proof.
  intros H. unfold is_zero. rewrite eqb_spec, H. destruct s; reflexivity.
Qed.

Lemma is_finite_Prim2SF (x : number) :
  is_finite x = true ->
  (exists s, Prim2SF x = S754_zero s) \/ (exists s m e, Prim2SF x = S754_finite s m e).
Proof.
  unfold is_finite, is_infinity. intros H. apply negb_true_iff, orb_false_elim in H.
  destruct H as [Hnan Hinf]. rewrite eqb_spec, abs_spec in Hinf.
  destruct (Prim2SF x) as [s|s| |s m e] eqn:E; eauto.
  - destruct s; discriminate.
  - apply is_nan_Prim2SF in E. congruence.
Qed.

Lemma zero_mul_finite (a b : number) :
  is_zero a = true -> is_finite b = true -> is_zero (a * b) = true.
Proof.
  intros Ha Hb. apply is_zero_Prim2SF in Ha. apply is_finite_Prim2SF in Hb.
  destruct Hb as [(s & Hb)|(s & m & e & Hb)];
    apply (is_zero_of_Prim2SF _ (xorb (get_sign a) s)); rewrite mul_spec, Ha, Hb; reflexivity.
Qed.

Lemma zero_div (a b : number) :
  is_zero a = true -> is_nan b = false -> is_zero b = false -> is_zero (a / b) = true.
Proof.
  intros Ha Hnan Hzero. apply is_zero_Prim2SF in Ha.
  destruct (Prim2SF b) as [s|s| |s m e] eqn:E.
  - apply is_zero_of_Prim2SF in E. congruence.
  - apply (is_zero_of_Prim2SF _ (xorb (get_sign a) s)). rewrite div_spec, Ha, E. reflexivity.
  - apply is_nan_Prim2SF in E. congruence.
  - apply (is_zero_of_Prim2SF _ (xorb (get_sign a) s)). rewrite div_spec, Ha, E. reflexivity.
Qed.

Lemma zero_le_zero (x : number) : is_zero x = true -> le x 0 = true.
Proof.
  intros H. apply is_zero_Prim2SF in H. unfold le. rewrite leb_spec, H.
  destruct (get_sign x); reflexivity.
Qed.

Lemma zero_not_above_zero (x : number) : is_zero x = true -> lt 0 x = false.
Proof.
  intros H. apply is_zero_Prim2SF in H. unfold lt. rewrite ltb_spec, H.
  destruct (get_sign x); reflexivity.
Qed.

(** [Math.min] keeps what is not above 0 not above 0. *)
Lemma min2_not_above_zero (lowest x : number) :
  lt 0 lowest = false -> lt 0 (min2 lowest x) = false.
Proof.
  intros H. unfold min2.
  destruct (is_nan lowest || is_nan x) eqn:Hnan; [reflexivity|].
  destruct (is_zero x && is_zero lowest) eqn:Hzero.
  - destruct (get_sign x); [|exact H].
    apply andb_prop in Hzero. apply zero_not_above_zero, Hzero.
  - destruct (x <? lowest)%float eqn:Hlt; [|exact H].
    destruct (lt 0 x) eqn:Hx; [|reflexivity].
    rewrite (lt_transitive 0 x lowest Hx Hlt) in H. discriminate.
Qed.


(** ** The aggregate *)

(** What a result of [calculateIntrinsicValue] is made of. *)
Lemma calculateIntrinsicValue_Ok (this : Calculator) (result : Result.t) :
  calculateIntrinsicValue this = Ok result ->
  exists fcfeResult fcffResult ddmResult relativeResults assetResults,
    calculateFCFE this = Ok fcfeResult /\
    calculateFCFF this = Ok fcffResult /\
    calculateDDM this = Ok ddmResult /\
    calculateRelativeValuation this = Ok relativeResults /\
    calculateAssetBasedValuation this = Ok assetResults /\
    let earningsResults := calculateEarningsBasedValuation this in
    let weights := calculateDynamicWeights this fcfeResult fcffResult ddmResult
                     relativeResults assetResults earningsResults in
    let entry (r : MethodResult) (w : number) := mkValuation (method r) (valuePerShare r) w in
    let price := ToNumber (currentPrice (marketData (data this))) in
    Result.weights result = weights /\
    Result.weightedValuations result =
      [entry fcfeResult (Weights.fcfe weights);
       entry fcffResult (Weights.fcff weights);
       entry ddmResult (Weights.ddm weights);
       entry (peValuation relativeResults) (Weights.peRelative weights);
       entry (evEbitdaValuation relativeResults) (Weights.evEbitda weights);
       entry (bookValue assetResults) (Weights.bookValue weights);
       entry (capitalizedEarnings earningsResults) (Weights.capitalizedEarnings weights)] /\
    Result.intrinsicValue result =
      fold_left (fun sum val => sum + ToNumber (value val) * weight val)
        (Result.weightedValuations result) 0 /\
    Result.upside result = (Result.intrinsicValue result / price - 1) * 100 /\
    Result.marginOfSafety result =
      Math_max [0; (Result.intrinsicValue result - price) / Result.intrinsicValue result * 100] /\
    Result.recommendation result =
      getRecommendation (Result.upside result) (Result.marginOfSafety result) /\
    Result.confidence result = calculateConfidence (Result.weightedValuations result).
Proof.
  unfold calculateIntrinsicValue. intros H.
  destruct (calculateFCFE this) as [fcfeResult|]; [|discriminate].
  destruct (calculateFCFF this) as [fcffResult|]; [|discriminate].
  destruct (calculateDDM this) as [ddmResult|]; [|discriminate].
  destruct (calculateRelativeValuation this) as [relativeResults|]; [|discriminate].
  destruct (calculateAssetBasedValuation this) as [assetResults|]; [|discriminate].
  cbn [bind] in H. injection H as <-.
  exists fcfeResult, fcffResult, ddmResult, relativeResults, assetResults.
  cbv zeta. repeat split.
Qed.

(** X3. Each method reports as its upside [(value / price - 1) * 100] of
    the value per share it reports, for all nine results; the one exception
    is the FCFE result flagged not applicable, whose value and upside are
    both 0 (the formula would give -100). *)
Theorem upside_follows_value (this : Calculator) :
  let follows (r : MethodResult) :=
    upside r = Num (upsideOf this (ToNumber (valuePerShare r))) in
  (forall r, calculateFCFE this = Ok r ->
     if is_notApplicable r then valuePerShare r = Num 0 /\ upside r = Num 0
     else follows r) /\
  (forall r, calculateFCFF this = Ok r -> follows r) /\
  (forall r, calculateDDM this = Ok r -> follows r) /\
  (forall r, calculateRelativeValuation this = Ok r ->
     follows (peValuation r) /\ follows (pbValuation r) /\ follows (evEbitdaValuation r)) /\
  (forall r, calculateAssetBasedValuation this = Ok r ->
     follows (bookValue r) /\ follows (tangibleBookValue r) /\
     follows (liquidationValue r)) /\
  follows (capitalizedEarnings (calculateEarningsBasedValuation this)) /\
  follows (earningsPowerValue (calculateEarningsBasedValuation this)).
Proof.
  cbv zeta.
  unfold calculateFCFE, calculateFCFF, calculateDDM, calculateRelativeValuation,
    calculateAssetBasedValuation, calculateWACC.
  destruct (latestData this) as [y|]; cbn [bind].
  - split.
    { intros r. destruct (le (ToNumber (freeCashFlow y)) 0); intros [= <-];
        [split; reflexivity|reflexivity]. }
    split; [intros r [= <-]; reflexivity|].
    split; [intros r [= <-]; reflexivity|].
    split; [intros r [= <-]; repeat split|].
    split; [intros r [= <-]; repeat split|].
    split; reflexivity.
  - repeat split; try discriminate.
Qed.

(** X4. The margin of safety that [calculateIntrinsicValue] returns is
    [Math.max(0, ...)]: it is NaN, [+0] or above 0, and never below 0. *)
Theorem marginOfSafety_never_negative (this : Calculator) (result : Result.t) :
  calculateIntrinsicValue this = Ok result ->
  (is_nan (Result.marginOfSafety result) = true \/
   Result.marginOfSafety result = 0%float \/
   lt 0 (Result.marginOfSafety result) = true) /\
  lt (Result.marginOfSafety result) 0 = false.
Proof.
  intros H. apply calculateIntrinsicValue_Ok in H.
  destruct H as (r1 & r2 & r3 & r4 & r5 & _ & _ & _ & _ & _ & H).
  cbv zeta in H. destruct H as (_ & _ & _ & _ & Hmargin & _). rewrite Hmargin.
  match goal with |- context [Math_max [_; ?x]] => pose proof (Math_max_zero x) as Hm end.
  split; [exact Hm|].
  destruct Hm as [Hm|[Hm|Hm]].
  - apply nan_lt_l, Hm.
  - exact (f_equal (fun m => lt m 0) Hm).
  - apply lt_asymmetric, Hm.
Qed.

(** The record of the test suite: its margin of safety is [+0]. *)
Lemma marginOfSafety_mockData :
  exists result,
    calculateIntrinsicValue (Fixtures.calculatorOf Fixtures.mockData) = Ok result /\
    Result.marginOfSafety result = 0%float /\
    lt (Result.marginOfSafety result) 0 = false.
Proof.
  eexists. split; [vm_compute; reflexivity|]. split; [reflexivity|].
  match goal with
  | |- lt (Result.marginOfSafety ?r) _ = _ =>
      apply (marginOfSafety_never_negative (Fixtures.calculatorOf Fixtures.mockData) r)
  end.
  vm_compute. reflexivity.
Defined.

(** A sum of weighted values is NaN as soon as it starts from NaN or one of
    the values is NaN, whatever the weights. *)
Lemma weighted_sum_nan (valuations : list Valuation) (start : number) :
  is_nan start = true \/
  (exists v, In v valuations /\ is_nan (ToNumber (value v)) = true) ->
  is_nan (fold_left (fun sum val => sum + ToNumber (value val) * weight val)
            valuations start) = true.
Proof.
  revert start. induction valuations as [|v0 valuations IH]; intros start; simpl.
  - intros [H|(v & [] & _)]. exact H.
  - intros [H|(v & [<-|Hin] & Hv)]; apply IH.
    + left. apply nan_add_l, H.
    + left. apply nan_add_r, nan_mul_l, Hv.
    + right. eauto.
Qed.

Lemma plain_sum_nan (values : list jsval) (start : number) :
  is_nan start = true \/ (exists v, In v values /\ is_nan (ToNumber v) = true) ->
  is_nan (fold_left (fun a b => a + ToNumber b) values start) = true.
Proof.
  revert start. induction values as [|v0 values IH]; intros start; simpl.
  - intros [H|(v & [] & _)]. exact H.
  - intros [H|(v & [<-|Hin] & Hv)]; apply IH.
    + left. apply nan_add_l, H.
    + left. apply nan_add_r, Hv.
    + right. eauto.
Qed.

(** X5. A valuation whose value per share is NaN (or absent) makes the
    result NaN whatever its weight, a weight of 0 included: the intrinsic
    value, the upside and the margin of safety are NaN, the recommendation
    is Sell and the confidence Low.  Nothing is raised. *)
Theorem nan_value_poisons_result (this : Calculator) (result : Result.t) (v : Valuation) :
  calculateIntrinsicValue this = Ok result ->
  In v (Result.weightedValuations result) ->
  is_nan (ToNumber (value v)) = true ->
  is_nan (Result.intrinsicValue result) = true /\
  is_nan (Result.upside result) = true /\
  is_nan (Result.marginOfSafety result) = true /\
  Result.recommendation result = Sell /\
  Result.confidence result = Low.
Proof.
  intros H Hin Hv. apply calculateIntrinsicValue_Ok in H.
  destruct H as (r1 & r2 & r3 & r4 & r5 & _ & _ & _ & _ & _ & H).
  cbv zeta in H. destruct H as (_ & _ & Hvalue & Hupside & Hmargin & Hrec & Hconf).
  assert (Hnan : is_nan (Result.intrinsicValue result) = true).
  { rewrite Hvalue. apply weighted_sum_nan. right. eauto. }
  assert (Hup : is_nan (Result.upside result) = true).
  { rewrite Hupside. apply nan_mul_l, nan_sub_l, nan_div_l, Hnan. }
  split; [exact Hnan|]. split; [exact Hup|]. split; [|split].
  - rewrite Hmargin. apply Math_max_nan, nan_mul_l, nan_div_r, Hnan.
  - rewrite Hrec. unfold getRecommendation, gt. rewrite !(nan_lt_r _ _ Hup). reflexivity.
  - rewrite Hconf. unfold calculateConfidence, coefficientOfVariation.
    assert (Hmean : is_nan (meanOf (List.map value (Result.weightedValuations result))) = true).
    { unfold meanOf. apply nan_div_l, plain_sum_nan. right. exists (value v).
      split; [apply in_map, Hin|exact Hv]. }
    rewrite !(nan_lt_l _ _ (nan_div_r _ _ Hmean)). reflexivity.
Qed.

(** The test record without a [dividend] field in its latest year: the
    dividend discount model returns NaN, unflagged. *)
Lemma nan_value_poisons_undeclared :
  exists result ddmResult,
    calculateIntrinsicValue (Fixtures.calculatorOf Fixtures.undeclared) = Ok result /\
    calculateDDM (Fixtures.calculatorOf Fixtures.undeclared) = Ok ddmResult /\
    valuePerShare ddmResult = Num nan /\
    notApplicable ddmResult = None /\
    is_nan (Result.intrinsicValue result) = true /\
    is_nan (Result.upside result) = true /\
    is_nan (Result.marginOfSafety result) = true /\
    Result.recommendation result = Sell /\
    Result.confidence result = Low.
Proof.
  eexists. eexists. split; [vm_compute; reflexivity|]. split; [reflexivity|].
  split; [reflexivity|]. split; [reflexivity|].
  match goal with
  | |- is_nan (Result.intrinsicValue ?r) = _ /\ _ =>
      apply (nan_value_poisons_result (Fixtures.calculatorOf Fixtures.undeclared) r
               (mkValuation "DDM (Gordon Growth)" (Num nan) (Result.weights r).(Weights.ddm)))
  end.
  - vm_compute. reflexivity.
  - vm_compute. right. right. left. reflexivity.
  - reflexivity.
Defined.

(** ** The weights on every outcome of the tests *)

Lemma everyTest_spec (P : Tests.t -> bool) :
  everyTest P = true -> forall t, P t = true.
Proof.
  intros H [a b c d e f g h i j k l m n o p]. unfold everyTest in H.
  pose proof (allb_spec _ H a) as H1; cbv beta in H1.
  pose proof (allb_spec _ H1 b) as H2; cbv beta in H2.
  pose proof (allb_spec _ H2 c) as H3; cbv beta in H3.
  pose proof (allb_spec _ H3 d) as H4; cbv beta in H4.
  pose proof (allb_spec _ H4 e) as H5; cbv beta in H5.
  pose proof (allb_spec _ H5 f) as H6; cbv beta in H6.
  pose proof (allb_spec _ H6 g) as H7; cbv beta in H7.
  pose proof (allb_spec _ H7 h) as H8; cbv beta in H8.
  pose proof (allb_spec _ H8 i) as H9; cbv beta in H9.
  pose proof (allb_spec _ H9 j) as H10; cbv beta in H10.
  pose proof (allb_spec _ H10 k) as H11; cbv beta in H11.
  pose proof (allb_spec _ H11 l) as H12; cbv beta in H12.
  pose proof (allb_spec _ H12 m) as H13; cbv beta in H13.
  pose proof (allb_spec _ H13 n) as H14; cbv beta in H14.
  pose proof (allb_spec _ H14 o) as H15; cbv beta in H15.
  exact (allb_spec _ H15 p).
Qed.

(** The returned weights are the normalised cascade at the tests of the
    calculator. *)
Lemma calculateDynamicWeights_run (this : Calculator)
    (fcfeResult fcffResult ddmResult : MethodResult) (relativeResults : RelativeResults)
    (assetResults : AssetResults) (earningsResults : EarningsResults) :
  calculateDynamicWeights this fcfeResult fcffResult ddmResult relativeResults
    assetResults earningsResults =
  normalize (run (testsOf this fcfeResult fcffResult ddmResult relativeResults assetResults)).
Proof. reflexivity. Qed.

(** A weight of the three cash-flow methods is zero when the method was
    dropped and at no other time, and then it is [+0]. *)
Lemma cascade_dropped :
  everyTest (fun t =>
    let w := normalize (run t) in
    Bool.eqb (strict_eq (Weights.fcfe w) 0) (Tests.dropFcfe t)
    && Bool.eqb (strict_eq (Weights.fcff w) 0) (Tests.dropFcff t)
    && Bool.eqb (strict_eq (Weights.ddm w) 0) (Tests.dropDdm t)
    && implb (Tests.dropFcfe t) (Leibniz.eqb (Weights.fcfe w) 0)
    && implb (Tests.dropFcff t) (Leibniz.eqb (Weights.fcff w) 0)
    && implb (Tests.dropDdm t) (Leibniz.eqb (Weights.ddm w) 0)) = true.
Proof. vm_compute. reflexivity. Qed.

Lemma cascade_book :
  everyTest (fun t =>
    let w := normalize (run t) in
    Bool.eqb (lt 0 (Weights.bookValue w))
      (negb (Tests.dropBook t || Tests.dropLiquidation t)
       || (Tests.heavy t && Tests.tangible t))
    && (lt 0 (Weights.bookValue w) || Leibniz.eqb (Weights.bookValue w) 0)) = true.
Proof. vm_compute. reflexivity. Qed.

Lemma cascade_signs :
  everyTest (fun t =>
    let w := normalize (run t) in
    lt 0 (Weights.peRelative w) && lt 0 (Weights.evEbitda w)
    && lt 0 (Weights.capitalizedEarnings w)
    && le 0 (Weights.fcff w) && le 0 (Weights.ddm w) && le 0 (Weights.bookValue w)
    && forallb (fun weight => le weight 1) (Weights.values w)
    && Bool.eqb (lt (Weights.fcfe w) 0)
         (Tests.heavy t && Tests.large t && Tests.indebted t && Tests.cyclical t
          && Tests.yielding t && negb (Tests.dropFcfe t))) = true.
Proof. vm_compute. reflexivity. Qed.

(** A dropped weight comes back as [+0]. *)
Lemma dropped_weights (this : Calculator)
    (fcfeResult fcffResult ddmResult : MethodResult) (relativeResults : RelativeResults)
    (assetResults : AssetResults) (earningsResults : EarningsResults) :
  let weights := calculateDynamicWeights this fcfeResult fcffResult ddmResult
                   relativeResults assetResults earningsResults in
  ((nonPositive fcfeResult || extreme fcfeResult 150 || is_notApplicable fcfeResult) = true ->
   Weights.fcfe weights = 0%float) /\
  ((nonPositive fcffResult || extreme fcffResult 150) = true ->
   Weights.fcff weights = 0%float) /\
  ((nonPositive ddmResult || extreme ddmResult 150) = true ->
   Weights.ddm weights = 0%float).
Proof.
  cbv zeta. rewrite calculateDynamicWeights_run.
  pose proof (everyTest_spec _ cascade_dropped
                (testsOf this fcfeResult fcffResult ddmResult relativeResults assetResults))
    as H.
  cbv zeta in H.
  cbn [testsOf Tests.dropFcfe Tests.dropFcff Tests.dropDdm] in H.
  set (w := normalize _) in *.
  apply andb_prop in H. destruct H as [H H6].
  apply andb_prop in H. destruct H as [H H5].
  apply andb_prop in H. destruct H as [_ H4].
  split; [|split].
  - intros E. rewrite E in H4. apply Leibniz.eqb_spec, H4.
  - intros E. rewrite E in H5. apply Leibniz.eqb_spec, H5.
  - intros E. rewrite E in H6. apply Leibniz.eqb_spec, H6.
Qed.

(** X8. In the weights [calculateDynamicWeights] returns, the weight of
    FCFE, of FCFF and of DDM is zero exactly when the quality checks dropped
    the method (value per share at most 0, |upside| above 150, or for FCFE
    the not-applicable flag): the normalisation keeps a dropped weight at
    [+0], and no combination of the adjustments brings a kept weight to
    zero. *)
Theorem excluded_iff_zero_weight (this : Calculator)
    (fcfeResult fcffResult ddmResult : MethodResult) (relativeResults : RelativeResults)
    (assetResults : AssetResults) (earningsResults : EarningsResults) :
  let weights := calculateDynamicWeights this fcfeResult fcffResult ddmResult
                   relativeResults assetResults earningsResults in
  let dropped (r : MethodResult) := nonPositive r || extreme r 150 in
  strict_eq (Weights.fcfe weights) 0 = (dropped fcfeResult || is_notApplicable fcfeResult) /\
  strict_eq (Weights.fcff weights) 0 = dropped fcffResult /\
  strict_eq (Weights.ddm weights) 0 = dropped ddmResult /\
  ((dropped fcfeResult || is_notApplicable fcfeResult) = true ->
   Weights.fcfe weights = 0%float) /\
  (dropped fcffResult = true -> Weights.fcff weights = 0%float) /\
  (dropped ddmResult = true -> Weights.ddm weights = 0%float).
Proof.
  cbv zeta. rewrite calculateDynamicWeights_run.
  pose proof (everyTest_spec _ cascade_dropped
                (testsOf this fcfeResult fcffResult ddmResult relativeResults assetResults))
    as H.
  cbv zeta in H.
  cbn [testsOf Tests.dropFcfe Tests.dropFcff Tests.dropDdm] in H.
  set (w := normalize _) in *.
  apply andb_prop in H. destruct H as [H H6].
  apply andb_prop in H. destruct H as [H H5].
  apply andb_prop in H. destruct H as [H H4].
  apply andb_prop in H. destruct H as [H H3].
  apply andb_prop in H. destruct H as [H1 H2].
  apply eqb_prop in H1, H2, H3.
  split; [exact H1|]. split; [exact H2|]. split; [exact H3|].
  split; [|split].
  - intros E. rewrite E in H4. apply Leibniz.eqb_spec, H4.
  - intros E. rewrite E in H5. apply Leibniz.eqb_spec, H5.
  - intros E. rewrite E in H6. apply Leibniz.eqb_spec, H6.
Qed.

(** [a > b] excludes [a <= b]. *)
Lemma gt_not_le (a b : number) : gt a b = true -> le a b = false.
Proof.
  unfold gt, le. rewrite leb_spec, ltb_spec. unfold SFleb, SFltb.
  rewrite (SFcompare_antisym (Prim2SF a) (Prim2SF b)).
  destruct (SFcompare (Prim2SF a) (Prim2SF b)) as [[]|]; simpl; congruence.
Qed.

(** X9. The returned book-value weight is positive in two cases and [+0]
    in every other: when neither the book value nor the liquidation value
    per share passes the test [<= 0], and when the asset floor applies,
    that is for an asset-heavy industry with a tangible book value per share
    above 0, even if the book value per share that the weight multiplies is
    not positive.  The test [<= 0] fails on a value above 0 and also on a
    value that is NaN or absent: with such a book value per share and a
    liquidation value above 0 the weight is positive too. *)
Theorem book_weight_and_asset_floor (this : Calculator)
    (fcfeResult fcffResult ddmResult : MethodResult) (relativeResults : RelativeResults)
    (assetResults : AssetResults) (earningsResults : EarningsResults) :
  let weights := calculateDynamicWeights this fcfeResult fcffResult ddmResult
                   relativeResults assetResults earningsResults in
  let floor :=
    assetHeavy (industry (data this))
    && gt (ToNumber (valuePerShare (tangibleBookValue assetResults))) 0 in
  lt 0 (Weights.bookValue weights) =
    (negb (nonPositive (bookValue assetResults)
           || nonPositive (liquidationValue assetResults)) || floor) /\
  (lt 0 (Weights.bookValue weights) = false -> Weights.bookValue weights = 0%float) /\
  (floor = true -> lt 0 (Weights.bookValue weights) = true) /\
  (is_nan (ToNumber (valuePerShare (bookValue assetResults))) = true ->
   gt (ToNumber (valuePerShare (liquidationValue assetResults))) 0 = true ->
   lt 0 (Weights.bookValue weights) = true).
Proof.
  cbv zeta. rewrite calculateDynamicWeights_run.
  pose proof (everyTest_spec _ cascade_book
                (testsOf this fcfeResult fcffResult ddmResult relativeResults assetResults))
    as H.
  cbv zeta in H.
  cbn [testsOf Tests.dropBook Tests.dropLiquidation Tests.heavy Tests.tangible] in H.
  set (w := normalize _) in *.
  apply andb_prop in H. destruct H as [H1 H2].
  apply eqb_prop in H1.
  split; [exact H1|]. split; [|split].
  - intros E. rewrite E in H2. apply Leibniz.eqb_spec, H2.
  - intros E. rewrite H1, E. apply orb_true_r.
  - intros Hnan Hliq. rewrite H1. unfold nonPositive.
    rewrite (nan_le_l _ 0 Hnan), (gt_not_le _ _ Hliq). reflexivity.
Qed.

(** X10. Whatever the company and the results: the returned weights of
    P/E, EV/EBITDA and capitalized earnings are above 0, those of FCFF, DDM
    and book value are at least 0, and none of the seven is above 1.  The
    FCFE weight is below 0 in exactly one situation: an asset-heavy industry,
    a market capitalisation above 100 billion, a debt-to-equity ratio above
    2, a beta above 1.3 and a dividend yield above 3% together, with FCFE
    not dropped.  The record [stretched] is such a company: the six
    valuation methods return on it, and [calculateDynamicWeights] gives
    their results a negative FCFE weight. *)
Theorem weights_signs_and_bounds (this : Calculator)
    (fcfeResult fcffResult ddmResult : MethodResult) (relativeResults : RelativeResults)
    (assetResults : AssetResults) (earningsResults : EarningsResults) :
  let weights := calculateDynamicWeights this fcfeResult fcffResult ddmResult
                   relativeResults assetResults earningsResults in
  lt 0 (Weights.peRelative weights) = true /\
  lt 0 (Weights.evEbitda weights) = true /\
  lt 0 (Weights.capitalizedEarnings weights) = true /\
  le 0 (Weights.fcff weights) = true /\
  le 0 (Weights.ddm weights) = true /\
  le 0 (Weights.bookValue weights) = true /\
  forallb (fun weight => le weight 1) (Weights.values weights) = true /\
  lt (Weights.fcfe weights) 0 =
    (assetHeavy (industry (data this))
     && gt (ToNumber (marketCap (marketData (data this)))) 100000000000
     && gt (ToNumber (debtToEquity (keyRatios (data this)))) 2
     && gt (ToNumber (beta (marketData (data this)))) 1.3
     && gt (dividendYieldOf (dividendInfo (data this))) 0.03
     && negb (nonPositive fcfeResult || extreme fcfeResult 150
              || is_notApplicable fcfeResult)) /\
  exists weights,
    Fixtures.weightsOf (Fixtures.calculatorOf Fixtures.stretched) = Ok weights /\
    lt (Weights.fcfe weights) 0 = true.
Proof.
  cbv zeta.
  assert (Hstretched : exists weights,
             Fixtures.weightsOf (Fixtures.calculatorOf Fixtures.stretched) = Ok weights /\
             lt (Weights.fcfe weights) 0 = true).
  { eexists. split; [vm_compute; reflexivity|]. vm_compute. reflexivity. }
  rewrite calculateDynamicWeights_run.
  pose proof (everyTest_spec _ cascade_signs
                (testsOf this fcfeResult fcffResult ddmResult relativeResults assetResults))
    as H.
  cbv zeta in H.
  cbn [testsOf Tests.heavy Tests.large Tests.indebted Tests.cyclical Tests.yielding
         Tests.dropFcfe] in H.
  set (w := normalize _) in *.
  apply andb_prop in H. destruct H as [H H8].
  apply andb_prop in H. destruct H as [H H7].
  apply andb_prop in H. destruct H as [H H6].
  apply andb_prop in H. destruct H as [H H5].
  apply andb_prop in H. destruct H as [H H4].
  apply andb_prop in H. destruct H as [H H3].
  apply andb_prop in H. destruct H as [H1 H2].
  apply eqb_prop in H8.
  split; [exact H1|]. split; [exact H2|]. split; [exact H3|]. split; [exact H4|].
  split; [exact H5|]. split; [exact H6|]. split; [exact H7|]. split; [exact H8|].
  exact Hstretched.
Qed.

(** ** The dividend discount model without a dividend *)

(** X6. A company that pays no dividend (the latest dividend is 0, -0 or
    [null]), with a finite dividend growth and a required return that
    differs from it: [calculateDDM] returns a value per share of zero
    without flagging the result, and whatever the other results the
    returned DDM weight is [+0]. *)
Theorem calculateDDM_no_dividend (this : Calculator) (latest : YearRecord) :
  latestData this = Ok latest ->
  is_zero (ToNumber (dividend latest)) = true ->
  is_finite (1 + ToNumber (dividendGrowthRate (assumptions (data this)))) = true ->
  is_nan (calculateCostOfEquity this
          - ToNumber (dividendGrowthRate (assumptions (data this)))) = false ->
  is_zero (calculateCostOfEquity this
           - ToNumber (dividendGrowthRate (assumptions (data this)))) = false ->
  exists r,
    calculateDDM this = Ok r /\
    is_zero (ToNumber (valuePerShare r)) = true /\
    notApplicable r = None /\
    reason r = None /\
    forall fcfeResult fcffResult relativeResults assetResults earningsResults,
      Weights.ddm (calculateDynamicWeights this fcfeResult fcffResult r
                     relativeResults assetResults earningsResults) = 0%float.
Proof.
  intros Hlatest Hdividend Hgrowth Hnan Hspread.
  unfold calculateDDM. rewrite Hlatest. cbn [bind]. eexists. split; [reflexivity|].
  assert (Hvalue : is_zero
            (ToNumber (dividend latest)
             * (1 + ToNumber (dividendGrowthRate (assumptions (data this))))
             / (calculateCostOfEquity this
                - ToNumber (dividendGrowthRate (assumptions (data this))))) = true).
  { apply zero_div; [apply zero_mul_finite|exact Hnan|exact Hspread]; assumption. }
  split; [exact Hvalue|]. split; [reflexivity|]. split; [reflexivity|].
  intros fcfeResult fcffResult relativeResults assetResults earningsResults.
  apply dropped_weights. unfold nonPositive. cbn [valuePerShare ToNumber].
  rewrite (zero_le_zero _ Hvalue). reflexivity.
Qed.

(** The test record with a dividend of 0. *)
Lemma calculateDDM_unpaid :
  exists r,
    calculateDDM (Fixtures.calculatorOf Fixtures.unpaid) = Ok r /\
    is_zero (ToNumber (valuePerShare r)) = true /\
    notApplicable r = None /\
    reason r = None /\
    forall fcfeResult fcffResult relativeResults assetResults earningsResults,
      Weights.ddm (calculateDynamicWeights (Fixtures.calculatorOf Fixtures.unpaid)
                     fcfeResult fcffResult r relativeResults assetResults
                     earningsResults) = 0%float.
Proof.
  apply (calculateDDM_no_dividend (Fixtures.calculatorOf Fixtures.unpaid)
           (mkYearRecord (Num 100000000) (Num 150000000) (Num 80000000) (Num 120000000)
              (Num 40000000) (Num 1500000000) (Num 500000000) (Num 50000000)
              (Num 800000000) (Num 8) (Num 1) (Num 0)));
    vm_compute; reflexivity.
Defined.

(** ** Free cash flow to equity on a single year *)

(** X7. With one year in the history there is no growth to measure:
    the growth rate of the history is 0, so the initial growth rate of the
    projection is [Math.min(0, fcfGrowth5Y, 0.15)], which is never above 0
    whatever growth the record states. *)
Theorem calculateFCFE_single_year (this : Calculator) (year : string) (latest : YearRecord) :
  financialHistory (normalizedData this) = [(year, latest)] ->
  le (ToNumber (freeCashFlow latest)) 0 = false ->
  exists r g,
    calculateFCFE this = Ok r /\
    notApplicable r = None /\
    In ("assumptions.initialGrowth", Num g) (details r) /\
    g = Math_min [0; ToNumber (fcfGrowth5Y (growthMetrics (data this))); 0.15] /\
    gt g 0 = false.
Proof.
  intros Hhistory Hpositive.
  assert (Hlatest : latestData this = Ok latest).
  { unfold latestData, years. rewrite Hhistory. simpl. rewrite String.eqb_refl. reflexivity. }
  assert (Hfcf : history this freeCashFlow = [freeCashFlow latest]).
  { unfold history, years. rewrite Hhistory. simpl. rewrite String.eqb_refl. reflexivity. }
  unfold calculateFCFE. rewrite Hlatest. cbn [bind]. rewrite Hpositive, Hfcf.
  change (calculateCAGR [freeCashFlow latest]) with 0%float.
  eexists. eexists. split; [reflexivity|]. split; [reflexivity|].
  split; [cbn [details]; right; right; left; reflexivity|].
  split; [reflexivity|].
  unfold gt, Math_min. cbn [fold_left].
  apply min2_not_above_zero, min2_not_above_zero. reflexivity.
Qed.

(** The record of the test suite: one year, a stated growth of 8%. *)
Lemma calculateFCFE_mockData_growth :
  exists r g,
    calculateFCFE (Fixtures.calculatorOf Fixtures.mockData) = Ok r /\
    notApplicable r = None /\
    In ("assumptions.initialGrowth", Num g) (details r) /\
    g = Math_min [0; 0.08; 0.15] /\
    gt g 0 = false.
Proof.
  apply (calculateFCFE_single_year (Fixtures.calculatorOf Fixtures.mockData)
           "2024" Fixtures.year2024); reflexivity.
Defined.

(** ** The report *)

Import Report.

(** X11. [assessFinancialRisk] throws a TypeError exactly when the
    leverage or the liquidity section is missing; otherwise it answers High,
    Medium or Low.  High needs at least two of the three ratios beyond their
    first threshold (debt to equity above 2, current ratio below 1.2,
    interest coverage below 10); one ratio beyond its second threshold
    (above 3, below 1, below 5) is enough for Medium; Low means none beyond
    the second and at most one beyond the first.  A ratio that is absent
    adds nothing, so three absent ratios are rated Low, while [null] reads
    as 0: a [null] current ratio and a [null] coverage are rated High. *)
Theorem assessFinancialRisk_levels (ratios : Ratios) :
  (assessFinancialRisk ratios = TypeError <->
   leverageRatios ratios = None \/ liquidityRatios ratios = None) /\
  (forall leverage liquidity,
      leverageRatios ratios = Some leverage ->
      liquidityRatios ratios = Some liquidity ->
      let debt := ToNumber (debtToEquity leverage) in
      let current := ToNumber (currentRatio liquidity) in
      let coverage := ToNumber (interestCoverage leverage) in
      let first := [gt debt 2; lt current 1.2; lt coverage 10] in
      let second := [gt debt 3; lt current 1; lt coverage 5] in
      (exists level,
          assessFinancialRisk ratios = Ok level /\ In level ["High"; "Medium"; "Low"]) /\
      (assessFinancialRisk ratios = Ok "High" -> (2 <= count_occ bool_dec first true)%nat) /\
      (existsb id second = true -> assessFinancialRisk ratios <> Ok "Low") /\
      (assessFinancialRisk ratios = Ok "Low" <->
       existsb id second = false /\ (count_occ bool_dec first true <= 1)%nat)) /\
  (forall multiples,
      assessFinancialRisk
        (mkRatios (Some (mkLeverageRatios Undefined Undefined))
           (Some (mkLiquidityRatios Undefined)) multiples) = Ok "Low" /\
      assessFinancialRisk
        (mkRatios (Some (mkLeverageRatios Null Null))
           (Some (mkLiquidityRatios Null)) multiples) = Ok "High").
Proof.
  split; [|split].
  - unfold assessFinancialRisk.
    destruct (leverageRatios ratios) as [leverage|], (liquidityRatios ratios) as [liquidity|];
      cbn [section bind]; split; intros H; try discriminate; auto;
      try (destruct H; discriminate).
    repeat match goal with H : context [if ?c then _ else _] |- _ => destruct c end;
      discriminate.
  - intros leverage liquidity Hleverage Hliquidity. cbv zeta.
    unfold assessFinancialRisk. rewrite Hleverage, Hliquidity. cbn [section bind].
    assert (Hdebt : gt (ToNumber (debtToEquity leverage)) 3 = true ->
                    gt (ToNumber (debtToEquity leverage)) 2 = true).
    { unfold gt. apply lt_transitive. reflexivity. }
    assert (Hcurrent : lt (ToNumber (currentRatio liquidity)) 1 = true ->
                       lt (ToNumber (currentRatio liquidity)) 1.2 = true).
    { intros H. apply (lt_transitive _ _ _ H). reflexivity. }
    assert (Hcoverage : lt (ToNumber (interestCoverage leverage)) 5 = true ->
                        lt (ToNumber (interestCoverage leverage)) 10 = true).
    { intros H. apply (lt_transitive _ _ _ H). reflexivity. }
    destruct (gt (ToNumber (debtToEquity leverage)) 3);
      destruct (gt (ToNumber (debtToEquity leverage)) 2);
      try (specialize (Hdebt eq_refl); discriminate);
      destruct (lt (ToNumber (currentRatio liquidity)) 1);
      destruct (lt (ToNumber (currentRatio liquidity)) 1.2);
      try (specialize (Hcurrent eq_refl); discriminate);
      destruct (lt (ToNumber (interestCoverage leverage)) 5);
      destruct (lt (ToNumber (interestCoverage leverage)) 10);
      try (specialize (Hcoverage eq_refl); discriminate);
      clear; vm_compute;
      (split; [eexists; split; [reflexivity|auto]|]);
      (split; [intros H; first [discriminate H|lia]|]);
      (split; [intros H H'; first [discriminate H|discriminate H']|]);
      (split; [intros H; first [discriminate H|split; [reflexivity|lia]]
              |intros [H1 H2]; first [discriminate H1|lia|reflexivity]]).
  - intros multiples. split; reflexivity.
Qed.

(** X12. [calculateRiskMetrics] throws a TypeError exactly when one of
    the three sections of the key ratios is missing.  Otherwise the
    financial level is the one [assessFinancialRisk] gives; the volatility
    is High exactly for a beta above 1.5 and Low exactly when the beta is
    not above 1 (an absent beta included); the industry risk is Medium for
    every industry; and the valuation risk is High for a P/E above 25 and
    Medium otherwise, never Low. *)
Theorem calculateRiskMetrics_levels (this : Calculator) (ratios : Ratios) :
  (calculateRiskMetrics this ratios = TypeError <->
   leverageRatios ratios = None \/ liquidityRatios ratios = None
   \/ valuationRatios ratios = None) /\
  (forall metrics multiples,
      calculateRiskMetrics this ratios = Ok metrics ->
      valuationRatios ratios = Some multiples ->
      let beta := ToNumber (beta (marketData (data this))) in
      assessFinancialRisk ratios = Ok (riskLevel (financial metrics)) /\
      (volatilityRisk (business metrics) = "High" <-> gt beta 1.5 = true) /\
      (volatilityRisk (business metrics) = "Low" <-> gt beta 1 = false) /\
      industryRisk (business metrics) = "Medium" /\
      (valuationRisk (valuation metrics) = "High" <->
       gt (ToNumber (peRatio multiples)) 25 = true) /\
      (valuationRisk (valuation metrics) = "Medium" <->
       gt (ToNumber (peRatio multiples)) 25 = false)).
Proof.
  assert (Hassess : forall leverage liquidity,
             leverageRatios ratios = Some leverage ->
             liquidityRatios ratios = Some liquidity ->
             exists level, assessFinancialRisk ratios = Ok level).
  { intros leverage liquidity H1 H2. unfold assessFinancialRisk. rewrite H1, H2.
    cbn [section bind].
    repeat match goal with |- context [if ?c then _ else _] => destruct c end;
      eexists; reflexivity. }
  unfold calculateRiskMetrics.
  destruct (leverageRatios ratios) as [leverage|] eqn:E1; cbn [section bind];
    [|split; [split; auto|discriminate]].
  destruct (liquidityRatios ratios) as [liquidity|] eqn:E2; cbn [section bind];
    [|split; [split; auto|discriminate]].
  destruct (Hassess leverage liquidity eq_refl eq_refl) as (level & ->). cbn [bind].
  destruct (valuationRatios ratios) as [multiples|] eqn:E3; cbn [section bind];
    [|split; [split; auto|discriminate]].
  split.
  - split; [discriminate|]. intros [H|[H|H]]; discriminate.
  - intros metrics multiples' [= <-] [= <-]. cbv zeta.
    cbn [financial business valuation riskLevel volatilityRisk industryRisk valuationRisk].
    assert (Hbeta : gt (ToNumber (beta (marketData (data this)))) 1.5 = true ->
                    gt (ToNumber (beta (marketData (data this)))) 1 = true).
    { unfold gt. apply lt_transitive. reflexivity. }
    split; [reflexivity|].
    destruct (gt (ToNumber (beta (marketData (data this)))) 1.5);
      destruct (gt (ToNumber (beta (marketData (data this)))) 1);
      try (specialize (Hbeta eq_refl); discriminate);
      destruct (gt (ToNumber (peRatio multiples)) 25);
      repeat split; intros; try discriminate; reflexivity.
Qed.

(** The five lines of the rationale. *)
Lemma getWeightingRationale_lines (this : Calculator) (weights : Weights.t) (line : string) :
  In line (getWeightingRationale this weights) <->
  (assetHeavy (industry (data this)) = true /\
   line = "Cyclical industrial company: Increased weight on relative and asset-based methods")
  \/ (gt (ToNumber (marketCap (marketData (data this)))) 100000000000 = true /\
      line = "Large-cap mature company: Enhanced weight on earnings stability methods")
  \/ (gt (ToNumber (Engine.debtToEquity (keyRatios (data this)))) 2 = true /\
      line = "High debt levels: FCFF weighted higher than FCFE")
  \/ (gt (ToNumber (beta (marketData (data this)))) 1.3 = true /\
      line = "High-beta cyclical: Reduced growth-dependent DCF weights")
  \/ (strict_eq (Weights.fcfe weights) 0 = true /\
      line = "FCFE excluded due to extreme valuation result").
Proof.
  unfold getWeightingRationale, pushIf, assetHeavy. cbv zeta.
  destruct (includes (industry (data this)) "Heavy Construction"
            || includes (industry (data this)) "Farm"
            || includes (industry (data this)) "Machinery");
    destruct (gt (ToNumber (marketCap (marketData (data this)))) 100000000000);
    destruct (gt (ToNumber (Engine.debtToEquity (keyRatios (data this)))) 2);
    destruct (gt (ToNumber (beta (marketData (data this)))) 1.3);
    destruct (strict_eq (Weights.fcfe weights) 0);
    cbn [app In]; intuition (try discriminate; auto).
Qed.

(** X13. The rationale that goes with the weights of
    [calculateDynamicWeights] has the line "FCFE excluded due to extreme
    valuation result" exactly when the quality checks dropped FCFE, which
    includes the result flagged not applicable for a non-positive cash flow;
    it reports the industry, size, debt and beta adjustments by the tests
    that made them; and it never has another line: the dividend adjustment,
    the halved weights and a dropped FCFF or DDM are not reported. *)
Theorem rationale_reports_fcfe_exclusion (this : Calculator)
    (fcfeResult fcffResult ddmResult : MethodResult) (relativeResults : RelativeResults)
    (assetResults : AssetResults) (earningsResults : EarningsResults) :
  let weights := calculateDynamicWeights this fcfeResult fcffResult ddmResult
                   relativeResults assetResults earningsResults in
  let rationale := getWeightingRationale this weights in
  (In "FCFE excluded due to extreme valuation result" rationale <->
   (nonPositive fcfeResult || extreme fcfeResult 150 || is_notApplicable fcfeResult) = true) /\
  (is_notApplicable fcfeResult = true ->
   In "FCFE excluded due to extreme valuation result" rationale) /\
  (In "Cyclical industrial company: Increased weight on relative and asset-based methods"
     rationale <-> assetHeavy (industry (data this)) = true) /\
  (In "Large-cap mature company: Enhanced weight on earnings stability methods" rationale
   <-> gt (ToNumber (marketCap (marketData (data this)))) 100000000000 = true) /\
  (In "High debt levels: FCFF weighted higher than FCFE" rationale
   <-> gt (ToNumber (Engine.debtToEquity (keyRatios (data this)))) 2 = true) /\
  (In "High-beta cyclical: Reduced growth-dependent DCF weights" rationale
   <-> gt (ToNumber (beta (marketData (data this)))) 1.3 = true) /\
  (forall line, In line rationale ->
     In line
       ["Cyclical industrial company: Increased weight on relative and asset-based methods";
        "Large-cap mature company: Enhanced weight on earnings stability methods";
        "High debt levels: FCFF weighted higher than FCFE";
        "High-beta cyclical: Reduced growth-dependent DCF weights";
        "FCFE excluded due to extreme valuation result"]).
Proof.
  cbv zeta.
  pose proof (everyTest_spec _ cascade_dropped
                (testsOf this fcfeResult fcffResult ddmResult relativeResults assetResults))
    as H.
  cbv zeta in H. cbn [testsOf Tests.dropFcfe Tests.dropFcff Tests.dropDdm] in H.
  rewrite <- calculateDynamicWeights_run with (earningsResults := earningsResults) in H.
  set (weights := calculateDynamicWeights _ _ _ _ _ _ _) in *.
  apply andb_prop in H. destruct H as [H _].
  apply andb_prop in H. destruct H as [H _].
  apply andb_prop in H. destruct H as [H _].
  apply andb_prop in H. destruct H as [H _].
  apply andb_prop in H. destruct H as [H _].
  apply eqb_prop in H.
  assert (Hfcfe : In "FCFE excluded due to extreme valuation result"
                    (getWeightingRationale this weights) <->
                  (nonPositive fcfeResult || extreme fcfeResult 150
                   || is_notApplicable fcfeResult) = true).
  { rewrite getWeightingRationale_lines, <- H.
    intuition (try discriminate; auto). }
  split; [exact Hfcfe|]. split.
  { intros Hna. apply Hfcfe. rewrite Hna. apply orb_true_r. }
  split; [rewrite getWeightingRationale_lines; intuition (try discriminate; auto)|].
  split; [rewrite getWeightingRationale_lines; intuition (try discriminate; auto)|].
  split; [rewrite getWeightingRationale_lines; intuition (try discriminate; auto)|].
  split; [rewrite getWeightingRationale_lines; intuition (try discriminate; auto)|].
  intros line Hline. apply getWeightingRationale_lines in Hline. cbn [In].
  intuition auto.
Qed.

(** ** The summary *)

(** For no digit after the point [toFixed] is [toFixed0]. *)
Lemma toFixed_no_digit (x : number) : toFixed 0 x = toFixed0 x.
Proof.
  unfold toFixed, toFixed0. destruct (is_nan x); [reflexivity|].
  cbv zeta. destruct (1e21 <=? abs x)%float; [reflexivity|].
  f_equal. f_equal. unfold round_scaled, round_half_up.
  destruct (Prim2SF (abs x)) as [s|s| |s m e]; try reflexivity.
  change (10 ^ Z.of_nat 0)%Z with 1%Z. rewrite Z.mul_1_r.
  destruct (0 <=? e)%Z eqn:He; [reflexivity|].
  apply Z.leb_gt in He.
  rewrite !Z.shiftr_div_pow2, !Z.shiftl_mul_pow2 by lia.
  assert (Hk : exists k, (0 <= k /\ - e = k + 1)%Z) by (exists (- e - 1)%Z; lia).
  destruct Hk as (k & Hk & ->).
  replace (k + 1 - 1)%Z with k by lia.
  rewrite !Z.pow_add_r by lia. change (2 ^ 1)%Z with 2%Z.
  replace (Z.pos m * 2 + 1 * (2 ^ k * 2))%Z with ((Z.pos m + 1 * 2 ^ k) * 2)%Z by ring.
  apply Z.div_mul_cancel_r; lia.
Qed.

Lemma toFixed_nan (fractionDigits : nat) (x : number) :
  is_nan x = true -> toFixed fractionDigits x = "NaN".
Proof. unfold toFixed. intros ->. reflexivity. Qed.

Lemma nan_abs (x : number) : is_nan x = true -> is_nan (Math_abs x) = true.
Proof. unfold Math_abs. rewrite !is_nan_Prim2SF, abs_spec. intros ->. reflexivity. Qed.

(** X14. The summary agrees with the recommendation it is given by
    [calculateIntrinsicValue].  Strong Buy always comes with "significantly
    undervalued" and "Excellent downside protection"; Buy with
    "undervalued" and Good or Excellent protection; Sell with "overvalued"
    and the distance to the price as a potential downside.  When the upside
    is NaN the recommendation is Sell and the text reads "overvalued with
    NaN% potential downside". *)
Theorem summary_agrees_with_recommendation (this : Calculator)
    (intrinsicValue upside marginOfSafety : number) :
  let recommendation := getRecommendation upside marginOfSafety in
  let summary := generateSummary this intrinsicValue upside marginOfSafety recommendation in
  let protection (grade : string) :=
    "Margin of safety: " ++ toFixed 1 marginOfSafety ++ "%. " ++ grade
      ++ " downside protection." in
  let overvalued :=
    "The stock appears overvalued with " ++ toFixed 1 (Math_abs upside)
      ++ "% potential downside." in
  summaryRecommendation summary =
    "Investment recommendation: " ++ recommendationLabel recommendation /\
  (recommendation = StrongBuy ->
   opportunity summary =
     "The stock appears significantly undervalued with " ++ toFixed 1 upside
       ++ "% potential upside." /\
   risk summary = protection "Excellent") /\
  (recommendation = Buy ->
   opportunity summary =
     "The stock appears " ++ (if gt upside 20 then "significantly " else EmptyString)
       ++ "undervalued with " ++ toFixed 1 upside ++ "% potential upside." /\
   (risk summary = protection "Excellent" \/ risk summary = protection "Good")) /\
  (recommendation = Sell -> opportunity summary = overvalued) /\
  (is_nan upside = true ->
   recommendation = Sell /\
   opportunity summary = "The stock appears overvalued with NaN% potential downside.").
Proof.
  cbv zeta. unfold generateSummary, getRecommendation.
  cbn [summaryRecommendation opportunity risk].
  assert (H20 : gt upside 20 = true -> gt upside 0 = true).
  { unfold gt. apply lt_transitive. reflexivity. }
  assert (H10 : gt upside 10 = true -> gt upside 0 = true).
  { unfold gt. apply lt_transitive. reflexivity. }
  assert (H0 : gt upside 0 = true -> gt upside (-10) = true).
  { unfold gt. apply lt_transitive. reflexivity. }
  assert (Hm : gt marginOfSafety 15 = true -> gt marginOfSafety 10 = true).
  { unfold gt. apply lt_transitive. reflexivity. }
  split; [reflexivity|]. split; [|split; [|split]].
  - destruct (gt upside 20) eqn:E20; [|cbn [andb]; repeat destruct (_ && _);
        try destruct (gt upside (-10)); discriminate].
    destruct (gt marginOfSafety 15) eqn:E15; [|cbn [andb]; repeat destruct (_ && _);
        try destruct (gt upside (-10)); discriminate].
    intros _. rewrite (H20 eq_refl). split; reflexivity.
  - destruct (gt upside 20 && gt marginOfSafety 15) eqn:Estrong; [discriminate|].
    destruct (gt upside 10) eqn:E10;
      [|cbn [andb]; repeat destruct (_ && _); try destruct (gt upside (-10)); discriminate].
    destruct (gt marginOfSafety 10) eqn:Em10;
      [|cbn [andb]; repeat destruct (_ && _); try destruct (gt upside (-10)); discriminate].
    intros _. rewrite (H10 eq_refl). split; [reflexivity|].
    destruct (gt marginOfSafety 15); [left|right]; reflexivity.
  - destruct (gt upside 20 && gt marginOfSafety 15); [discriminate|].
    destruct (gt upside 10 && gt marginOfSafety 10); [discriminate|].
    destruct (gt upside 0 && gt marginOfSafety 5); [discriminate|].
    destruct (gt upside (-10)) eqn:E; [discriminate|]. intros _.
    destruct (gt upside 0); [specialize (H0 eq_refl); discriminate|reflexivity].
  - intros Hnan. unfold gt. rewrite !(nan_lt_r _ _ Hnan). cbn [andb].
    rewrite (toFixed_nan _ _ (nan_abs _ Hnan)). split; reflexivity.
Qed.

(** ** A not-applicable FCFE in the aggregate *)

(** X15. When the latest free cash flow is at most 0, the result of
    [calculateIntrinsicValue] lists FCFE first with a value of 0 and a
    weight of [+0]; the intrinsic value is the weighted sum of the six other
    methods alone; and the rationale for the returned weights reports FCFE
    as excluded. *)
Theorem not_applicable_fcfe_in_aggregate (this : Calculator) (latest : YearRecord)
    (result : Result.t) :
  latestData this = Ok latest ->
  le (ToNumber (freeCashFlow latest)) 0 = true ->
  calculateIntrinsicValue this = Ok result ->
  exists others,
    Result.weightedValuations result = mkValuation "FCFE" (Num 0) 0 :: others /\
    List.length others = 6%nat /\
    Weights.fcfe (Result.weights result) = 0%float /\
    Result.intrinsicValue result =
      fold_left (fun sum val => sum + ToNumber (value val) * weight val) others 0 /\
    In "FCFE excluded due to extreme valuation result"
      (getWeightingRationale this (Result.weights result)).
Proof.
  intros Hlatest Hle H. apply calculateIntrinsicValue_Ok in H.
  destruct H as (r1 & r2 & r3 & r4 & r5 & H1 & _ & _ & _ & _ & H).
  cbv zeta in H. destruct H as (Hweights & Hvaluations & Hvalue & _).
  unfold calculateFCFE in H1. rewrite Hlatest in H1. cbn [bind] in H1.
  rewrite Hle in H1. injection H1 as <-.
  assert (Hzero : Weights.fcfe (Result.weights result) = 0%float).
  { rewrite Hweights. apply dropped_weights. apply orb_true_r. }
  rewrite Hweights in Hzero.
  rewrite Hvalue, Hvaluations. cbn [method valuePerShare]. rewrite Hzero.
  eexists. split; [reflexivity|]. split; [reflexivity|].
  split; [rewrite Hweights; exact Hzero|]. split; [reflexivity|].
  apply getWeightingRationale_lines. do 4 right. split; [|reflexivity].
  rewrite Hweights, Hzero. reflexivity.
Qed.

(** The record with a latest free cash flow of -1. *)
Lemma not_applicable_fcfe_burning :
  exists result others,
    calculateIntrinsicValue (Fixtures.calculatorOf Fixtures.burning) = Ok result /\
    Result.weightedValuations result = mkValuation "FCFE" (Num 0) 0 :: others /\
    List.length others = 6%nat /\
    Weights.fcfe (Result.weights result) = 0%float /\
    Result.intrinsicValue result =
      fold_left (fun sum val => sum + ToNumber (value val) * weight val) others 0 /\
    In "FCFE excluded due to extreme valuation result"
      (getWeightingRationale (Fixtures.calculatorOf Fixtures.burning) (Result.weights result)).
Proof.
  assert (H : exists result,
             calculateIntrinsicValue (Fixtures.calculatorOf Fixtures.burning) = Ok result).
  { eexists. vm_compute. reflexivity. }
  destruct H as (result & H). exists result.
  destruct (not_applicable_fcfe_in_aggregate (Fixtures.calculatorOf Fixtures.burning)
              (mkYearRecord (Num 100000000) (Num 150000000) (Num (-1)) (Num 120000000)
                 (Num 40000000) (Num 1500000000) (Num 500000000) (Num 50000000)
                 (Num 800000000) (Num 8) (Num 1) (Num 0.5)) result)
    as (others & Hrest); [reflexivity|reflexivity|exact H|].
  exists others. split; [exact H|exact Hrest].
Defined.

(** * The deep copy and the conversion to dollars *)

Module CopyFacts.

Import Store Frame StoreFacts.
Local Open Scope string_scope.
Local Open Scope nat_scope.
Local Open Scope list_scope.





Lemma getProp_valid (s added : store) (l : loc) (c : cell) (key : string) :
  nth_error s l = Some c ->
  getProp (VRef l) key (s ++ added) = (fst (getProp (VRef l) key s), s ++ added).
Proof.
  intros H. unfold getProp, read. simpl.
  rewrite nth_error_app1 by (apply nth_error_Some; congruence). reflexivity.
Qed.

(** A property that reads truthy is read on an object of the store or on a
    string. *)
Lemma getProp_truthy (s : store) (data : value) (key : string) (v : value) :
  fst (getProp data key s) = Ok v -> truthy v = true ->
  (exists l c, data = VRef l /\ nth_error s l = Some c) \/ (exists text, data = VStr text).
Proof.
  unfold getProp, read. simpl. destruct data as [| |b|n|text|l]; try discriminate.
  - intros [= <-]. discriminate.
  - intros [= <-]. discriminate.
  - eauto.
  - destruct (nth_error s l) as [c|] eqn:E; [eauto|]. intros [= <-]. discriminate.
Qed.

Lemma getProp_grown (s added : store) (data : value) (key : string) (v : value) :
  fst (getProp data key s) = Ok v -> truthy v = true ->
  forall key', getProp data key' (s ++ added) = (fst (getProp data key' s), s ++ added).
Proof.
  intros H Ht key'. destruct (getProp_truthy s data key v H Ht) as [(l & c & -> & E)|(text & ->)].
  - apply (getProp_valid s added l c key' E).
  - reflexivity.
Qed.




Section Unconverted.

Variable StringToNumber : string -> JS.number.
Variable ObjectToNumber : store -> loc -> outcome JS.number.

Local Abbreviation convertToUSD := (convertToUSD StringToNumber ObjectToNumber).

(** X17. A record in a currency other than USD and DKK, or in DKK
    without a rate table, is not converted: the normaliser returns the plain
    copy of [JSON.parse(JSON.stringify(data))], or its TypeError, and makes
    no mark on it. *)
Theorem convertToUSD_other_currency (data : value) (s : store) (currency : value) :
  fst (getProp data "currency" s) = Ok currency ->
  truthy currency = true ->
  is_string currency "USD" = false ->
  is_string currency "DKK" = false \/
  (exists rates, fst (getProp data "exchangeRate" s) = Ok rates /\ truthy rates = false) ->
  convertToUSD data s = deepCopy data s.
Proof.
  intros Hcurrency Htruthy Husd Hother.
  unfold Store.convertToUSD, bindM.
  destruct (getProp data "currency" s) as [r s0] eqn:E.
  assert (s0 = s) by (unfold getProp, read in E; congruence). subst s0.
  simpl in Hcurrency. subst r. rewrite Htruthy, Husd. cbn [negb orb].
  destruct (deepCopy data s) as [[copy|] s1] eqn:Ecopy; [|reflexivity].
  assert (Hext : exists added, s1 = s ++ added).
  { pose proof (keeps_deepCopy s data s (separate_refl s)) as [[Hext _] _].
    rewrite Ecopy in Hext. exact Hext. }
  destruct Hext as (added & ->).
  assert (Hread : forall key, getProp data key (s ++ added)
                              = (fst (getProp data key s), s ++ added)).
  { apply (getProp_grown s added data "currency" currency); [rewrite E; reflexivity|assumption]. }
  rewrite (Hread "currency"), E. cbn [fst].
  destruct Hother as [Hdkk|(rates & Hrates & Hfalsy)].
  - rewrite Hdkk. reflexivity.
  - destruct (is_string currency "DKK"); [|reflexivity].
    rewrite (Hread "exchangeRate"), Hrates, Hfalsy. reflexivity.
Qed.

End Unconverted.

(** A record in euros. *)
Lemma convertToUSD_euros :
  exists copy s',
    convertToUSD Fixtures.noString Fixtures.noObject (VRef 0)
      [CObj [("currency", VStr "EUR"); ("revenue", VNum 3%float)]] = (Ok copy, s') /\
    deepCopy (VRef 0) [CObj [("currency", VStr "EUR"); ("revenue", VNum 3%float)]]
      = (Ok copy, s') /\
    Loader.peek s' copy "currency" = VStr "EUR" /\
    Loader.peek s' copy "revenue" = VNum 3%float /\
    Loader.peek s' copy "convertedFromCurrency" = VUndef.
Proof.
  eexists. eexists.
  assert (H : convertToUSD Fixtures.noString Fixtures.noObject (VRef 0)
                [CObj [("currency", VStr "EUR"); ("revenue", VNum 3%float)]]
              = deepCopy (VRef 0) [CObj [("currency", VStr "EUR"); ("revenue", VNum 3%float)]]).
  { apply (convertToUSD_other_currency Fixtures.noString Fixtures.noObject (VRef 0)
             [CObj [("currency", VStr "EUR"); ("revenue", VNum 3%float)]] (VStr "EUR"));
      try reflexivity. left. reflexivity. }
  split; [rewrite H; vm_compute; reflexivity|].
  split; [vm_compute; reflexivity|]. repeat split.
Defined.


(** *** One year of the conversion *)

Lemma replace_same (s : store) (l : loc) (c : cell) :
  nth_error s l = Some c -> replace l c s = s.
Proof.
  revert l. induction s as [|x s IH]; intros [|l]; simpl; try discriminate.
  - intros [= ->]. reflexivity.
  - intros H. now rewrite IH.
Qed.

Lemma replace_replace (s : store) (l : loc) (c c' : cell) :
  replace l c' (replace l c s) = replace l c' s.
Proof.
  revert l. induction s as [|x s IH]; intros [|l]; simpl; try reflexivity.
  now rewrite IH.
Qed.

Lemma lookup_convertField (test : value -> bool) (rate : JS.number)
    (props : list (string * value)) (field key : string) :
  lookup key (convertField test rate props field) =
  if String.eqb field key then converted test rate (lookup key props) else lookup key props.
Proof.
  unfold convertField. destruct (String.eqb field key) eqn:E.
  - apply String.eqb_eq in E. subst key.
    destruct (test (lookup field props)) eqn:Et.
    + apply lookup_update_same.
    + unfold converted. now rewrite Et.
  - destruct (test (lookup field props)); [|reflexivity].
    apply lookup_update_other, E.
Qed.

Lemma numeric_converted (test : value -> bool) (rate : JS.number) (v : value) :
  numeric v -> numeric (converted test rate v).
Proof. unfold converted. destruct (test v), v; simpl; auto. Qed.

Lemma lookup_fold_convertField (test : value -> bool) (rate : JS.number) (fields : list string) :
  NoDup fields ->
  forall props key,
    lookup key (fold_left (convertField test rate) fields props) =
    if in_dec string_dec key fields then converted test rate (lookup key props)
    else lookup key props.
Proof.
  induction 1 as [|field fields Hnotin Hnodup IH]; intros props key; [reflexivity|].
  cbn [fold_left]. rewrite IH, lookup_convertField.
  destruct (String.eqb field key) eqn:E.
  - apply String.eqb_eq in E. subst key.
    destruct (in_dec string_dec field fields) as [Hin|_]; [contradiction|].
    destruct (in_dec string_dec field (field :: fields)) as [_|Hout]; [reflexivity|].
    elim Hout. left. reflexivity.
  - apply String.eqb_neq in E.
    destruct (in_dec string_dec key fields) as [Hin|Hout];
      destruct (in_dec string_dec key (field :: fields)) as [Hin'|Hout']; try reflexivity.
    + elim Hout'. right. exact Hin.
    + destruct Hin' as [->|Hin']; contradiction.
Qed.

Lemma NoDup_app_apart (A : Type) (l1 l2 : list A) :
  NoDup (l1 ++ l2) -> forall a, In a l1 -> In a l2 -> False.
Proof.
  induction l1 as [|x l1 IH]; simpl; intros H a H1 H2; [contradiction|].
  inversion H as [|? ? Hx Hrest]; subst. destruct H1 as [->|H1].
  - apply Hx, in_or_app. right. exact H2.
  - apply (IH Hrest a H1 H2).
Qed.

(** The seventeen fields of the conversion are distinct. *)
Lemma fields_apart : NoDup (monetaryFields ++ perShareFields).
Proof.
  assert (H : nodup string_dec (monetaryFields ++ perShareFields)
              = monetaryFields ++ perShareFields) by (vm_compute; reflexivity).
  rewrite <- H. apply NoDup_nodup.
Qed.

Section Year.

Variable StringToNumber : string -> JS.number.
Variable ObjectToNumber : store -> loc -> outcome JS.number.

Local Abbreviation multiply := (multiply StringToNumber ObjectToNumber).
Local Abbreviation convertIfTruthy := (convertIfTruthy StringToNumber ObjectToNumber).
Local Abbreviation convertYear := (convertYear StringToNumber ObjectToNumber).

Lemma monetary_step (s : store) (y : loc) (props props0 : list (string * value))
    (rate : JS.number) (field : string) :
  nth_error s y = Some (CObj props0) ->
  numeric (lookup field props) ->
  (current <-- getProp (VRef y) field ;;
   if is_present current then
     current <-- getProp (VRef y) field ;;
     converted <-- multiply current (VNum rate) ;;
     setProp (VRef y) field converted
   else ret tt) (replace y (CObj props) s)
  = (Ok tt, replace y (CObj (convertField is_present rate props field)) s).
Proof.
  intros Hy Hnumeric. unfold bindM, getProp, read, convertField, converted.
  cbn [fst snd]. rewrite (nth_error_replace_same _ _ _ _ Hy).
  destruct (lookup field props) as [| |b|n|text|l] eqn:E; try contradiction; cbn [is_present].
  - reflexivity.
  - reflexivity.
  - rewrite (nth_error_replace_same _ _ _ _ Hy), E.
    unfold Store.multiply, bindM, Store.ToNumber, read, ret, setProp. cbn [fst snd].
    rewrite (nth_error_replace_same _ _ _ _ Hy), replace_replace. reflexivity.
Qed.

Lemma truthy_step (s : store) (y : loc) (props props0 : list (string * value))
    (rate : JS.number) (field : string) :
  nth_error s y = Some (CObj props0) ->
  numeric (lookup field props) ->
  convertIfTruthy (VRef y) field (VNum rate) (replace y (CObj props) s)
  = (Ok tt, replace y (CObj (convertField truthy rate props field)) s).
Proof.
  intros Hy Hnumeric. unfold Store.convertIfTruthy, bindM, getProp, read, convertField, converted.
  cbn [fst snd]. rewrite (nth_error_replace_same _ _ _ _ Hy).
  destruct (lookup field props) as [| |b|n|text|l] eqn:E; try contradiction; cbn [truthy].
  - reflexivity.
  - reflexivity.
  - destruct (JS.truthy_number n); [|reflexivity].
    rewrite (nth_error_replace_same _ _ _ _ Hy), E.
    unfold Store.multiply, bindM, Store.ToNumber, read, ret, setProp. cbn [fst snd].
    rewrite (nth_error_replace_same _ _ _ _ Hy), replace_replace. reflexivity.
Qed.

Lemma monetary_steps (s : store) (y : loc) (props0 : list (string * value))
    (rate : JS.number) (fields : list string) :
  nth_error s y = Some (CObj props0) ->
  forall props,
    (forall field, In field fields -> numeric (lookup field props)) ->
    forEach fields (fun field =>
      current <-- getProp (VRef y) field ;;
      if is_present current then
        current <-- getProp (VRef y) field ;;
        converted <-- multiply current (VNum rate) ;;
        setProp (VRef y) field converted
      else ret tt) (replace y (CObj props) s)
    = (Ok tt, replace y (CObj (fold_left (convertField is_present rate) fields props)) s).
Proof.
  intros Hy. induction fields as [|field fields IH]; intros props Hnumeric; [reflexivity|].
  cbn [forEach fold_left]. unfold bindM at 1.
  rewrite (monetary_step s y props props0 rate field Hy) by (apply Hnumeric; left; reflexivity).
  apply IH. intros field' Hin. rewrite lookup_convertField.
  destruct (String.eqb field field'); [apply numeric_converted|];
    apply Hnumeric; right; exact Hin.
Qed.

(** X18. The conversion of one year of a record whose monetary and
    per-share fields are Numbers, [null] or absent, at a rate that is a
    Number: it rewrites the object of that year and no other cell; each of
    the fourteen monetary fields that holds a Number is multiplied by the
    rate, zero included; each of the three per-share fields is multiplied
    if it holds a Number other than 0 and NaN; [null] and absent fields
    stay as they are; and no other property of the year (a ratio, a share
    count) is touched. *)
Theorem convertYear_fields (normalizedData history : value) (rate : JS.number)
    (year : string) (s : store) (y : loc) (props : list (string * value)) :
  fst (getProp normalizedData "financialHistory" s) = Ok history ->
  fst (getProp history year s) = Ok (VRef y) ->
  nth_error s y = Some (CObj props) ->
  (forall field, In field (monetaryFields ++ perShareFields) -> numeric (lookup field props)) ->
  exists props',
    convertYear normalizedData (VNum rate) year s = (Ok tt, replace y (CObj props') s) /\
    (forall field, In field monetaryFields ->
       lookup field props' = converted is_present rate (lookup field props)) /\
    (forall field, In field perShareFields ->
       lookup field props' = converted truthy rate (lookup field props)) /\
    (forall key, ~ In key (monetaryFields ++ perShareFields) ->
       lookup key props' = lookup key props).
Proof.
  intros Hhistory Hyear Hy Hnumeric.
  set (props1 := fold_left (convertField is_present rate) monetaryFields props).
  set (props2 := fold_left (convertField truthy rate) perShareFields props1).
  pose proof fields_apart as Hnodup.
  pose proof (NoDup_app_remove_r _ _ Hnodup) as Hnodup1.
  pose proof (NoDup_app_remove_l _ _ Hnodup) as Hnodup2.
  pose proof (NoDup_app_apart _ _ _ Hnodup) as Hapart.
  assert (Hlookup1 : forall key, lookup key props1 =
            if in_dec string_dec key monetaryFields
            then converted is_present rate (lookup key props) else lookup key props).
  { intros key. apply lookup_fold_convertField, Hnodup1. }
  assert (Hlookup2 : forall key, lookup key props2 =
            if in_dec string_dec key perShareFields
            then converted truthy rate (lookup key props1) else lookup key props1).
  { intros key. apply lookup_fold_convertField, Hnodup2. }
  exists props2. split; [|split; [|split]].
  - unfold Store.convertYear.
    unfold bindM at 1. destruct (getProp normalizedData "financialHistory" s) as [r s0] eqn:E.
    assert (s0 = s) by (unfold getProp, read in E; congruence). subst s0.
    simpl in Hhistory. subst r.
    unfold bindM at 1. destruct (getProp history year s) as [r s0] eqn:E'.
    assert (s0 = s) by (unfold getProp, read in E'; congruence). subst s0.
    simpl in Hyear. subst r.
    rewrite <- (replace_same s y (CObj props) Hy) at 1.
    unfold bindM at 1.
    rewrite (monetary_steps s y props rate monetaryFields Hy props)
      by (intros field Hin; apply Hnumeric, in_or_app; left; exact Hin).
    fold props1.
    assert (Hnumeric1 : forall field, In field perShareFields -> numeric (lookup field props1)).
    { intros field Hin. rewrite Hlookup1.
      destruct (in_dec string_dec field monetaryFields); [apply numeric_converted|];
        apply Hnumeric, in_or_app; right; exact Hin. }
    unfold bindM at 1.
    rewrite (truthy_step s y props1 props rate "bookValuePerShare" Hy)
      by (apply Hnumeric1; unfold perShareFields; cbn [In]; auto).
    assert (Hnumeric2 : forall p field key,
               numeric (lookup key p) -> numeric (lookup key (convertField truthy rate p field))).
    { intros p field key H. rewrite lookup_convertField.
      destruct (String.eqb field key); [apply numeric_converted|]; exact H. }
    unfold bindM at 1.
    rewrite (truthy_step s y _ props rate "eps" Hy)
      by (apply Hnumeric2, Hnumeric1; unfold perShareFields; cbn [In]; auto).
    rewrite (truthy_step s y _ props rate "dividend" Hy)
      by (apply Hnumeric2, Hnumeric2, Hnumeric1; unfold perShareFields; cbn [In]; auto).
    unfold props2, perShareFields. cbn [fold_left]. reflexivity.
  - intros field Hin. rewrite Hlookup2, Hlookup1.
    destruct (in_dec string_dec field perShareFields) as [Hin'|_];
      [elim (Hapart field Hin Hin')|].
    destruct (in_dec string_dec field monetaryFields); [reflexivity|contradiction].
  - intros field Hin. rewrite Hlookup2, Hlookup1.
    destruct (in_dec string_dec field perShareFields); [|contradiction].
    destruct (in_dec string_dec field monetaryFields) as [Hin'|_];
      [elim (Hapart field Hin' Hin)|reflexivity].
  - intros key Hout. rewrite Hlookup2, Hlookup1.
    destruct (in_dec string_dec key perShareFields) as [Hin|_];
      [elim Hout; apply in_or_app; right; exact Hin|].
    destruct (in_dec string_dec key monetaryFields) as [Hin|_];
      [elim Hout; apply in_or_app; left; exact Hin|reflexivity].
Qed.

End Year.


(** A year with sales of 1000, earnings per share of 2, no dividend, no
    net income on record and 50 shares, at a rate of 0.5. *)
Lemma convertYear_example :
  exists props',
    convertYear Fixtures.noString Fixtures.noObject (VRef 2) (VNum 0.5%float) "2024"
      Fixtures.oneYear = (Ok tt, replace 0 (CObj props') Fixtures.oneYear) /\
    lookup "revenue" props' = VNum 500%float /\
    lookup "eps" props' = VNum 1%float /\
    lookup "dividend" props' = VNum 0%float /\
    lookup "netIncome" props' = VNull /\
    lookup "capex" props' = VUndef /\
    lookup "sharesOutstanding" props' = VNum 50%float.
Proof.
  destruct (convertYear_fields Fixtures.noString Fixtures.noObject (VRef 2) (VRef 1)
              0.5%float "2024" Fixtures.oneYear 0
              [("revenue", VNum 1000%float); ("eps", VNum 2%float);
               ("dividend", VNum 0%float); ("netIncome", VNull);
               ("sharesOutstanding", VNum 50%float)])
    as (props' & Hrun & Hmonetary & Hshare & Hother).
  - reflexivity.
  - reflexivity.
  - reflexivity.
  - intros field H. unfold monetaryFields, perShareFields in H. cbn [app In] in H.
    repeat (destruct H as [<-|H]; [exact I|]). destruct H.
  - exists props'. split; [exact Hrun|].
    split; [rewrite Hmonetary by (unfold monetaryFields; cbn [In]; auto 20); reflexivity|].
    split; [rewrite Hshare by (unfold perShareFields; cbn [In]; auto); reflexivity|].
    split; [rewrite Hshare by (unfold perShareFields; cbn [In]; auto); reflexivity|].
    split; [rewrite Hmonetary by (unfold monetaryFields; cbn [In]; auto 20); reflexivity|].
    split; [rewrite Hmonetary by (unfold monetaryFields; cbn [In]; auto 20); reflexivity|].
    rewrite Hother; [reflexivity|].
    unfold monetaryFields, perShareFields. cbn [app In]. intros H.
    repeat (destruct H as [H|H]; [discriminate H|]). exact H.
Defined.

(** *** The marks of a conversion *)

Section Marks.

Variable StringToNumber : string -> JS.number.
Variable ObjectToNumber : store -> loc -> outcome JS.number.

Local Abbreviation convertYear := (convertYear StringToNumber ObjectToNumber).
Local Abbreviation convertDividendInfo := (convertDividendInfo StringToNumber ObjectToNumber).
Local Abbreviation convertFromDKK := (convertFromDKK StringToNumber ObjectToNumber).
Local Abbreviation convertToUSD := (convertToUSD StringToNumber ObjectToNumber).

Lemma read_state (A : Type) (f : store -> outcome A) (s s' : store) (a : A) :
  read f s = (Ok a, s') -> s' = s /\ f s = Ok a.
Proof. unfold read. intros [= H <-]. auto. Qed.

Lemma markConverted_marks (data normalizedData rate : value) (s s' : store) :
  markConverted data normalizedData rate s = (Ok tt, s') ->
  getProp normalizedData "currency" s' = (Ok (VStr "USD"), s') /\
  getProp normalizedData "conversionRate" s' = (Ok rate, s') /\
  exists l props,
    normalizedData = VRef l /\ nth_error s l = Some (CObj props) /\
    forall currency,
      getProp data "currency" (replace l (CObj (update "currency" (VStr "USD") props)) s)
        = (Ok currency, replace l (CObj (update "currency" (VStr "USD") props)) s) ->
      getProp normalizedData "convertedFromCurrency" s' = (Ok currency, s').
Proof.
  unfold markConverted. intros H.
  apply bindM_Ok in H. destruct H as ([] & s1 & H1 & H).
  apply bindM_Ok in H. destruct H as (currency & s2 & H2 & H).
  apply bindM_Ok in H. destruct H as ([] & s3 & H3 & H4).
  assert (s2 = s1) by (unfold getProp, read in H2; congruence). subst s2.
  apply setProp_Ok in H1. destruct H1 as (l & props & -> & E1 & ->).
  apply setProp_Ok in H3. destruct H3 as (l3 & props3 & Hl3 & E3 & ->).
  injection Hl3 as <-.
  rewrite (nth_error_replace_same _ _ _ _ E1) in E3. injection E3 as <-.
  apply setProp_Ok in H4. destruct H4 as (l4 & props4 & Hl4 & E4 & ->).
  injection Hl4 as <-.
  rewrite (nth_error_replace_same _ _ _ _ (nth_error_replace_same _ _ _ _ E1)) in E4.
  injection E4 as <-.
  assert (Hcell : forall key,
             getProp (VRef l) key
               (replace l (CObj (update "conversionRate" rate
                                   (update "convertedFromCurrency" currency
                                      (update "currency" (VStr "USD") props))))
                  (replace l (CObj (update "convertedFromCurrency" currency
                                      (update "currency" (VStr "USD") props)))
                     (replace l (CObj (update "currency" (VStr "USD") props)) s)))
             = (Ok (lookup key (update "conversionRate" rate
                                  (update "convertedFromCurrency" currency
                                     (update "currency" (VStr "USD") props)))),
                replace l (CObj (update "conversionRate" rate
                                   (update "convertedFromCurrency" currency
                                      (update "currency" (VStr "USD") props))))
                  (replace l (CObj (update "convertedFromCurrency" currency
                                      (update "currency" (VStr "USD") props)))
                     (replace l (CObj (update "currency" (VStr "USD") props)) s)))).
  { intros key. unfold getProp, read. simpl.
    rewrite (nth_error_replace_same _ _ _ _
               (nth_error_replace_same _ _ _ _ (nth_error_replace_same _ _ _ _ E1))).
    reflexivity. }
  split; [|split].
  - rewrite Hcell, !lookup_update_other by reflexivity. rewrite lookup_update_same. reflexivity.
  - rewrite Hcell, lookup_update_same. reflexivity.
  - exists l, props. split; [reflexivity|]. split; [exact E1|].
    intros currency' Hcurrency. rewrite Hcurrency in H2. injection H2 as <-.
    rewrite Hcell, lookup_update_other by reflexivity. rewrite lookup_update_same. reflexivity.
Qed.

(** X19. A record in DKK with a rate table and a rate, when its
    conversion succeeds, comes back as an object of its own that is marked:
    its currency reads USD, [convertedFromCurrency] reads DKK and
    [conversionRate] is the rate that was read from [exchangeRate.dkkToUsd]
    of the record. *)
Theorem convertToUSD_marks (data : value) (s : store) (rates rate normalizedData : value)
    (s' : store) :
  fst (getProp data "currency" s) = Ok (VStr "DKK") ->
  fst (getProp data "exchangeRate" s) = Ok rates -> truthy rates = true ->
  fst (getProp rates "dkkToUsd" s) = Ok rate -> rate <> VUndef ->
  convertToUSD data s = (Ok normalizedData, s') ->
  value_above (List.length s) normalizedData /\
  Loader.peek s' normalizedData "currency" = VStr "USD" /\
  Loader.peek s' normalizedData "convertedFromCurrency" = VStr "DKK" /\
  Loader.peek s' normalizedData "conversionRate" = rate.
Proof.
  intros Hcurrency Hrates Htruthy Hrate Hdefined Hrun.
  unfold Store.convertToUSD in Hrun.
  apply bindM_Ok in Hrun. destruct Hrun as (currency0 & s0 & H0 & Hrun).
  assert (s0 = s) by (unfold getProp, read in H0; congruence). subst s0.
  rewrite H0 in Hcurrency. simpl in Hcurrency. injection Hcurrency as ->.
  simpl in Hrun.
  apply bindM_Ok in Hrun. destruct Hrun as (copy & s1 & H1 & Hrun).
  pose proof (keeps_deepCopy s data s (separate_refl s)) as [Hsep1 Hcopy].
  rewrite H1 in Hsep1, Hcopy. cbn [fst snd] in Hsep1, Hcopy.
  assert (Hcurrency1 : forall s2, extends s s2 ->
             getProp data "currency" s2 = (Ok (VStr "DKK"), s2)).
  { intros s2 Hext. apply (getProp_stable s s2 _ _ _ Hext); [rewrite H0; reflexivity|discriminate]. }
  assert (Hrates1 : getProp data "exchangeRate" s1 = (Ok rates, s1)).
  { apply (getProp_stable s s1 _ _ _ (proj1 Hsep1) Hrates). intros ->. discriminate. }
  assert (Hrate1 : getProp rates "dkkToUsd" s1 = (Ok rate, s1)).
  { apply (getProp_stable s s1 _ _ _ (proj1 Hsep1) Hrate Hdefined). }
  apply bindM_Ok in Hrun. destruct Hrun as (currency1 & s2 & H2 & Hrun).
  rewrite (Hcurrency1 s1 (proj1 Hsep1)) in H2. injection H2 as <- <-.
  apply bindM_Ok in Hrun. destruct Hrun as ([] & s2 & Hrun & Hret).
  injection Hret as <- <-. simpl in Hrun.
  apply bindM_Ok in Hrun. destruct Hrun as (rates' & s3 & H3 & Hrun).
  rewrite Hrates1 in H3. injection H3 as <- <-. rewrite Htruthy in Hrun.
  unfold Store.convertFromDKK in Hrun.
  apply bindM_Ok in Hrun. destruct Hrun as (rates' & s3 & H3 & Hrun).
  rewrite Hrates1 in H3. injection H3 as <- <-.
  apply bindM_Ok in Hrun. destruct Hrun as (rate' & s3 & H3 & Hrun).
  rewrite Hrate1 in H3. injection H3 as <- <-.
  apply bindM_Ok in Hrun. destruct Hrun as (history & s3 & H3 & Hrun).
  assert (s3 = s1) by (unfold getProp, read in H3; congruence). subst s3.
  apply bindM_Ok in Hrun. destruct Hrun as (years & s3 & H4 & Hrun).
  assert (s3 = s1) by (unfold ownKeys, read in H4; congruence). subst s3.
  apply bindM_Ok in Hrun. destruct Hrun as ([] & s5 & H5 & Hrun).
  pose proof (keeps_forEach _ s years
                (Store.convertYear StringToNumber ObjectToNumber copy rate)
                (fun year => keeps_convertYear StringToNumber ObjectToNumber s copy rate year Hcopy)
                s1 Hsep1) as [Hsep5 _].
  rewrite H5 in Hsep5. cbn [snd] in Hsep5.
  apply bindM_Ok in Hrun. destruct Hrun as ([] & s6 & H6 & Hrun).
  pose proof (keeps_convertDividendInfo StringToNumber ObjectToNumber s copy rate Hcopy
                s5 Hsep5) as [Hsep6 _].
  rewrite H6 in Hsep6. cbn [snd] in Hsep6.
  destruct (markConverted_marks _ _ _ _ _ Hrun) as (Hm1 & Hm2 & l & props & -> & El & Hm3).
  split; [exact Hcopy|]. unfold Loader.peek.
  rewrite Hm1, Hm2. split; [reflexivity|]. split; [|reflexivity].
  rewrite (Hm3 (VStr "DKK")); [reflexivity|].
  apply Hcurrency1.
  destruct (proj1 Hsep6) as (added & ->). simpl in Hcopy.
  pose proof (extends_length _ _ (ex_intro _ added eq_refl : extends s (s ++ added))) as Hlen.
  rewrite replace_app by lia. apply extends_app, extends_refl.
Qed.

End Marks.

(** The record in DKK with a rate of 0.5. *)
Lemma convertToUSD_marks_krone :
  exists normalizedData s',
    convertToUSD Fixtures.noString Fixtures.noObject (VRef 3)
      (Fixtures.krone [("dkkToUsd", VNum 0.5%float)]) = (Ok normalizedData, s') /\
    value_above 4 normalizedData /\
    Loader.peek s' normalizedData "currency" = VStr "USD" /\
    Loader.peek s' normalizedData "convertedFromCurrency" = VStr "DKK" /\
    Loader.peek s' normalizedData "conversionRate" = VNum 0.5%float.
Proof.
  eexists. eexists. split; [vm_compute; reflexivity|].
  eapply (convertToUSD_marks Fixtures.noString Fixtures.noObject (VRef 3)
            (Fixtures.krone [("dkkToUsd", VNum 0.5%float)]) (VRef 0) (VNum 0.5%float));
    try reflexivity; discriminate.
Defined.

End CopyFacts.

(** * The validation of a company record *)

Module BuilderFacts.

Import Store Frame StoreFacts Engine Loader Builder.
Local Open Scope string_scope.
Local Open Scope nat_scope.
Local Open Scope list_scope.

(** *** Reads of the record *)

Lemma peek_getProp (s : store) (object : Store.value) (key : string) :
  object <> VUndef -> object <> VNull ->
  getProp object key s = (Ok (peek s object key), s).
Proof.
  intros H1 H2. unfold peek, getProp, read.
  destruct object as [| |b|n|text|l]; try contradiction; try reflexivity.
  destruct (nth_error s l) as [[props|elems]|]; reflexivity.
Qed.

Lemma readNumber_peek (s : store) (object : Store.value) (key : string) (v : jsval) :
  readNumber s object key = Some v ->
  peek s object key = match v with
                      | Undefined => VUndef
                      | Null => VNull
                      | Num n => VNum n
                      end.
Proof. unfold readNumber. destruct (peek s object key); intros [= <-]; reflexivity. Qed.

Lemma truthy_defined (v : Store.value) :
  Store.truthy v = true -> v <> VUndef /\ v <> VNull.
Proof. destruct v; simpl; intros H; try discriminate H; split; discriminate. Qed.

(** [Object.keys] of a value that is truthy returns. *)
Lemma ownKeys_truthy (s : store) (v : Store.value) :
  Store.truthy v = true ->
  ownKeys v s = (Ok (match fst (ownKeys v s) with
                     | Ok years => years
                     | TypeError => []
                     end), s).
Proof.
  unfold ownKeys, read. destruct v as [| |b|n|text|l]; simpl; try discriminate;
    try reflexivity.
  destruct (nth_error s l) as [[props|elems]|]; reflexivity.
Qed.

Section Validation.

Variable StringToNumber : string -> JS.number.
Variable ObjectToNumber : store -> loc -> outcome JS.number.

Local Abbreviation validateData := (validateData StringToNumber ObjectToNumber).

Lemma bindM_run (A B : Type) (m : M A) (k : A -> M B) (s : store) (a : A) (s' : store) :
  m s = (Ok a, s') -> bindM m k s = k a s'.
Proof. unfold bindM. intros ->. reflexivity. Qed.

Lemma bindM_throws (A B : Type) (m : M A) (k : A -> M B) (s s' : store) :
  m s = (TypeError, s') -> bindM m k s = (TypeError, s').
Proof. unfold bindM. intros ->. reflexivity. Qed.

Lemma pushEach_run (s : store) (fields : list string) (callback : string -> M (option string))
    (pushed : string -> option string) (errors : list string) :
  (forall field, callback field s = (Ok (pushed field), s)) ->
  pushEach fields callback errors s =
  (Ok (fold_left (fun errors field =>
                    match pushed field with
                    | Some message => errors ++ [message]
                    | None => errors
                    end) fields errors), s).
Proof.
  intros H. revert errors. induction fields as [|field fields IH]; intros errors; [reflexivity|].
  cbn [pushEach fold_left]. rewrite (bindM_run _ _ _ _ s _ s (H field)). apply IH.
Qed.

Lemma required_field (s : store) (data : Store.value) (field : string) :
  data <> VUndef -> data <> VNull ->
  (v <-- getProp data field ;;
   ret (if negb (Store.truthy v) then Some ("Missing required field: " ++ field)%string
        else None)) s
  = (Ok (if negb (Store.truthy (peek s data field))
         then Some ("Missing required field: " ++ field)%string else None), s).
Proof.
  intros H1 H2. rewrite (bindM_run _ _ _ _ s _ s (peek_getProp s data field H1 H2)).
  reflexivity.
Qed.

(** [!v || v <= 0] on a numeric field is the failure of [v > 0]. *)
Lemma invalid_field (s : store) (object : Store.value) (key : string) (v : jsval) :
  readNumber s object key = Some v ->
  (if negb (Store.truthy (peek s object key)) then ret true
   else atMostZero StringToNumber ObjectToNumber (peek s object key)) s
  = (Ok (negb (JS.gt (ToNumber v) PrimFloat.zero)), s).
Proof.
  intros H. rewrite (readNumber_peek _ _ _ _ H). destruct v as [| |n]; try reflexivity.
  cbn [Store.truthy ToNumber]. unfold JS.truthy_number.
  destruct (PrimFloat.is_zero n) eqn:Hzero.
  { cbn [orb negb]. unfold ret, JS.gt.
    pose proof (zero_not_above_zero n Hzero) as Hz. change 0%float with PrimFloat.zero in Hz.
    unfold JS.lt in Hz. rewrite Hz. reflexivity. }
  destruct (PrimFloat.is_nan n) eqn:Hnan.
  { cbn [orb negb]. unfold ret, JS.gt.
    pose proof (nan_lt_r PrimFloat.zero n Hnan) as Hz. unfold JS.lt in Hz.
    rewrite Hz. reflexivity. }
  cbn [orb negb]. unfold atMostZero, Store.ToNumber, bindM, read, ret. f_equal. f_equal.
  unfold JS.gt, JS.le, JS.lt. rewrite leb_spec, ltb_spec. unfold SFleb, SFltb.
  rewrite (SFcompare_antisym (Prim2SF n) (Prim2SF PrimFloat.zero)).
  destruct (SFcompare (Prim2SF n) (Prim2SF PrimFloat.zero)) as [[]|] eqn:E; try reflexivity.
  apply SFcompare_None in E. destruct E as [E|E]; [|discriminate E].
  apply is_nan_Prim2SF in E. congruence.
Qed.

(** X20. [validateData] on a record whose two market fields, if it has
    market data, are Numbers, [null] or absent; nothing else is asked of
    the record, whose other sections may be missing or of any kind.  On
    [undefined] and [null] it throws a TypeError.  On every other record it
    returns, writes nothing, and its errors are, in this order: a missing
    field for each of ticker, companyName, marketData and financialHistory
    that is falsy (absent, [null], the empty string, 0); the history without
    a year, if there is a history and it has no key; and, if there is
    market data, an invalid market field for a price and for a number of
    shares that is not above 0 (absent, [null], 0, negative and NaN alike).
    So the list is empty exactly when the four fields are truthy, the
    history has a key, and the price and the number of shares are above
    0. *)
Theorem validateData_lists_errors (data : Store.value) (s : store) (price shares : jsval) :
  readNumber s (peek s data "marketData") "currentPrice" = Some price ->
  readNumber s (peek s data "marketData") "sharesOutstanding" = Some shares ->
  let present (field : string) := Store.truthy (peek s data field) in
  let years := match fst (ownKeys (peek s data "financialHistory") s) with
               | Ok years => years
               | TypeError => []
               end in
  let missing (field : string) :=
    if present field then [] else [("Missing required field: " ++ field)%string] in
  let invalid (field : string) (v : jsval) :=
    if present "marketData" && negb (JS.gt (ToNumber v) PrimFloat.zero)
    then [("Invalid or missing market data field: " ++ field)%string] else [] in
  let errors :=
    missing "ticker" ++ missing "companyName" ++ missing "marketData"
    ++ missing "financialHistory"
    ++ (if present "financialHistory" && (List.length years =? 0)
        then ["Financial history must contain at least one year of data"] else [])
    ++ invalid "currentPrice" price ++ invalid "sharesOutstanding" shares in
  (data = VUndef \/ data = VNull -> validateData data s = (TypeError, s)) /\
  (data <> VUndef -> data <> VNull -> validateData data s = (Ok errors, s)) /\
  (errors = [] <->
     present "ticker" = true /\ present "companyName" = true /\
     present "marketData" = true /\ present "financialHistory" = true /\
     years <> [] /\
     JS.gt (ToNumber price) PrimFloat.zero = true /\
     JS.gt (ToNumber shares) PrimFloat.zero = true).
Proof.
  intros Hprice Hshares. cbv beta zeta.
  set (market := peek s data "marketData") in *.
  set (history := peek s data "financialHistory") in *.
  split; [|split].
  - intros [-> | ->]; reflexivity.
  - intros H1 H2. unfold Builder.validateData.
    rewrite (bindM_run _ _ _ _ s _ s
               (pushEach_run s requiredFields _ _ []
                  (fun field => required_field s data field H1 H2))).
    rewrite (bindM_run _ _ _ _ s _ s (peek_getProp s data "financialHistory" H1 H2)).
    fold history.
    assert (Hhistory : forall errors : list string,
              (if Store.truthy history
               then
                 financialHistory <-- getProp data "financialHistory" ;;
                 years <-- ownKeys financialHistory ;;
                 ret (if List.length years =? 0
                      then errors
                           ++ ["Financial history must contain at least one year of data"]
                      else errors)
               else ret errors) s
              = (Ok (if Store.truthy history
                        && (List.length
                              match fst (ownKeys history s) with
                              | Ok years => years
                              | TypeError => []
                              end =? 0)
                     then errors
                          ++ ["Financial history must contain at least one year of data"]
                     else errors), s)).
    { intros errors. destruct (Store.truthy history) eqn:Eh; [|reflexivity].
      rewrite (bindM_run _ _ _ _ s _ s (peek_getProp s data "financialHistory" H1 H2)).
      fold history.
      rewrite (bindM_run _ _ _ _ s _ s (ownKeys_truthy s history Eh)). reflexivity. }
    rewrite (bindM_run _ _ _ _ s _ s (Hhistory _)).
    rewrite (bindM_run _ _ _ _ s _ s (peek_getProp s data "marketData" H1 H2)).
    fold market.
    assert (Hfield : Store.truthy market = true -> forall key v,
              readNumber s market key = Some v ->
              (marketData <-- getProp data "marketData" ;;
               v <-- getProp marketData key ;;
               invalid <-- (if negb (Store.truthy v) then ret true
                            else
                              marketData <-- getProp data "marketData" ;;
                              v <-- getProp marketData key ;;
                              atMostZero StringToNumber ObjectToNumber v) ;;
               ret (if invalid : bool
                    then Some ("Invalid or missing market data field: " ++ key)%string
                    else None)) s
              = (Ok (if JS.gt (ToNumber v) PrimFloat.zero then None
                     else Some ("Invalid or missing market data field: " ++ key)%string), s)).
    { intros Em key v Hv. destruct (truthy_defined market Em) as [Hm1 Hm2].
      rewrite (bindM_run _ _ _ _ s _ s (peek_getProp s data "marketData" H1 H2)).
      fold market.
      rewrite (bindM_run _ _ _ _ s _ s (peek_getProp s market key Hm1 Hm2)).
      erewrite (bindM_run _ _ _ _ s _ s).
      2:{ rewrite <- (invalid_field s market key v Hv).
          destruct (negb (Store.truthy (peek s market key))); [reflexivity|].
          rewrite (bindM_run _ _ _ _ s _ s (peek_getProp s data "marketData" H1 H2)).
          fold market.
          rewrite (bindM_run _ _ _ _ s _ s (peek_getProp s market key Hm1 Hm2)).
          reflexivity. }
      unfold ret. destruct (JS.gt (ToNumber v) PrimFloat.zero); reflexivity. }
    unfold requiredFields. cbn [fold_left]. fold market. fold history.
    destruct (Store.truthy market) eqn:Em.
    + unfold requiredMarketFields. cbn [pushEach].
      rewrite (bindM_run _ _ _ _ s _ s (Hfield eq_refl _ _ Hprice)).
      rewrite (bindM_run _ _ _ _ s _ s (Hfield eq_refl _ _ Hshares)).
      unfold ret. cbn [andb negb app].
      destruct (Store.truthy (peek s data "ticker")),
        (Store.truthy (peek s data "companyName")), (Store.truthy history),
        (List.length
           match fst (ownKeys history s) with
           | Ok years => years
           | TypeError => []
           end =? 0),
        (JS.gt (ToNumber price) PrimFloat.zero), (JS.gt (ToNumber shares) PrimFloat.zero);
        reflexivity.
    + unfold ret. cbn [andb negb app].
      destruct (Store.truthy (peek s data "ticker")),
        (Store.truthy (peek s data "companyName")), (Store.truthy history),
        (List.length
           match fst (ownKeys history s) with
           | Ok years => years
           | TypeError => []
           end =? 0);
        reflexivity.
  - destruct (Store.truthy (peek s data "ticker")),
      (Store.truthy (peek s data "companyName")), (Store.truthy market),
      (Store.truthy history),
      (match fst (ownKeys history s) with
       | Ok years => years
       | TypeError => []
       end) as [|year rest],
      (JS.gt (ToNumber price) PrimFloat.zero), (JS.gt (ToNumber shares) PrimFloat.zero);
      cbn [List.length Nat.eqb andb negb app];
      (split; [try discriminate | try (intros (? & ? & ? & ? & ? & ? & ?); congruence)]).
    intros _. repeat split; try reflexivity. discriminate.
Qed.

End Validation.

(** The record [bare] is outside the typed view, and passes without an
    error. *)
Lemma validateData_bare_record :
  readCompany Fixtures.bare (VRef 2) = None /\
  Builder.validateData Fixtures.noString Fixtures.noObject (VRef 2) Fixtures.bare
    = (Ok [], Fixtures.bare).
Proof.
  split; [reflexivity|].
  assert (H1 : VRef 2 <> VUndef) by discriminate.
  assert (H2 : VRef 2 <> VNull) by discriminate.
  exact (proj1 (proj2 (validateData_lists_errors Fixtures.noString Fixtures.noObject (VRef 2)
                         Fixtures.bare (Num 10%float) (Num 5%float) eq_refl eq_refl))
           H1 H2).
Defined.

End BuilderFacts.
